(** * Crystal Copilot backend: a shallow embedding and its verified properties

    The development follows the layout of the Python backend:

    - [Model]        : [app/models/report.py] (enumerations, pydantic records,
                       the [new_position] validator);
    - [EditService]  : [app/services/edit_service.py];
    - [Query]        : [app/api/v1/endpoints/query.py] (suggestion generator);
    - [FileUtils]    : [app/utils/file_utils.py] ([get_unique_filename]);
    - [Storage]      : [app/services/storage.py] (the [reports] table);
    - [Upload]       : [app/api/v1/endpoints/upload.py] (the upload handler
                       and the background parsing task);
    - [SafeName]     : [app/utils/file_utils.py] ([safe_filename]);
    - [Endpoints]    : the read and delete endpoints of [reports.py],
                       [upload.py] and [query.py];
    - [EditApi]      : [app/api/v1/endpoints/edit.py];
    - [Samples], [MoreSamples] : the concrete inputs the examples run on.

    The properties follow, one module of facts per module of code.

    Python dictionaries are [gmap]s, the file system is a [gmap] from paths to
    contents, exceptions are a sum type, and calls that leave the process
    (the parser, the SDK call, the clock, [uuid4]) are arguments that carry
    their outcome; so are the answers of [pathlib] and [os.path] that depend
    on the platform. *)

From Stdlib Require Import ZArith Ascii String List Lia.
From stdpp Require Import gmap strings list pretty.

Local Open Scope Z_scope.

(** Python truthiness of the optional values the code tests with [if v] /
    [if not v]: [None], the empty string and the empty dict are falsy. *)
Module Py.

Definition truthy_str (v : option string) : bool :=
  match v with
  | Some s => negb (bool_decide (s = ""))
  | None => false
  end.

Definition truthy_dict {V} (v : option (gmap string V)) : bool :=
  match v with
  | Some d => negb (bool_decide (d = ∅))
  | None => false
  end.

(** A value stored under a key of a [Dict[str, Any]]. The code never looks
    inside such a value, it only moves whole dictionaries around. *)
Inductive pyval :=
| PNone
| PBool (b : bool)
| PInt (n : Z)
| PStr (s : string).

(** [sep.join(parts)] *)
Fixpoint join (sep : string) (parts : list string) : string :=
  match parts with
  | [] => ""
  | [s] => s
  | s :: rest => s +:+ sep +:+ join sep rest
  end.

(** [needle in haystack] for strings. *)
Definition substring_of (needle haystack : string) : Prop :=
  ∃ pre post, haystack = pre +:+ needle +:+ post.

End Py.

(** * The data model, [app/models/report.py] *)
Module Model.
Import Py.

Inductive ReportStatus := UPLOADING | PARSING | READY | ERROR.

Inductive FieldType :=
| STRING | NUMBER | DATE | DATETIME | BOOLEAN | CURRENCY | FORMULA
| PARAMETER | RUNNING_TOTAL | GROUP | SUMMARY.

Inductive SectionType :=
| REPORT_HEADER | PAGE_HEADER | GROUP_HEADER | DETAILS
| GROUP_FOOTER | REPORT_FOOTER | PAGE_FOOTER.

Inductive EditPatchOperation :=
| HIDE | SHOW | MOVE | RENAME | RESIZE | FORMAT | DELETE.

#[global] Instance ReportStatus_eq_dec : EqDecision ReportStatus.
Proof. solve_decision. Defined.
#[global] Instance FieldType_eq_dec : EqDecision FieldType.
Proof. solve_decision. Defined.
#[global] Instance SectionType_eq_dec : EqDecision SectionType.
Proof. solve_decision. Defined.
#[global] Instance EditPatchOperation_eq_dec : EqDecision EditPatchOperation.
Proof. solve_decision. Defined.

Record DatabaseField := {
  df_table_name : string;
  df_field_name : string;
  df_data_type : string;
  df_is_key : bool;
  df_description : option string
}.

Record ReportField := {
  f_id : string;
  f_name : string;
  f_display_name : option string;
  f_field_type : FieldType;
  f_section : SectionType;
  f_x : Z;
  f_y : Z;
  f_width : Z;
  f_height : Z;
  f_visible : bool;
  f_formula : option string;
  f_format : option (gmap string pyval);
  f_database_field : option DatabaseField
}.

(** The validator [set_display_name]: [v or values.get('name')]. *)
Definition set_display_name (v : option string) (name : string) : option string :=
  if truthy_str v then v else Some name.

(** Building a [ReportField] from its dumped fields runs the validator. *)
Definition ReportField_validate (f : ReportField) : ReportField :=
  {| f_id := f_id f; f_name := f_name f;
     f_display_name := set_display_name (f_display_name f) (f_name f);
     f_field_type := f_field_type f; f_section := f_section f;
     f_x := f_x f; f_y := f_y f; f_width := f_width f; f_height := f_height f;
     f_visible := f_visible f; f_formula := f_formula f; f_format := f_format f;
     f_database_field := f_database_field f |}.

Record ReportSection := {
  s_id : string;
  s_section_type : SectionType;
  s_name : string;
  s_height : Z;
  s_visible : bool;
  s_fields : list ReportField
}.

Record DatabaseConnection := {
  dc_driver : string;
  dc_server : option string;
  dc_database : option string;
  dc_username : option string;
  dc_connection_string : option string
}.

Record ReportMetadata := {
  m_id : string;
  m_filename : string;
  m_title : option string;
  m_description : option string;
  m_author : option string;
  m_created_date : option string;
  m_modified_date : option string;
  m_sections : list ReportSection;
  m_parameters : list ReportField;
  m_formulas : list ReportField;
  m_database_connections : list DatabaseConnection;
  m_tables : list string;
  m_status : ReportStatus;
  m_file_size : Z;
  m_parsed_at : option string;
  m_error_message : option string
}.

Definition ReportSection_validate (s : ReportSection) : ReportSection :=
  {| s_id := s_id s; s_section_type := s_section_type s; s_name := s_name s;
     s_height := s_height s; s_visible := s_visible s;
     s_fields := map ReportField_validate (s_fields s) |}.

(** The copy made by [model_dump] followed by the [ReportMetadata]
    constructor: a fresh object graph, every nested model rebuilt (and so
    re-validated) from its dumped fields. *)
Definition ReportMetadata_rebuild (m : ReportMetadata) : ReportMetadata :=
  {| m_id := m_id m; m_filename := m_filename m; m_title := m_title m;
     m_description := m_description m; m_author := m_author m;
     m_created_date := m_created_date m; m_modified_date := m_modified_date m;
     m_sections := map ReportSection_validate (m_sections m);
     m_parameters := map ReportField_validate (m_parameters m);
     m_formulas := map ReportField_validate (m_formulas m);
     m_database_connections := m_database_connections m;
     m_tables := m_tables m; m_status := m_status m;
     m_file_size := m_file_size m; m_parsed_at := m_parsed_at m;
     m_error_message := m_error_message m |}.

(** ** [EditPatch] and its [new_position] validator *)

Record EditPatch := {
  p_id : string;
  p_operation : EditPatchOperation;
  p_target_field_id : string;
  p_target_section_id : option string;
  p_new_name : option string;
  p_new_position : option (gmap string Z);
  p_new_format : option (gmap string pyval);
  p_visible : option bool;
  p_description : option string;
  p_created_at : string;
  p_applied_at : option string
}.

(** The two [ValueError]s of [validate_position]:
    "Position must contain all keys: ..." and
    "Position values must be non-negative integers". *)
Inductive ValueError :=
| PositionKeysMissing
| PositionValuesInvalid.

Definition required_keys : list string := ["x"; "y"; "width"; "height"].

(** [key in v] *)
Definition has_key (v : gmap string Z) (key : string) : bool :=
  bool_decide (is_Some (v !! key)).

(** [isinstance(v[key], int) and v[key] >= 0]; the field is typed
    [Dict[str, int]], so the value is an integer when the validator runs. *)
Definition nonneg_at (v : gmap string Z) (key : string) : bool :=
  match v !! key with
  | Some n => bool_decide (0 ≤ n)
  | None => false
  end.

Definition validate_position (v : option (gmap string Z))
  : ValueError + option (gmap string Z) :=
  match v with
  | Some d =>
      if negb (forallb (has_key d) required_keys) then inl PositionKeysMissing
      else if negb (forallb (nonneg_at d) required_keys) then inl PositionValuesInvalid
      else inr v
  | None => inr v
  end.

(** Construction of an [EditPatch] from the supplied fields: the record is
    built only when the validator accepts [new_position]. *)
Definition EditPatch_new (raw : EditPatch) : ValueError + EditPatch :=
  match validate_position (p_new_position raw) with
  | inl e => inl e
  | inr pos =>
      inr {| p_id := p_id raw; p_operation := p_operation raw;
             p_target_field_id := p_target_field_id raw;
             p_target_section_id := p_target_section_id raw;
             p_new_name := p_new_name raw; p_new_position := pos;
             p_new_format := p_new_format raw; p_visible := p_visible raw;
             p_description := p_description raw;
             p_created_at := p_created_at raw;
             p_applied_at := p_applied_at raw |}
  end.

(** The audit record. Its [id] and [timestamp] are filled by default
    factories ([uuid4], [utcnow]) at construction; they are not carried
    here, nothing below reads them. *)
Record ChangeLogEntry := {
  c_report_id : string;
  c_patch_id : string;
  c_operation : EditPatchOperation;
  c_field_name : string;
  c_field_id : string;
  c_before_value : option (gmap string pyval);
  c_after_value : option (gmap string pyval);
  c_user_id : option string;
  c_description : option string;
  c_success : bool;
  c_error_message : option string
}.

Record ApplyEditsResponse := {
  r_success : bool;
  r_applied_patches : list string;
  r_failed_patches : list (string * string);
  r_backup_path : option string;
  r_change_log_entries : list ChangeLogEntry
}.

End Model.

(** * The edit service, [app/services/edit_service.py] *)
Module EditService.
Import Py Model.

Definition FieldType_value (t : FieldType) : string :=
  match t with
  | STRING => "string" | NUMBER => "number" | DATE => "date"
  | DATETIME => "datetime" | BOOLEAN => "boolean" | CURRENCY => "currency"
  | FORMULA => "formula" | PARAMETER => "parameter"
  | RUNNING_TOTAL => "running_total" | GROUP => "group" | SUMMARY => "summary"
  end.

Definition EditPatchOperation_value (o : EditPatchOperation) : string :=
  match o with
  | HIDE => "hide" | SHOW => "show" | MOVE => "move" | RENAME => "rename"
  | RESIZE => "resize" | FORMAT => "format" | DELETE => "delete"
  end.

(** ** Lookup *)

(** The inner loop [for field in fields: if field.id == field_id: return field]. *)
Fixpoint find_in_fields (fields : list ReportField) (field_id : string)
  : option ReportField :=
  match fields with
  | [] => None
  | field :: rest =>
      if bool_decide (f_id field = field_id) then Some field
      else find_in_fields rest field_id
  end.

Fixpoint find_in_sections (sections : list ReportSection) (field_id : string)
  : option ReportField :=
  match sections with
  | [] => None
  | section :: rest =>
      match find_in_fields (s_fields section) field_id with
      | Some field => Some field
      | None => find_in_sections rest field_id
      end
  end.

(** [_find_field_by_id]: sections, then parameters, then formulas. *)
Definition _find_field_by_id (metadata : ReportMetadata) (field_id : string)
  : option ReportField :=
  match find_in_sections (m_sections metadata) field_id with
  | Some field => Some field
  | None =>
      match find_in_fields (m_parameters metadata) field_id with
      | Some param => Some param
      | None => find_in_fields (m_formulas metadata) field_id
      end
  end.

(** [_find_section_for_field] *)
Fixpoint _find_section_for_field_in (sections : list ReportSection)
  (field_id : string) : string :=
  match sections with
  | [] => "Other"
  | section :: rest =>
      match find_in_fields (s_fields section) field_id with
      | Some _ => s_name section
      | None => _find_section_for_field_in rest field_id
      end
  end.

Definition _find_section_for_field (metadata : ReportMetadata)
  (field_id : string) : string :=
  _find_section_for_field_in (m_sections metadata) field_id.

(** ** Validation *)

(** The errors one patch contributes to the list. *)
Definition patch_errors (metadata : ReportMetadata) (patch : EditPatch)
  : list string :=
  match _find_field_by_id metadata (p_target_field_id patch) with
  | None => ["Field " +:+ p_target_field_id patch +:+ " not found"]
  | Some _ =>
      match p_operation patch with
      | RENAME =>
          if truthy_str (p_new_name patch) then []
          else ["Patch " +:+ p_id patch +:+ ": new_name required for rename operation"]
      | MOVE =>
          if truthy_dict (p_new_position patch) then []
          else ["Patch " +:+ p_id patch +:+ ": new_position required for move operation"]
      | RESIZE =>
          if truthy_dict (p_new_position patch) then []
          else ["Patch " +:+ p_id patch +:+ ": new_position required for resize operation"]
      | FORMAT =>
          if truthy_dict (p_new_format patch) then []
          else ["Patch " +:+ p_id patch +:+ ": new_format required for format operation"]
      | _ => []
      end
  end.

(** [_validate_patches]: the loop appends to [errors] patch by patch. *)
Fixpoint _validate_patches (metadata : ReportMetadata) (patches : list EditPatch)
  : list string :=
  match patches with
  | [] => []
  | patch :: rest => patch_errors metadata patch ++ _validate_patches metadata rest
  end.

Definition validation_message (errors : list string) : string :=
  "Patch validation failed: " +:+ join "; " errors.

(** ** Patches on the preview copy *)

Definition set_visible (b : bool) (f : ReportField) : ReportField :=
  {| f_id := f_id f; f_name := f_name f; f_display_name := f_display_name f;
     f_field_type := f_field_type f; f_section := f_section f;
     f_x := f_x f; f_y := f_y f; f_width := f_width f; f_height := f_height f;
     f_visible := b; f_formula := f_formula f; f_format := f_format f;
     f_database_field := f_database_field f |}.

Definition set_display (n : option string) (f : ReportField) : ReportField :=
  {| f_id := f_id f; f_name := f_name f; f_display_name := n;
     f_field_type := f_field_type f; f_section := f_section f;
     f_x := f_x f; f_y := f_y f; f_width := f_width f; f_height := f_height f;
     f_visible := f_visible f; f_formula := f_formula f; f_format := f_format f;
     f_database_field := f_database_field f |}.

Definition set_position (x y w h : Z) (f : ReportField) : ReportField :=
  {| f_id := f_id f; f_name := f_name f; f_display_name := f_display_name f;
     f_field_type := f_field_type f; f_section := f_section f;
     f_x := x; f_y := y; f_width := w; f_height := h;
     f_visible := f_visible f; f_formula := f_formula f; f_format := f_format f;
     f_database_field := f_database_field f |}.

Definition set_format (fmt : option (gmap string pyval)) (f : ReportField)
  : ReportField :=
  {| f_id := f_id f; f_name := f_name f; f_display_name := f_display_name f;
     f_field_type := f_field_type f; f_section := f_section f;
     f_x := f_x f; f_y := f_y f; f_width := f_width f; f_height := f_height f;
     f_visible := f_visible f; f_formula := f_formula f; f_format := fmt;
     f_database_field := f_database_field f |}.

(** [d.get(key, dflt)] *)
Definition dict_get (d : gmap string Z) (key : string) (dflt : Z) : Z :=
  default dflt (d !! key).

(** [_apply_patch_to_field]: the field after the in-place assignment. *)
Definition _apply_patch_to_field (field : ReportField) (patch : EditPatch)
  : ReportField :=
  match p_operation patch with
  | HIDE => set_visible false field
  | SHOW => set_visible true field
  | RENAME =>
      if truthy_str (p_new_name patch)
      then set_display (p_new_name patch) field else field
  | MOVE | RESIZE =>
      match p_new_position patch with
      | Some d =>
          if truthy_dict (p_new_position patch)
          then set_position (dict_get d "x" (f_x field)) (dict_get d "y" (f_y field))
                 (dict_get d "width" (f_width field))
                 (dict_get d "height" (f_height field)) field
          else field
      | None => field
      end
  | FORMAT =>
      if truthy_dict (p_new_format patch)
      then set_format (p_new_format patch) field else field
  | DELETE => field
  end.

(** One pass of [for x in xs: if x.id == target: patch x; break]. *)
Fixpoint patch_first (fields : list ReportField) (patch : EditPatch)
  : list ReportField :=
  match fields with
  | [] => []
  | field :: rest =>
      if bool_decide (f_id field = p_target_field_id patch)
      then _apply_patch_to_field field patch :: rest
      else field :: patch_first rest patch
  end.

Definition patch_section (patch : EditPatch) (s : ReportSection) : ReportSection :=
  {| s_id := s_id s; s_section_type := s_section_type s; s_name := s_name s;
     s_height := s_height s; s_visible := s_visible s;
     s_fields := patch_first (s_fields s) patch |}.

(** The body of the loop over [patches]: every section is scanned (the
    [break] leaves only the inner loop), then parameters, then formulas. *)
Definition apply_patch_to_metadata (m : ReportMetadata) (patch : EditPatch)
  : ReportMetadata :=
  {| m_id := m_id m; m_filename := m_filename m; m_title := m_title m;
     m_description := m_description m; m_author := m_author m;
     m_created_date := m_created_date m; m_modified_date := m_modified_date m;
     m_sections := map (patch_section patch) (m_sections m);
     m_parameters := patch_first (m_parameters m) patch;
     m_formulas := patch_first (m_formulas m) patch;
     m_database_connections := m_database_connections m;
     m_tables := m_tables m; m_status := m_status m;
     m_file_size := m_file_size m; m_parsed_at := m_parsed_at m;
     m_error_message := m_error_message m |}.

(** [_apply_patches_to_metadata]; [dry_run] is accepted and never read. *)
Definition _apply_patches_to_metadata (metadata : ReportMetadata)
  (patches : list EditPatch) (dry_run : bool) : ReportMetadata :=
  fold_left apply_patch_to_metadata patches (ReportMetadata_rebuild metadata).

(** ** Preview artefacts *)

(** [_generate_warnings] *)
Definition hide_warning (metadata : ReportMetadata) (patch : EditPatch)
  : list string :=
  match p_operation patch with
  | HIDE =>
      match _find_field_by_id metadata (p_target_field_id patch) with
      | Some field =>
          match f_field_type field with
          | CURRENCY | FORMULA =>
              ["Hiding " +:+ FieldType_value (f_field_type field) +:+ " field '"
               +:+ f_name field +:+ "' may affect report calculations"]
          | _ => []
          end
      | None => []
      end
  | _ => []
  end.

Definition is_rename (patch : EditPatch) : bool :=
  bool_decide (p_operation patch = RENAME).

Definition move_warning (patch : EditPatch) : list string :=
  match p_operation patch, p_new_position patch with
  | (MOVE | RESIZE), Some d =>
      if truthy_dict (p_new_position patch)
         && (bool_decide (dict_get d "x" 0 < 0) || bool_decide (dict_get d "y" 0 < 0))
      then ["Moving field to negative coordinates may make it invisible"]
      else []
  | _, _ => []
  end.

Definition _generate_warnings (metadata : ReportMetadata)
  (patches : list EditPatch) : list string :=
  let rename_patches := filter (λ p, is_rename p = true) patches in
  concat (map (hide_warning metadata) patches)
  ++ (if bool_decide (5 < length rename_patches)%nat
      then ["Renaming " +:+ pretty (length rename_patches)
            +:+ " fields at once may cause confusion"]
      else [])
  ++ concat (map move_warning patches).

(** [_estimate_impact] *)
Definition _estimate_impact (patches : list EditPatch) : string :=
  let total_patches := length patches in
  if bool_decide (total_patches = 1%nat) then "Low impact - single field change"
  else if bool_decide (total_patches ≤ 5)%nat
       then "Medium impact - " +:+ pretty total_patches +:+ " field changes"
       else "High impact - " +:+ pretty total_patches
            +:+ " field changes across multiple operations".

(** ** The audit record *)

Definition position_snapshot (field : ReportField) : gmap string pyval :=
  {[ "x" := PInt (f_x field); "y" := PInt (f_y field);
     "width" := PInt (f_width field); "height" := PInt (f_height field) ]}.

Definition opt_str (v : option string) : pyval :=
  match v with Some s => PStr s | None => PNone end.

Definition one_key (key : string) (v : pyval) : gmap string pyval :=
  {[ key := v ]}.

(** A position map seen as a [Dict[str, Any]]. *)
Definition as_any (d : gmap string Z) : gmap string pyval := PInt <$> d.

(** The before/after snapshots, by operation. *)
Definition value_snapshots (f : ReportField) (patch : EditPatch)
  : option (gmap string pyval) * option (gmap string pyval) :=
  match p_operation patch with
  | HIDE => (Some (one_key "visible" (PBool (f_visible f))),
             Some (one_key "visible" (PBool false)))
  | SHOW => (Some (one_key "visible" (PBool (f_visible f))),
             Some (one_key "visible" (PBool true)))
  | RENAME => (Some (one_key "display_name" (opt_str (f_display_name f))),
               Some (one_key "display_name" (opt_str (p_new_name patch))))
  | MOVE | RESIZE => (Some (position_snapshot f),
                      as_any <$> p_new_position patch)
  | FORMAT => (f_format f, p_new_format patch)
  | DELETE => (None, None)
  end.

(** [_create_change_log_entry] *)
Definition _create_change_log_entry (metadata : ReportMetadata)
  (patch : EditPatch) (user_id : option string) (success : bool)
  (error_message : option string) : ChangeLogEntry :=
  let field := _find_field_by_id metadata (p_target_field_id patch) in
  let field_name := match field with Some f => f_name f | None => "Unknown" end in
  let values :=
    match field with
    | Some f => value_snapshots f patch
    | None => (None, None)
    end in
  {| c_report_id := m_id metadata; c_patch_id := p_id patch;
     c_operation := p_operation patch; c_field_name := field_name;
     c_field_id := p_target_field_id patch;
     c_before_value := fst values; c_after_value := snd values;
     c_user_id := user_id; c_description := p_description patch;
     c_success := success; c_error_message := error_message |}.

(** ** Effects: the file system and the SDK *)

(** A [pathlib.Path], by the components the code reads from it. *)
Record Path := {
  parent : string;
  stem : string;
  suffix : string
}.

Definition path_str (p : Path) : string :=
  parent p +:+ "/" +:+ stem p +:+ suffix p.

(** What [apply_edits] can touch: the files that exist (path to content) and
    the calls made to [_apply_single_patch], by patch id and in order. *)
Record world := {
  files : gmap string (list Byte.byte);
  sdk_calls : list string
}.

(** What the surroundings of one [apply_edits] call decide:
    - [sdk_outcome i patch]: the text of the exception the [i]-th iteration's
      [_apply_single_patch] call raises, [None] when it returns;
    - [copy_outcome]: the same for [shutil.copy2];
    - [now]: [datetime.now()] rendered by [strftime]. *)
Record env := {
  sdk_outcome : nat → EditPatch → option string;
  copy_outcome : option string;
  now : string
}.

(** [file_path.exists()] *)
Definition exists_ (w : world) (p : Path) : bool :=
  bool_decide (is_Some (files w !! path_str p)).

(** [_create_backup]: the copy sits next to the original. *)
Definition backup_path_of (E : env) (file_path : Path) : Path :=
  {| parent := parent file_path;
     stem := stem file_path +:+ "_backup_" +:+ now E;
     suffix := suffix file_path |}.

Definition _create_backup (E : env) (w : world) (file_path : Path)
  : world * (string + Path) :=
  match copy_outcome E, files w !! path_str file_path with
  | Some err, _ => (w, inl err)
  | None, None =>
      (w, inl ("[Errno 2] No such file or directory: '"
               +:+ path_str file_path +:+ "'"))
  | None, Some content =>
      let backup_path := backup_path_of E file_path in
      ({| files := <[ path_str backup_path := content ]> (files w);
          sdk_calls := sdk_calls w |}, inr backup_path)
  end.

(** [_apply_single_patch]: the simulated SDK call; it only logs and sleeps,
    so all it leaves behind is that it was made. *)
Definition _apply_single_patch (E : env) (i : nat) (w : world)
  (metadata : ReportMetadata) (patch : EditPatch) (file_path : Path)
  : world * option string :=
  ({| files := files w; sdk_calls := sdk_calls w ++ [p_id patch] |},
   sdk_outcome E i patch).

(** ** [apply_edits] *)

(** The three accumulators of the loop. *)
Record progress := {
  applied_patches : list string;
  failed_patches : list (string * string);
  change_log_entries : list ChangeLogEntry
}.

Definition on_success (metadata : ReportMetadata) (user_id : option string)
  (patch : EditPatch) (acc : progress) : progress :=
  {| applied_patches := applied_patches acc ++ [p_id patch];
     failed_patches := failed_patches acc;
     change_log_entries := change_log_entries acc
       ++ [_create_change_log_entry metadata patch user_id true None] |}.

Definition on_failure (metadata : ReportMetadata) (user_id : option string)
  (patch : EditPatch) (error_msg : string) (acc : progress) : progress :=
  {| applied_patches := applied_patches acc;
     failed_patches := failed_patches acc ++ [(p_id patch, error_msg)];
     change_log_entries := change_log_entries acc
       ++ [_create_change_log_entry metadata patch user_id false (Some error_msg)] |}.

(** The [for patch in patches] loop, [i] counting the iterations. *)
Fixpoint apply_loop (E : env) (metadata : ReportMetadata) (file_path : Path)
  (user_id : option string) (dry_run : bool) (i : nat)
  (patches : list EditPatch) (w : world) (acc : progress) : world * progress :=
  match patches with
  | [] => (w, acc)
  | patch :: rest =>
      let '(w', raised) :=
        if dry_run then (w, None)
        else _apply_single_patch E i w metadata patch file_path in
      let acc' :=
        match raised with
        | None => on_success metadata user_id patch acc
        | Some error_msg => on_failure metadata user_id patch error_msg acc
        end in
      apply_loop E metadata file_path user_id dry_run (S i) rest w' acc'
  end.

Definition no_progress : progress :=
  {| applied_patches := []; failed_patches := []; change_log_entries := [] |}.

(** The response of the outer [except]: one failed entry named "all". *)
Definition failed_all (acc : progress) (backup_path : option Path) (e : string)
  : ApplyEditsResponse :=
  {| r_success := false;
     r_applied_patches := applied_patches acc;
     r_failed_patches := [("all", e)];
     r_backup_path := path_str <$> backup_path;
     r_change_log_entries := change_log_entries acc |}.

Definition apply_edits (E : env) (w : world) (metadata : ReportMetadata)
  (patches : list EditPatch) (file_path : Path) (user_id : option string)
  (dry_run create_backup : bool) : world * ApplyEditsResponse :=
  let validation_errors := _validate_patches metadata patches in
  match validation_errors with
  | _ :: _ => (w, failed_all no_progress None (validation_message validation_errors))
  | [] =>
      let '(w1, backup) :=
        if create_backup && negb dry_run && exists_ w file_path
        then let '(w1, r) := _create_backup E w file_path in
             (w1, match r with inl e => inl e | inr p => inr (Some p) end)
        else (w, inr None) in
      match backup with
      | inl e => (w1, failed_all no_progress None e)
      | inr backup_path =>
          let '(w2, acc) :=
            apply_loop E metadata file_path user_id dry_run 0 patches w1
              no_progress in
          (w2, {| r_success := bool_decide (length (failed_patches acc) = 0%nat);
                  r_applied_patches := applied_patches acc;
                  r_failed_patches := failed_patches acc;
                  r_backup_path := path_str <$> backup_path;
                  r_change_log_entries := change_log_entries acc |})
      end
  end.

(** ** [preview_edits] *)

(** The preview response; its [html_diff] text, rendered from the same
    patches and the original fields, is not carried (its rendering reads
    the x and y of a position map, which every constructed patch has). *)
Record EditPreviewResponse := {
  v_patches : list EditPatch;
  v_affected_fields : list ReportField;
  v_warnings : list string;
  v_estimated_impact : string
}.

Definition affected_fields (metadata : ReportMetadata) (patches : list EditPatch)
  : list ReportField :=
  omap (λ patch, _find_field_by_id metadata (p_target_field_id patch)) patches.

(** [inl msg] is the [ValueError] the method re-raises. *)
Definition preview_edits (metadata : ReportMetadata) (patches : list EditPatch)
  : string + EditPreviewResponse :=
  let validation_errors := _validate_patches metadata patches in
  match validation_errors with
  | _ :: _ => inl (validation_message validation_errors)
  | [] =>
      let preview_metadata := _apply_patches_to_metadata metadata patches true in
      inr {| v_patches := patches;
             v_affected_fields := affected_fields metadata patches;
             v_warnings := _generate_warnings metadata patches;
             v_estimated_impact := _estimate_impact patches |}
  end.

(** ** What the loop meets *)

(** The exception text the [i]-th iteration's mutation raises, if any: a dry
    run makes no call, so nothing is raised in it. *)
Definition raised (E : env) (dry_run : bool) (i : nat) (patch : EditPatch)
  : option string :=
  if dry_run then None else sdk_outcome E i patch.

(** Each patch with what its iteration meets, [i] being the index of the
    first one. *)
Fixpoint outcomes (E : env) (dry_run : bool) (i : nat) (patches : list EditPatch)
  : list (EditPatch * option string) :=
  match patches with
  | [] => []
  | patch :: rest => (patch, raised E dry_run i patch) :: outcomes E dry_run (S i) rest
  end.


(** ** Reading the results *)

(** What one iteration adds to each of the three lists, given the patch and
    what its mutation raised. *)
Definition applied_id (po : EditPatch * option string) : option string :=
  match po.2 with None => Some (p_id po.1) | Some _ => None end.

Definition failed_pair (po : EditPatch * option string) : option (string * string) :=
  (λ e, (p_id po.1, e)) <$> po.2.

Definition logged (metadata : ReportMetadata) (user_id : option string)
  (po : EditPatch * option string) : ChangeLogEntry :=
  _create_change_log_entry metadata po.1 user_id (bool_decide (po.2 = None)) po.2.

End EditService.

(** * Query suggestions, [app/api/v1/endpoints/query.py] *)
Module Query.
Import Py Model.

(** [if name not in names: names.append(name)] *)
Definition add_unique (names : list string) (name : string) : list string :=
  if bool_decide (name ∈ names) then names else names ++ [name].

(** [list(dict.fromkeys(xs))]: first occurrences, in order. *)
Definition dict_fromkeys (xs : list string) : list string :=
  fold_left add_unique xs [].

(** The three lists filled by the scan over all section fields. *)
Record scan := {
  field_names : list string;
  formula_fields : list string;
  currency_fields : list string
}.

Definition scan_field (acc : scan) (field : ReportField) : scan :=
  {| field_names := add_unique (field_names acc) (f_name field);
     formula_fields :=
       if bool_decide (f_field_type field = FORMULA)
       then add_unique (formula_fields acc) (f_name field)
       else formula_fields acc;
     currency_fields :=
       if bool_decide (f_field_type field = CURRENCY)
       then add_unique (currency_fields acc) (f_name field)
       else currency_fields acc |}.

Definition scan_sections (sections : list ReportSection) : scan :=
  fold_left (λ acc section, fold_left scan_field (s_fields section) acc)
    sections
    {| field_names := []; formula_fields := []; currency_fields := [] |}.

Definition generic_questions : list string :=
  [ "What sections does this report have?";
    "How many fields are in this report?";
    "What database tables are used?" ].

Definition field_questions (field_name : string) : list string :=
  [ "Where does " +:+ field_name +:+ " come from?";
    "Show me details about the " +:+ field_name +:+ " field" ].

(** [xs[0]] of a non-empty list, tested for truth. *)
Definition first_truthy (xs : list string) : option string :=
  match xs with
  | x :: _ => if bool_decide (x = "") then None else Some x
  | [] => None
  end.

Definition formula_questions (formula_fields : list string) : list string :=
  match formula_fields with
  | [] => []
  | _ :: _ =>
      "Which fields use formulas?"
      :: match first_truthy formula_fields with
         | Some n => ["What is the formula for " +:+ n +:+ "?"]
         | None => []
         end
  end.

Definition currency_questions (currency_fields : list string) : list string :=
  match currency_fields with
  | [] => []
  | _ :: _ =>
      "Show me all currency fields"
      :: match first_truthy currency_fields with
         | Some n => ["How is " +:+ n +:+ " calculated?"]
         | None => []
         end
  end.

Definition database_questions (metadata : ReportMetadata) : list string :=
  (match m_database_connections metadata with
   | [] => []
   | _ :: _ => ["What database connections are configured?"]
   end)
  ++ (match m_tables metadata with
      | [] => []
      | _ :: _ =>
          "What tables are used in this report?"
          :: (if bool_decide (1 < length (m_tables metadata))%nat
              then ["How are the tables related?"] else [])
      end).

Definition parameter_questions (metadata : ReportMetadata) : list string :=
  match m_parameters metadata with
  | [] => []
  | _ :: _ =>
      "What parameters does this report have?"
      :: map (λ param_name, "How is the " +:+ param_name +:+ " parameter used?")
           (map f_name (take 2 (m_parameters metadata)))
  end.

(** ['details' in section_types] and its two siblings. *)
Definition has_section_type (metadata : ReportMetadata) (t : SectionType) : bool :=
  bool_decide (t ∈ map s_section_type (m_sections metadata)).

Definition section_questions (metadata : ReportMetadata) : list string :=
  (if has_section_type metadata DETAILS
   then ["What fields are in the Details section?"] else [])
  ++ (if has_section_type metadata REPORT_HEADER
      then ["What's displayed in the report header?"] else [])
  ++ (if has_section_type metadata REPORT_FOOTER
      then ["What totals are shown in the footer?"] else []).

(** The list before deduplication, in the order the code appends. *)
Definition all_suggestions (metadata : ReportMetadata) : list string :=
  let sc := scan_sections (m_sections metadata) in
  generic_questions
  ++ concat (map field_questions (take 3 (field_names sc)))
  ++ formula_questions (formula_fields sc)
  ++ currency_questions (currency_fields sc)
  ++ database_questions metadata
  ++ parameter_questions metadata
  ++ section_questions metadata.

Definition _generate_query_suggestions (metadata : ReportMetadata) : list string :=
  take 15 (dict_fromkeys (all_suggestions metadata)).

(** ** Reading the results *)

(** The scan, resumed from given lists. *)
Definition scan_from (acc : scan) (sections : list ReportSection) : scan :=
  fold_left (λ acc section, fold_left scan_field (s_fields section) acc)
    sections acc.

(** Some section holds a field of type [t]. *)
Definition has_field_of_type (metadata : ReportMetadata) (t : FieldType) : Prop :=
  ∃ section field,
    section ∈ m_sections metadata ∧ field ∈ s_fields section
    ∧ f_field_type field = t.

(** A report with a currency field and a formula field in its sections, a
    parameter, and two tables. *)
Definition rich (metadata : ReportMetadata) : Prop :=
  has_field_of_type metadata CURRENCY
  ∧ has_field_of_type metadata FORMULA
  ∧ m_parameters metadata ≠ []
  ∧ (2 ≤ length (m_tables metadata))%nat.

End Query.

(** * File helpers, [app/utils/file_utils.py] *)
Module FileUtils.

Section get_unique_filename.
(** [os.path.splitext], whose rule depends on the platform, and
    [(directory / name).exists()], the answer of the file system for the
    path the name joins the directory to. *)
Variable splitext : string → string * string.
Variable path_exists : string → bool.



End get_unique_filename.


(** [posixpath.splitext], for running the function on examples. *)
Fixpoint rsplit_dot (s : string) : option (string * string) :=
  match s with
  | EmptyString => None
  | String c rest =>
      match rsplit_dot rest with
      | Some (a, b) => Some (String c a, b)
      | None => if bool_decide (c = "."%char) then Some (EmptyString, s) else None
      end
  end.

Fixpoint all_dots (s : string) : bool :=
  match s with
  | EmptyString => true
  | String c rest => bool_decide (c = "."%char) && all_dots rest
  end.

Fixpoint has_sep (s : string) : bool :=
  match s with
  | EmptyString => false
  | String c rest => bool_decide (c = "/"%char) || has_sep rest
  end.

Definition posix_splitext (p : string) : string * string :=
  match rsplit_dot p with
  | Some (root, ext) =>
      if has_sep ext then (p, EmptyString)
      else
        (* the characters between the last separator and the last dot *)
        let fix base (s : string) (acc : string) : string :=
          match s with
          | EmptyString => acc
          | String c rest =>
              if bool_decide (c = "/"%char) then base rest EmptyString
              else base rest (acc +:+ String c EmptyString)
          end in
        if all_dots (base root EmptyString) then (p, EmptyString) else (root, ext)
  | None => (p, EmptyString)
  end.

End FileUtils.

(** * The [reports] table, [app/services/storage.py] *)
Module Storage.
Import Py Model.

(** The JSON text [metadata.model_dump_json()] gives, told by the model it
    was dumped from. *)
Inductive json_text := model_dump_json (metadata : ReportMetadata).

(** The [ReportMetadata] constructor on [json.loads(text)]: the model is
    built anew from the text, every nested model through its validators. *)
Definition ReportMetadata_of_json (text : json_text) : ReportMetadata :=
  match text with
  | model_dump_json metadata => ReportMetadata_rebuild metadata
  end.

(** One row of [reports]; the two timestamp columns are left out. *)
Record report_row := {
  filename : string;
  file_path : string;
  file_size : Z;
  status : ReportStatus;
  error_message : option string;
  metadata_json : option json_text
}.

Definition with_metadata (metadata : ReportMetadata) (row : report_row)
  : report_row :=
  {| filename := filename row; file_path := file_path row;
     file_size := file_size row; status := status row;
     error_message := error_message row;
     metadata_json := Some (model_dump_json metadata) |}.

Definition with_status (s : ReportStatus) (e : option string) (row : report_row)
  : report_row :=
  {| filename := filename row; file_path := file_path row;
     file_size := file_size row; status := s;
     error_message := e; metadata_json := metadata_json row |}.

(** Every write takes [fault], the text of the database exception the
    statement raises ([None]: the statement runs and is committed). A
    raised exception is logged and re-raised; the table is unchanged. *)

(** [create_report_record]: [INSERT] with status 'uploading'; [id] is the
    primary key. *)
Definition create_report_record (fault : option string)
  (table : gmap string report_row) (report_id filename : string)
  (file_size : Z) (file_path : string) : string + gmap string report_row :=
  match fault with
  | Some e => inl e
  | None =>
      match table !! report_id with
      | Some _ => inl "UNIQUE constraint failed: reports.id"
      | None =>
          inr (<[ report_id :=
                   {| filename := filename; file_path := file_path;
                      file_size := file_size; status := UPLOADING;
                      error_message := None; metadata_json := None |} ]> table)
      end
  end.

(** [store_metadata]: the metadata is dumped to JSON, then
    [UPDATE ... SET metadata_json = ? WHERE id = ?]. *)
Definition store_metadata (fault : option string)
  (table : gmap string report_row) (report_id : string)
  (metadata : ReportMetadata) : string + gmap string report_row :=
  match fault with
  | Some e => inl e
  | None => inr (alter (with_metadata metadata) report_id table)
  end.

(** [update_report_status]: [UPDATE ... SET status = ?, error_message = ?]. *)
Definition update_report_status (fault : option string)
  (table : gmap string report_row) (report_id : string)
  (s : ReportStatus) (error_message : option string)
  : string + gmap string report_row :=
  match fault with
  | Some e => inl e
  | None => inr (alter (with_status s error_message) report_id table)
  end.

(** [get_metadata]: the text of the row, read back into a model. [fault]
    says that an exception is raised on the way (by the database, the JSON
    text or a validator); it is logged and [None] is returned. *)
Definition get_metadata (fault : bool) (table : gmap string report_row)
  (report_id : string) : option ReportMetadata :=
  if fault then None
  else match table !! report_id with
       | Some row => ReportMetadata_of_json <$> metadata_json row
       | None => None
       end.

End Storage.

(** * Upload and background parsing, [app/api/v1/endpoints/upload.py] *)
Module Upload.
Import Py Model Storage.

(** The three settings of [app/core/config.py] the handler reads. *)
Record Settings := {
  MAX_FILE_SIZE : Z;
  UPLOAD_DIR : string;
  ALLOWED_EXTENSIONS : list string
}.

Definition default_settings : Settings :=
  {| MAX_FILE_SIZE := 25 * 1024 * 1024;
     UPLOAD_DIR := "./uploads";
     ALLOWED_EXTENSIONS := [".rpt"] |}.

(** A scheduled [process_report_background] call. *)
Record task := {
  t_file_path : string;
  t_report_id : string;
  t_filename : string
}.

(** The server: the files on disk, the [reports] table and the background
    tasks added and not yet run. *)
Record state := {
  fs : gmap string (list Byte.byte);
  reports : gmap string report_row;
  background_tasks : list task
}.

Definition set_fs (f : gmap string (list Byte.byte)) (w : state) : state :=
  {| fs := f; reports := reports w; background_tasks := background_tasks w |}.

Definition set_reports (t : gmap string report_row) (w : state) : state :=
  {| fs := fs w; reports := t; background_tasks := background_tasks w |}.

Record UploadResponse := {
  u_report_id : string;
  u_filename : string;
  u_file_size : Z;
  u_status : ReportStatus;
  u_message : string
}.

Inductive result (A : Type) :=
| Ok (a : A)
| HTTPException (status_code : Z) (detail : string).
Arguments Ok {A} a.
Arguments HTTPException {A} status_code detail.

(** What one upload request meets: the id [uuid4] draws, and the text of
    the exception raised while the file is written / the row inserted. *)
Record upload_env := {
  uuid4 : string;
  write_fault : option string;
  insert_fault : option string
}.

Section upload_report.
(** [Path(name).suffix.lower()] and the one-decimal rendering of
    [MAX_FILE_SIZE / (1024*1024)]: library code, as parameters. *)
Variable suffix_lower : string → string.
Variable megabytes : Z → string.

(** [str(Path(dir) / name)]: pathlib joins the two and renders the result
    in its normal form ('./uploads' comes out as 'uploads'), with the
    separator of the platform; library code as well. *)
Variable in_dir : string → string → string.

Definition upload_report (settings : Settings) (E : upload_env) (w : state)
  (file_name : option string) (content : list Byte.byte)
  : state * result UploadResponse :=
  if negb (truthy_str file_name)
  then (w, HTTPException 400 "No filename provided")
  else
    let name := default "" file_name in
    let file_ext := suffix_lower name in
    if negb (bool_decide (file_ext ∈ ALLOWED_EXTENSIONS settings))
    then (w, HTTPException 400
               ("Unsupported file type. Allowed: "
                +:+ join ", " (ALLOWED_EXTENSIONS settings)))
    else
      let size := Z.of_nat (length content) in
      if bool_decide (MAX_FILE_SIZE settings < size)
      then (w, HTTPException 413
                 ("File too large. Maximum size: "
                  +:+ megabytes (MAX_FILE_SIZE settings) +:+ "MB"))
      else if bool_decide (size = 0)
      then (w, HTTPException 400 "Empty file uploaded")
      else
        let report_id := uuid4 E in
        let path := in_dir (UPLOAD_DIR settings) (report_id +:+ "_" +:+ name) in
        (* except: unlink the file if it is there, answer 500 *)
        let failed (w' : state) (error_msg : string) :=
          (set_fs (delete path (fs w')) w',
           HTTPException 500 ("Upload failed: " +:+ error_msg)) in
        match write_fault E with
        | Some e => failed w e
        | None =>
            let w1 := set_fs (<[ path := content ]> (fs w)) w in
            match create_report_record (insert_fault E) (reports w1)
                    report_id name size path with
            | inl e => failed w1 e
            | inr table =>
                ({| fs := fs w1; reports := table;
                    background_tasks := background_tasks w1
                      ++ [{| t_file_path := path; t_report_id := report_id;
                             t_filename := name |}] |},
                 Ok {| u_report_id := report_id; u_filename := name;
                       u_file_size := size; u_status := PARSING;
                       u_message :=
                         "File uploaded successfully. Processing in background." |})
            end
        end.
End upload_report.

(** ** The background task *)

(** A computation over the server that may raise: it returns the states it
    committed on the way (oldest first), the final state, and either the
    exception text or a value. *)
Definition M (A : Type) : Type := state → list state * state * (string + A).

Definition ret {A} (a : A) : M A := λ w, ([], w, inr a).
Definition raise {A} (e : string) : M A := λ w, ([], w, inl e).

Definition bind {A B} (m : M A) (k : A → M B) : M B := λ w,
  let '(t1, w1, r) := m w in
  match r with
  | inl e => (t1, w1, inl e)
  | inr a => let '(t2, w2, r2) := k a w1 in (t1 ++ t2, w2, r2)
  end.

(** [try: m except Exception as e: h e] *)
Definition try_except {A} (m : M A) (h : string → M A) : M A := λ w,
  let '(t1, w1, r) := m w in
  match r with
  | inl e => let '(t2, w2, r2) := h e w1 in (t1 ++ t2, w2, r2)
  | inr a => (t1, w1, inr a)
  end.

#[global] Instance M_ret : MRet M := @ret.
#[global] Instance M_bind : MBind M := λ A B k m, bind m k.

(** A storage write: committed and recorded, or raised. *)
Definition write (op : gmap string report_row → string + gmap string report_row)
  : M unit := λ w,
  match op (reports w) with
  | inl e => ([], w, inl e)
  | inr table => let w' := set_reports table w in ([w'], w', inr tt)
  end.

(** [file_path.stat().st_size]; [error] is the text of the exception raised
    when the file is not there, in the wording of the platform. *)
Definition stat_size (error : string) (path : string) : M Z := λ w,
  match fs w !! path with
  | Some content => ret (Z.of_nat (length content)) w
  | None => raise error w
  end.

(** What one run of the task meets: the outcome of [parser.parse_report]
    (the exception text, or the metadata), the faults of its three storage
    writes, and the text of the exception [stat] raises on a missing
    file. *)
Record task_env := {
  parse_report : string + ReportMetadata;
  store_fault : option string;
  ready_fault : option string;
  error_fault : option string;
  stat_error : string
}.

(** [parser.parse_report(file_path, report_id, filename)] *)
Definition parse (E : task_env) : M ReportMetadata :=
  λ w, ([], w, parse_report E).

Definition process_report_background (E : task_env)
  (file_path report_id file_name : string) : M unit :=
  try_except
    (metadata ← parse E;
     write (λ t, store_metadata (store_fault E) t report_id metadata);;
     write (λ t, update_report_status (ready_fault E) t report_id READY None);;
     size ← stat_size (stat_error E) file_path;
     mret tt)
    (λ error_msg,
     write (λ t, update_report_status (error_fault E) t report_id ERROR
                   (Some error_msg))).

(** The next scheduled task, run after the response has been sent: the
    states it goes through. *)
Definition run_next (E : task_env) (w : state) : list state :=
  match background_tasks w with
  | [] => []
  | t :: rest =>
      let w0 := {| fs := fs w; reports := reports w; background_tasks := rest |} in
      w0 :: (process_report_background E (t_file_path t) (t_report_id t)
               (t_filename t) w0).1.1
  end.

(** [delete_report] of [storage.py], on the server: the row goes, then the
    file if it is there; any exception is logged and answered by [False].
    [db_fault] is raised by the statements, before the commit;
    [unlink_fault] by the removal of the file, after it. *)
Definition delete_report (db_fault unlink_fault : option string) (w : state)
  (report_id : string) : state * bool :=
  match db_fault, reports w !! report_id with
  | Some _, _ => (w, false)
  | None, None => (w, false)
  | None, Some row =>
      let w1 := set_reports (delete report_id (reports w)) w in
      match fs w1 !! file_path row, unlink_fault with
      | Some _, Some _ => (w1, false)
      | Some _, None => (set_fs (delete (file_path row) (fs w1)) w1, true)
      | None, _ => (w1, true)
      end
  end.

Definition initial : state :=
  {| fs := ∅; reports := ∅; background_tasks := [] |}.

(** The states the server can be in: it starts empty, serves uploads and
    deletions, and runs the tasks it scheduled; every state a task commits
    is one. *)
Inductive reachable (suffix_lower : string → string) (megabytes : Z → string)
  (in_dir : string → string → string) (settings : Settings) : state → Prop :=
| reach_initial : reachable suffix_lower megabytes in_dir settings initial
| reach_upload w E file_name content :
    reachable suffix_lower megabytes in_dir settings w →
    reachable suffix_lower megabytes in_dir settings
      (upload_report suffix_lower megabytes in_dir settings E w file_name content).1
| reach_delete w db_fault unlink_fault report_id :
    reachable suffix_lower megabytes in_dir settings w →
    reachable suffix_lower megabytes in_dir settings
      (delete_report db_fault unlink_fault w report_id).1
| reach_task w E w' :
    reachable suffix_lower megabytes in_dir settings w →
    w' ∈ run_next E w →
    reachable suffix_lower megabytes in_dir settings w'.

(** A sample platform for running the handler: the suffix rule of
    [pathlib] on a bare file name with ASCII letters lowered, a rendering
    of whole megabytes, and the join of a directory and a file name. *)
Definition lower_char (c : ascii) : ascii :=
  let n := nat_of_ascii c in
  if (65 <=? n)%nat && (n <=? 90)%nat then ascii_of_nat (n + 32) else c.

Fixpoint lower (s : string) : string :=
  match s with
  | EmptyString => EmptyString
  | String c rest => String (lower_char c) (lower rest)
  end.

Definition sample_suffix_lower (name : string) : string :=
  match FileUtils.rsplit_dot name with
  | Some (root, ext) =>
      if bool_decide (root = "") || bool_decide (ext = ".") then ""
      else lower ext
  | None => ""
  end.

Definition sample_megabytes (n : Z) : string :=
  pretty (n / (1024 * 1024)) +:+ ".0".

(** The join of a directory given in normal form, as 'uploads', and a bare
    file name. *)
Definition sample_in_dir (dir name : string) : string := dir +:+ "/" +:+ name.

(** ** Reading the results *)

(** Every stored status is one of 'uploading', 'ready', 'error'. *)
Definition three_statuses (t : gmap string report_row) : Prop :=
  ∀ id row, t !! id = Some row →
    status row = UPLOADING ∨ status row = READY ∨ status row = ERROR.

(** A report marked ready has its metadata. *)
Definition ready_has_metadata (t : gmap string report_row) : Prop :=
  ∀ id row, t !! id = Some row →
    status row = READY → is_Some (metadata_json row).

End Upload.

(** * Sample inputs *)
Module Samples.
Import Py Model EditService Query Storage Upload.

Definition sample_patch (pos : option (gmap string Z)) : EditPatch :=
  {| p_id := "p1"; p_operation := RESIZE; p_target_field_id := "f1";
     p_target_section_id := None; p_new_name := None; p_new_position := pos;
     p_new_format := None; p_visible := None; p_description := None;
     p_created_at := "2024-01-01T00:00:00"; p_applied_at := None |}.

Definition sample_position (width : Z) : gmap string Z :=
  {[ "x" := 10; "y" := 20; "width" := width; "height" := 15 ]}.

(** A currency field, shown or hidden, and a report made of it. *)
Definition amount (shown : bool) : ReportField :=
  {| f_id := "f1"; f_name := "Amount"; f_display_name := Some "Amount";
     f_field_type := CURRENCY; f_section := DETAILS;
     f_x := 0; f_y := 0; f_width := 100; f_height := 20;
     f_visible := shown; f_formula := None; f_format := None;
     f_database_field := None |}.

Definition sales (shown : bool) : ReportMetadata :=
  {| m_id := "r1"; m_filename := "sales.rpt"; m_title := None;
     m_description := None; m_author := None; m_created_date := None;
     m_modified_date := None;
     m_sections :=
       [{| s_id := "s1"; s_section_type := DETAILS; s_name := "Details";
           s_height := 40; s_visible := true; s_fields := [amount shown] |}];
     m_parameters := []; m_formulas := []; m_database_connections := [];
     m_tables := []; m_status := READY; m_file_size := 1;
     m_parsed_at := None; m_error_message := None |}.

Definition patch_of (id : string) (op : EditPatchOperation) (target : string)
  : EditPatch :=
  {| p_id := id; p_operation := op; p_target_field_id := target;
     p_target_section_id := None; p_new_name := None; p_new_position := None;
     p_new_format := None; p_visible := None; p_description := None;
     p_created_at := "2024-01-01T00:00:00"; p_applied_at := None |}.

(** A list of three patches, the second of which targets no field. *)
Definition three_patches : list EditPatch :=
  [patch_of "p1" HIDE "f1"; patch_of "p2" SHOW "ghost"; patch_of "p3" SHOW "f1"].

Definition quiet : env :=
  {| sdk_outcome := λ _ _, None; copy_outcome := None; now := "20240101_120000" |}.

Definition report_file : Path :=
  {| parent := "uploads"; stem := "r1_sales"; suffix := ".rpt" |}.

Definition disk : world :=
  {| files := {[ path_str report_file := [] ]}; sdk_calls := [] |}.

(** The SDK fails on the second call only. *)
Definition second_fails : env :=
  {| sdk_outcome := λ i _, if (i =? 1)%nat then Some "SDK error" else None;
     copy_outcome := None; now := "20240101_120000" |}.


Definition valid_patches : list EditPatch :=
  [patch_of "p1" HIDE "f1"; patch_of "p2" SHOW "f1"; patch_of "p3" HIDE "f1"].

(** Sample reports: one details section, one parameter, two tables. *)
Definition field_of (id name : string) (t : FieldType) : ReportField :=
  {| f_id := id; f_name := name; f_display_name := Some name;
     f_field_type := t; f_section := DETAILS;
     f_x := 0; f_y := 0; f_width := 100; f_height := 20;
     f_visible := true; f_formula := None; f_format := None;
     f_database_field := None |}%Z.

Definition details_of (fields : list ReportField) : ReportSection :=
  {| s_id := "s1"; s_section_type := DETAILS; s_name := "Details";
     s_height := 40%Z; s_visible := true; s_fields := fields |}.

Definition start_date : ReportField := field_of "prm1" "StartDate" PARAMETER.

Definition report_with (fields : list ReportField)
  (connections : list DatabaseConnection) : ReportMetadata :=
  {| m_id := "r1"; m_filename := "sales.rpt"; m_title := None;
     m_description := None; m_author := None; m_created_date := None;
     m_modified_date := None; m_sections := [details_of fields];
     m_parameters := [start_date]; m_formulas := [];
     m_database_connections := connections;
     m_tables := ["Orders"; "Customers"]; m_status := READY;
     m_file_size := 1%Z; m_parsed_at := None; m_error_message := None |}.

Definition sql_server : DatabaseConnection :=
  {| dc_driver := "SQL Server"; dc_server := Some "db1";
     dc_database := Some "Sales"; dc_username := None;
     dc_connection_string := None |}.

Definition three_fields : list ReportField :=
  [field_of "f1" "Customer" STRING; field_of "f2" "Total" FORMULA;
   field_of "f3" "Amount" CURRENCY].

(** Three fields and a database connection. *)
Definition busy : ReportMetadata := report_with three_fields [sql_server].

(** The same three fields, no database connection. *)
Definition offline : ReportMetadata := report_with three_fields [].

Definition small : Settings :=
  {| MAX_FILE_SIZE := 4; UPLOAD_DIR := "uploads"; ALLOWED_EXTENSIONS := [".rpt"] |}.

Definition first_upload : upload_env :=
  {| uuid4 := "id-1"; write_fault := None; insert_fault := None |}.

Definition parsed : ReportMetadata :=
  {| m_id := "id-1"; m_filename := "sales.rpt"; m_title := Some "sales.rpt";
     m_description := None; m_author := None; m_created_date := None;
     m_modified_date := None; m_sections := []; m_parameters := [];
     m_formulas := []; m_database_connections := []; m_tables := [];
     m_status := READY; m_file_size := 1; m_parsed_at := Some "2024-01-01T12:00:00";
     m_error_message := None |}.

(** The parser succeeds and no write fails. *)
Definition parse_ok : task_env :=
  {| parse_report := inr parsed; store_fault := None; ready_fault := None;
     error_fault := None;
     stat_error :=
       "[Errno 2] No such file or directory: 'uploads/id-1_sales.rpt'" |}.

Definition one_byte : list Byte.byte := [Byte.x01].

(** The server after the upload of sales.rpt, then the states its task goes
    through: started, metadata stored, marked ready. *)
Definition after_upload : state :=
  (upload_report sample_suffix_lower sample_megabytes sample_in_dir small first_upload initial
     (Some "sales.rpt") one_byte).1.

Definition task_trace : list state := run_next parse_ok after_upload.

Definition after_store : state := nth 1 task_trace initial.
Definition after_ready : state := nth 2 task_trace initial.

Definition row_of (s : ReportStatus) (metadata : option ReportMetadata)
  : report_row :=
  {| filename := "sales.rpt"; file_path := "uploads/id-1_sales.rpt";
     file_size := 1; status := s; error_message := None;
     metadata_json := model_dump_json <$> metadata |}.

Definition four_bytes : list Byte.byte := [Byte.x01; Byte.x02; Byte.x03; Byte.x04].

End Samples.

(** * File names, endpoints and the edit API *)

(** ** [safe_filename], [app/utils/file_utils.py] *)
Module SafeName.

(** A file name is a sequence of characters, taken here from the 256 of
    [ascii]; the function looks at a character only to see whether it is
    one of [safe_chars] or a dot. *)

Definition safe_chars : string :=
  "abcdefghijklmnopqrstuvwxyzABCDEFGHIJKLMNOPQRSTUVWXYZ0123456789-_.".

(** [c in s] for a character [c]. *)
Fixpoint char_in (c : ascii) (s : string) : bool :=
  match s with
  | EmptyString => false
  | String d rest => bool_decide (c = d) || char_in c rest
  end.

(** The join over [c if c in safe_chars else '_']. *)
Fixpoint replace_unsafe (filename : string) : string :=
  match filename with
  | EmptyString => EmptyString
  | String c rest =>
      String (if char_in c safe_chars then c else "_"%char) (replace_unsafe rest)
  end.

(** [s[:n]] for [n >= 0] *)
Fixpoint str_take (n : nat) (s : string) : string :=
  match n, s with
  | O, _ => EmptyString
  | S _, EmptyString => EmptyString
  | S n', String c rest => String c (str_take n' rest)
  end.

(** [s[:k]], a negative [k] counting from the end. *)
Definition slice_to (s : string) (k : Z) : string :=
  if bool_decide (0 ≤ k) then str_take (Z.to_nat k) s
  else str_take (Z.to_nat (Z.of_nat (String.length s) + k)) s.

(** The second step: a leading dot becomes an underscore. *)
Definition no_leading_dot (safe_name : string) : string :=
  match safe_name with
  | String c rest => if bool_decide (c = "."%char) then String "_"%char rest else safe_name
  | EmptyString => safe_name
  end.

(** The third step: a name of more than 255 characters is cut in front of
    its extension. The name holds no path separator at this point, so
    [os.path.splitext] follows the same rule on every platform. *)
Definition limit_length (safe_name : string) : string :=
  if bool_decide (255 < Z.of_nat (String.length safe_name))
  then let '(name, ext) := FileUtils.posix_splitext safe_name in
       slice_to name (255 - Z.of_nat (String.length ext)) +:+ ext
  else safe_name.

Definition safe_filename (filename : string) : string :=
  limit_length (no_leading_dot (replace_unsafe filename)).

(** Every character of [s] satisfies [p]. *)
Fixpoint all_chars (p : ascii → bool) (s : string) : bool :=
  match s with
  | EmptyString => true
  | String c rest => p c && all_chars p rest
  end.

(** [c in safe_chars] *)
Definition is_safe (c : ascii) : bool := char_in c safe_chars.

(** [s.startswith('.')] *)
Definition starts_with_dot (s : string) : bool :=
  match s with
  | String c _ => bool_decide (c = "."%char)
  | EmptyString => false
  end.

End SafeName.

(** ** The read endpoints, [reports.py], [upload.py] and [query.py] *)
Module Endpoints.
Import Py Model Storage EditService Upload.

Definition SectionType_value (t : SectionType) : string :=
  match t with
  | REPORT_HEADER => "report_header" | PAGE_HEADER => "page_header"
  | GROUP_HEADER => "group_header" | DETAILS => "details"
  | GROUP_FOOTER => "group_footer" | REPORT_FOOTER => "report_footer"
  | PAGE_FOOTER => "page_footer"
  end.

(** [get_report_status]: the row, as the dictionary of its columns; like
    [get_metadata] it logs any exception and returns [None], and [fault]
    says that one is raised. *)
Definition get_report_status (fault : bool) (table : gmap string report_row)
  (report_id : string) : option report_row :=
  if fault then None else table !! report_id.

Record read_env := {
  metadata_fault : bool;
  status_fault : bool
}.

(** The text an f-string gives for an optional string. *)
Definition str_of (v : option string) : string := default "None" v.

(** [get_report_metadata] of [reports.py]. *)
Definition get_report_metadata (E : read_env) (table : gmap string report_row)
  (report_id : string) : result ReportMetadata :=
  match get_metadata (metadata_fault E) table report_id with
  | Some metadata => Ok metadata
  | None =>
      match get_report_status (status_fault E) table report_id with
      | None => HTTPException 404 "Report not found"
      | Some report_info =>
          if bool_decide (status report_info = PARSING)
          then HTTPException 202
                 "Report is still being processed. Please try again later."
          else if bool_decide (status report_info = ERROR)
          then HTTPException 422
                 ("Report processing failed: "
                  +:+ str_of (error_message report_info))
          else HTTPException 404 "Report metadata not available"
      end
  end.

(** [get_upload_status] of [upload.py]. *)
Definition get_upload_status (E : read_env) (table : gmap string report_row)
  (report_id : string) : result report_row :=
  match get_report_status (status_fault E) table report_id with
  | Some status_info => Ok status_info
  | None => HTTPException 404 "Report not found"
  end.

(** The [DELETE] endpoint of [upload.py] and [reports.py]. *)
Definition delete_endpoint (db_fault unlink_fault : option string) (w : state)
  (report_id : string) : state * result string :=
  let '(w', success) := delete_report db_fault unlink_fault w report_id in
  if success then (w', Ok "Report deleted successfully")
  else (w', HTTPException 404 "Report not found").

(** One entry of the flattened field list: the dumped field and the two
    keys added to it. *)
Record field_data := {
  fd_field : ReportField;
  fd_section_name : string;
  fd_section_type : string
}.

Definition section_fields (section : ReportSection) : list field_data :=
  map (λ field, {| fd_field := field; fd_section_name := s_name section;
                   fd_section_type := SectionType_value (s_section_type section) |})
    (s_fields section).

Definition all_fields (metadata : ReportMetadata) : list field_data :=
  concat (map section_fields (m_sections metadata))
  ++ map (λ param, {| fd_field := param; fd_section_name := "Parameters";
                      fd_section_type := "parameter" |})
       (m_parameters metadata)
  ++ map (λ formula, {| fd_field := formula; fd_section_name := "Formulas";
                        fd_section_type := "formula" |})
       (m_formulas metadata).

(** The two filters; a missing or empty query parameter filters nothing. *)
Definition filter_fields (section_type field_type : option string)
  (fields : list field_data) : list field_data :=
  let by_section :=
    if truthy_str section_type
    then filter (λ f, fd_section_type f = default "" section_type) fields
    else fields in
  if truthy_str field_type
  then filter (λ f, FieldType_value (f_field_type (fd_field f))
                    = default "" field_type) by_section
  else by_section.

(** [get_report_fields] of [reports.py]: [total_fields] and [fields]. *)
Definition get_report_fields (E : read_env) (table : gmap string report_row)
  (report_id : string) (section_type field_type : option string)
  : result (nat * list field_data) :=
  match get_metadata (metadata_fault E) table report_id with
  | None => HTTPException 404 "Report not found or not processed"
  | Some metadata =>
      let fields := filter_fields section_type field_type (all_fields metadata) in
      Ok (length fields, fields)
  end.

(** The search of [explain_field] in [query.py]: the field and, for a field
    of a section, that section. *)
Fixpoint target_in_sections (sections : list ReportSection) (field_id : string)
  : option (ReportField * ReportSection) :=
  match sections with
  | [] => None
  | section :: rest =>
      match find_in_fields (s_fields section) field_id with
      | Some field => Some (field, section)
      | None => target_in_sections rest field_id
      end
  end.

Definition explain_target (metadata : ReportMetadata) (field_id : string)
  : option (ReportField * option ReportSection) :=
  match target_in_sections (m_sections metadata) field_id with
  | Some (field, section) => Some (field, Some section)
  | None =>
      match find_in_fields (m_parameters metadata) field_id with
      | Some param => Some (param, None)
      | None =>
          (λ formula, (formula, None))
            <$> find_in_fields (m_formulas metadata) field_id
      end
  end.

(** [explain_field] up to its call of the language model: the two 404s, or
    the name of the field and of its section ('N/A' outside sections) that
    go into the question. *)
Definition explain_field_target (E : read_env) (table : gmap string report_row)
  (report_id field_id : string) : result (string * string) :=
  match get_metadata (metadata_fault E) table report_id with
  | None => HTTPException 404 "Report not found or not processed"
  | Some metadata =>
      match explain_target metadata field_id with
      | None => HTTPException 404 "Field not found"
      | Some (target_field, target_section) =>
          Ok (f_name target_field,
              match target_section with
              | Some section => s_name section
              | None => "N/A"
              end)
      end
  end.

End Endpoints.

(** ** The edit endpoints, [app/api/v1/endpoints/edit.py] *)
Module EditApi.
Import Py Model Storage EditService Upload Endpoints.

(** What the edit endpoints work on: the [reports] table, the [change_log]
    table (its rows in insertion order) and the world of the edit service. *)
Record server := {
  table : gmap string report_row;
  change_log : list ChangeLogEntry;
  disk : world
}.

(** What one request meets: the surroundings of the edit service, the
    faults of the two reads, the fault of the [i]-th insertion into
    [change_log], and, for the quick actions, the id and the creation time
    given to the patch they build. *)
Record api_env := {
  service : env;
  reads : read_env;
  log_fault : nat → option string;
  new_patch_id : string;
  utcnow : string
}.

Record ApplyEditsRequest := {
  q_patches : list EditPatch;
  q_dry_run : bool;
  q_create_backup : bool
}.

(** The loop over [add_change_log_entry]: it stops at the first insertion
    that raises, the earlier ones staying in the table. *)
Fixpoint store_entries (fault : nat → option string) (i : nat)
  (entries log : list ChangeLogEntry) : list ChangeLogEntry * option string :=
  match entries with
  | [] => (log, None)
  | entry :: rest =>
      match fault i with
      | Some e => (log, Some e)
      | None => store_entries fault (S i) rest (log ++ [entry])
      end
  end.

Section endpoints.
(** [Path(s)], the decomposition of a stored path, and [str(e)] of an
    [HTTPException] and of the validation error: library code. *)
Variable to_path : string → Path.
Variable str_http : Z → string → string.
Variable str_validation : ValueError → string.

(** [apply_edits], the endpoint. The status code 422 it computes for a
    response without success goes to the log only: the response itself is
    returned as any other. *)
Definition apply_edits (E : api_env) (srv : server) (report_id : string)
  (request : ApplyEditsRequest) : server * result ApplyEditsResponse :=
  match get_metadata (metadata_fault (reads E)) (table srv) report_id with
  | None => (srv, HTTPException 404 "Report not found or not processed")
  | Some metadata =>
      match get_report_status (status_fault (reads E)) (table srv) report_id with
      | None => (srv, HTTPException 404 "Report file information not found")
      | Some report_info =>
          let '(disk', response) :=
            EditService.apply_edits (service E) (disk srv) metadata
              (q_patches request) (to_path (file_path report_info)) None
              (q_dry_run request) (q_create_backup request) in
          let '(log, raised) :=
            store_entries (log_fault E) 0 (r_change_log_entries response)
              (change_log srv) in
          let srv' := {| table := table srv; change_log := log; disk := disk' |} in
          match raised with
          | Some e => (srv', HTTPException 500 ("Failed to apply edits: " +:+ e))
          | None => (srv', Ok response)
          end
      end
  end.

(** What a quick action answers. *)
Record quick_answer := {
  a_message : string;
  a_patch_id : string;
  a_success : bool
}.

Definition quick_patch (E : api_env) (op : EditPatchOperation)
  (field_id : string) (new_name : option string)
  (new_position : option (gmap string Z)) (description : string) : EditPatch :=
  {| p_id := new_patch_id E; p_operation := op; p_target_field_id := field_id;
     p_target_section_id := None; p_new_name := new_name;
     p_new_position := new_position; p_new_format := None; p_visible := None;
     p_description := Some description; p_created_at := utcnow E;
     p_applied_at := None |}.

Definition quick_request (patch : EditPatch) : ApplyEditsRequest :=
  {| q_patches := [patch]; q_dry_run := false; q_create_backup := true |}.

(** [description or dflt] *)
Definition or_else (description : option string) (dflt : string) : string :=
  if truthy_str description then default "" description else dflt.

(** [hide_field]: its [except Exception] also takes the [HTTPException]s of
    the endpoint it calls. *)
Definition hide_field (E : api_env) (srv : server) (report_id field_id : string)
  (description : option string) : server * result quick_answer :=
  let patch :=
    quick_patch E HIDE field_id None None
      (or_else description ("Hide field " +:+ field_id)) in
  match apply_edits E srv report_id (quick_request patch) with
  | (srv', Ok response) =>
      (srv', Ok {| a_message := "Field " +:+ field_id +:+ " hidden successfully";
                   a_patch_id := p_id patch;
                   a_success := r_success response |})
  | (srv', HTTPException code detail) =>
      (srv', HTTPException 500
               ("Failed to hide field: " +:+ str_http code detail))
  end.

(** [rename_field] *)
Definition rename_field (E : api_env) (srv : server)
  (report_id field_id new_name : string) (description : option string)
  : server * result quick_answer :=
  let patch :=
    quick_patch E RENAME field_id (Some new_name) None
      (or_else description
         ("Rename field " +:+ field_id +:+ " to " +:+ new_name)) in
  match apply_edits E srv report_id (quick_request patch) with
  | (srv', Ok response) =>
      (srv', Ok {| a_message := "Field " +:+ field_id +:+ " renamed to '"
                                +:+ new_name +:+ "' successfully";
                   a_patch_id := p_id patch;
                   a_success := r_success response |})
  | (srv', HTTPException code detail) =>
      (srv', HTTPException 500
               ("Failed to rename field: " +:+ str_http code detail))
  end.

(** [move_field]: the field is looked for in the sections only; the
    [HTTPException]s are passed on, any other exception becomes a 500. *)
Definition move_field (E : api_env) (srv : server) (report_id field_id : string)
  (x y : Z) (width height : option Z) (description : option string)
  : server * result quick_answer :=
  match get_metadata (metadata_fault (reads E)) (table srv) report_id with
  | None => (srv, HTTPException 404 "Report not found")
  | Some metadata =>
      match find_in_sections (m_sections metadata) field_id with
      | None => (srv, HTTPException 404 "Field not found")
      | Some current_field =>
          let new_position : gmap string Z :=
            {[ "x" := x; "y" := y;
               "width" := default (f_width current_field) width;
               "height" := default (f_height current_field) height ]} in
          let raw :=
            quick_patch E MOVE field_id None (Some new_position)
              (or_else description
                 ("Move field " +:+ field_id +:+ " to (" +:+ pretty x +:+ ", "
                  +:+ pretty y +:+ ")")) in
          match EditPatch_new raw with
          | inl e =>
              (srv, HTTPException 500
                      ("Failed to move field: " +:+ str_validation e))
          | inr patch =>
              match apply_edits E srv report_id (quick_request patch) with
              | (srv', Ok response) =>
                  (srv', Ok {| a_message :=
                                 "Field " +:+ field_id +:+ " moved to ("
                                 +:+ pretty x +:+ ", " +:+ pretty y
                                 +:+ ") successfully";
                               a_patch_id := p_id patch;
                               a_success := r_success response |})
              | (srv', HTTPException code detail) =>
                  (srv', HTTPException code detail)
              end
          end
      end
  end.
End endpoints.

End EditApi.

(** ** Reading the requests *)
Module Requests.
Import Py Model Storage Upload.

(** An upload the handler does not refuse: it has a file name, an allowed
    extension, and between 1 and [MAX_FILE_SIZE] bytes. *)
Definition acceptable (suffix_lower : string → string) (settings : Settings)
  (file_name : option string) (content : list Byte.byte) : Prop :=
  truthy_str file_name = true
  ∧ suffix_lower (default "" file_name) ∈ ALLOWED_EXTENSIONS settings
  ∧ 0 < Z.of_nat (length content) ≤ MAX_FILE_SIZE settings.

(** The path an upload is written to. *)
Definition upload_path (in_dir : string → string → string)
  (settings : Settings) (E : upload_env) (file_name : option string) : string :=
  in_dir (UPLOAD_DIR settings) (uuid4 E +:+ "_" +:+ default "" file_name).

(** A run of the task in which the parser or one of the two writes that
    follow it raises. *)
Definition fails_before_ready (E : task_env) : Prop :=
  (∃ e, parse_report E = inl e)
  ∨ is_Some (store_fault E) ∨ is_Some (ready_fault E).

(** What holds of every stored row, status by status: 'parsing' is never
    stored, a failed report has its message, a ready one its metadata and
    no message. *)
Definition row_ok (row : report_row) : Prop :=
  match status row with
  | UPLOADING => True
  | PARSING => False
  | READY => is_Some (metadata_json row) ∧ error_message row = None
  | ERROR => is_Some (error_message row)
  end.

End Requests.

(** * More sample inputs *)
Module MoreSamples.
Import Py Model EditService Query Storage Upload Endpoints EditApi Samples.

(** An upload whose insertion into [reports] fails. *)
Definition insert_fails : upload_env :=
  {| uuid4 := "id-1"; write_fault := None;
     insert_fault := Some "disk I/O error" |}.

(** Reads that meet no fault. *)
Definition no_faults : read_env :=
  {| metadata_fault := false; status_fault := false |}.

(** A report whose one field was given no display name. *)
Definition quantity : ReportField :=
  {| f_id := "f9"; f_name := "Qty"; f_display_name := None;
     f_field_type := NUMBER; f_section := DETAILS;
     f_x := 0; f_y := 0; f_width := 100; f_height := 20;
     f_visible := true; f_formula := None; f_format := None;
     f_database_field := None |}.

Definition stock : ReportMetadata :=
  {| m_id := "id-1"; m_filename := "sales.rpt"; m_title := None;
     m_description := None; m_author := None; m_created_date := None;
     m_modified_date := None; m_sections := [details_of [quantity]];
     m_parameters := []; m_formulas := []; m_database_connections := [];
     m_tables := []; m_status := READY; m_file_size := 1;
     m_parsed_at := None; m_error_message := None |}.

End MoreSamples.

(** * Properties *)

(** ** Strings *)
Module PyFacts.
Import Py.

Lemma append_cons (ch : ascii) (a b : string) :
  String ch a +:+ b = String ch (a +:+ b).
Proof. reflexivity. Qed.

Lemma append_assoc (a b c : string) : (a +:+ b) +:+ c = a +:+ b +:+ c.
Proof.
  induction a as [|ch a IH]; [done |]. rewrite !append_cons. by f_equal.
Qed.

Lemma append_nil_r (a : string) : a +:+ "" = a.
Proof.
  induction a as [|ch a IH]; [done |]. rewrite append_cons. by f_equal.
Qed.

Lemma length_append (a b : string) :
  String.length (a +:+ b) = (String.length a + String.length b)%nat.
Proof.
  induction a as [|ch a IH]; [done |]. rewrite append_cons. simpl. by f_equal.
Qed.


Lemma substring_of_refl (s : string) : substring_of s s.
Proof. exists "", "". simpl. by rewrite append_nil_r. Qed.

Lemma substring_of_prefixed (pre needle s : string) :
  substring_of needle s → substring_of needle (pre +:+ s).
Proof.
  intros (a & b & ->). exists (pre +:+ a), b. by rewrite append_assoc.
Qed.

Lemma substring_of_suffixed (post needle s : string) :
  substring_of needle s → substring_of needle (s +:+ post).
Proof.
  intros (a & b & ->). exists a, (b +:+ post). by rewrite !append_assoc.
Qed.

(** Every part of a joined text can be read in it. *)
Lemma substring_of_join (sep part : string) (parts : list string) :
  part ∈ parts → substring_of part (join sep parts).
Proof.
  induction parts as [|s rest IH]; intros Hin; [by apply elem_of_nil in Hin |].
  apply elem_of_cons in Hin as [-> | Hin].
  - destruct rest as [|s' rest']; [apply substring_of_refl |].
    change (substring_of s (s +:+ sep +:+ join sep (s' :: rest'))).
    apply substring_of_suffixed, substring_of_refl.
  - destruct rest as [|s' rest']; [by apply elem_of_nil in Hin |].
    change (substring_of part (s +:+ sep +:+ join sep (s' :: rest'))).
    do 2 apply substring_of_prefixed. by apply IH.
Qed.

End PyFacts.

(** ** The position validator *)
Module ModelFacts.
Import Py Model Samples.

Lemma forallb_required (f : string → bool) :
  forallb f required_keys = true ↔ ∀ key, key ∈ required_keys → f key = true.
Proof.
  rewrite forallb_forall. split; intros H key Hk; apply H;
    by apply list_elem_of_In.
Qed.

Lemma has_key_spec (d : gmap string Z) (key : string) :
  has_key d key = true ↔ is_Some (d !! key).
Proof. unfold has_key. by rewrite bool_decide_eq_true. Qed.

Lemma nonneg_at_spec (d : gmap string Z) (key : string) :
  nonneg_at d key = true ↔ ∃ n, d !! key = Some n ∧ 0 ≤ n.
Proof.
  unfold nonneg_at. destruct (d !! key) as [n|]; split.
  - intros H%bool_decide_eq_true. eauto.
  - intros (m & [= ->] & Hm). by apply bool_decide_eq_true.
  - done.
  - by intros (m & [=] & _).
Qed.

Lemma validate_position_accepts (d : gmap string Z) :
  (∀ key, key ∈ required_keys → ∃ n, d !! key = Some n ∧ 0 ≤ n) →
  validate_position (Some d) = inr (Some d).
Proof.
  intros H. unfold validate_position.
  assert (forallb (has_key d) required_keys = true) as ->.
  { apply forallb_required. intros key Hk. apply has_key_spec.
    destruct (H key Hk) as (n & -> & _). eauto. }
  assert (forallb (nonneg_at d) required_keys = true) as ->.
  { apply forallb_required. intros key Hk. by apply nonneg_at_spec, H. }
  done.
Qed.

Lemma validate_position_rejects (d : gmap string Z) (key : string) :
  key ∈ required_keys →
  d !! key = None ∨ (∃ n, d !! key = Some n ∧ n < 0) →
  ∃ e, validate_position (Some d) = inl e.
Proof.
  intros Hk Hbad. unfold validate_position.
  destruct (forallb (has_key d) required_keys) eqn:Hkeys;
    destruct (forallb (nonneg_at d) required_keys) eqn:Hvals;
    cbn [negb]; [| eauto ..].
  exfalso.
  pose proof (proj1 (forallb_required _) Hvals key Hk) as Hn.
  apply nonneg_at_spec in Hn as (n & Hn & Hpos).
  destruct Hbad as [Hnone | (m & Hm & Hneg)]; [congruence |].
  assert (m = n) by congruence. lia.
Qed.

(** C6. Building an [EditPatch] whose [new_position] lacks one of the keys
    x, y, width, height, or holds a negative number under one of them, is
    refused with a [ValueError]; when the four keys are all there with
    non-negative integers the patch is built, exactly as supplied. *)
Theorem position_checked_at_construction (raw : EditPatch) (d : gmap string Z) :
  p_new_position raw = Some d →
  ((∃ key, key ∈ required_keys ∧
           (d !! key = None ∨ ∃ n, d !! key = Some n ∧ n < 0)) →
   ∃ e, EditPatch_new raw = inl e)
  ∧ ((∀ key, key ∈ required_keys → ∃ n, d !! key = Some n ∧ 0 ≤ n) →
     EditPatch_new raw = inr raw).
Proof.
  intros Hpos. unfold EditPatch_new. rewrite Hpos. split.
  - intros (key & Hk & Hbad).
    destruct (validate_position_rejects d key Hk Hbad) as (e & ->). eauto.
  - intros Hgood. rewrite (validate_position_accepts d Hgood).
    rewrite <- Hpos. by destruct raw.
Qed.

Lemma required_keys_cases (P : string → Prop) :
  P "x" → P "y" → P "width" → P "height" →
  ∀ key, key ∈ required_keys → P key.
Proof.
  intros Hx Hy Hw Hh key Hk. unfold required_keys in Hk.
  repeat (apply elem_of_cons in Hk as [-> | Hk]; [assumption |]).
  by apply elem_of_nil in Hk.
Qed.

(** A patch with width -5 is refused, the same patch with width 120 is
    built. *)
Lemma position_checked_at_construction_witness :
  (∃ e, EditPatch_new (sample_patch (Some (sample_position (-5)))) = inl e)
  ∧ EditPatch_new (sample_patch (Some (sample_position 120)))
    = inr (sample_patch (Some (sample_position 120))).
Proof.
  split.
  - apply (position_checked_at_construction
             (sample_patch (Some (sample_position (-5))))
             (sample_position (-5)) eq_refl).
    exists "width". split; [set_solver |].
    right. exists (-5). split; [by vm_compute | lia].
  - apply (position_checked_at_construction
             (sample_patch (Some (sample_position 120)))
             (sample_position 120) eq_refl).
    apply required_keys_cases; eexists; (split; [by vm_compute | lia]).
Defined.

End ModelFacts.

(** ** The edit service *)
Module EditServiceFacts.
Import Py Model EditService PyFacts Samples.

(** *** Lookup after a patch *)

Lemma _apply_patch_to_field_id (field : ReportField) (patch : EditPatch) :
  f_id (_apply_patch_to_field field patch) = f_id field.
Proof.
  unfold _apply_patch_to_field.
  destruct (p_operation patch); try done;
    repeat (case_match; try done).
Qed.

Lemma find_in_fields_patch_first (fields : list ReportField) (patch : EditPatch) :
  find_in_fields (patch_first fields patch) (p_target_field_id patch)
  = (λ f, _apply_patch_to_field f patch)
      <$> find_in_fields fields (p_target_field_id patch).
Proof.
  induction fields as [|field rest IH]; [done |]. simpl.
  destruct (bool_decide (f_id field = p_target_field_id patch)) eqn:Hid; simpl.
  - by rewrite _apply_patch_to_field_id, Hid.
  - by rewrite Hid.
Qed.

Lemma find_in_sections_patch_section (sections : list ReportSection)
  (patch : EditPatch) :
  find_in_sections (map (patch_section patch) sections) (p_target_field_id patch)
  = (λ f, _apply_patch_to_field f patch)
      <$> find_in_sections sections (p_target_field_id patch).
Proof.
  induction sections as [|section rest IH]; [done |]. simpl.
  rewrite find_in_fields_patch_first.
  by destruct (find_in_fields (s_fields section) (p_target_field_id patch)).
Qed.

(** The field a patch targets is, after the patch, the patched field. *)
Lemma _find_field_by_id_patched (m : ReportMetadata) (patch : EditPatch) :
  _find_field_by_id (apply_patch_to_metadata m patch) (p_target_field_id patch)
  = (λ f, _apply_patch_to_field f patch)
      <$> _find_field_by_id m (p_target_field_id patch).
Proof.
  unfold _find_field_by_id, apply_patch_to_metadata. simpl.
  rewrite find_in_sections_patch_section, !find_in_fields_patch_first.
  destruct (find_in_sections (m_sections m) (p_target_field_id patch)); [done |].
  by destruct (find_in_fields (m_parameters m) (p_target_field_id patch)).
Qed.

Lemma find_in_fields_validate (fields : list ReportField) (field_id : string) :
  find_in_fields (map ReportField_validate fields) field_id
  = ReportField_validate <$> find_in_fields fields field_id.
Proof.
  induction fields as [|field rest IH]; [done |]. simpl.
  by destruct (bool_decide (f_id field = field_id)).
Qed.

(** The copy holds, under every id, the re-validated field. *)
Lemma _find_field_by_id_rebuild (m : ReportMetadata) (field_id : string) :
  _find_field_by_id (ReportMetadata_rebuild m) field_id
  = ReportField_validate <$> _find_field_by_id m field_id.
Proof.
  unfold _find_field_by_id, ReportMetadata_rebuild. simpl.
  rewrite !find_in_fields_validate.
  assert (find_in_sections (map ReportSection_validate (m_sections m)) field_id
          = ReportField_validate <$> find_in_sections (m_sections m) field_id)
    as ->.
  { induction (m_sections m) as [|section rest IH]; [done |]. simpl.
    rewrite find_in_fields_validate, IH.
    by destruct (find_in_fields (s_fields section) field_id). }
  destruct (find_in_sections (m_sections m) field_id); [done |].
  by destruct (find_in_fields (m_parameters m) field_id).
Qed.

(** C2, as the code has it. A hide patch followed by a show patch on the
    same field leaves that field visible on the preview copy, whatever its
    visibility was before: it is the validated original with [visible] set.
    The final visibility equals the earlier one exactly when the field was
    visible to begin with. *)
Theorem hide_then_show_leaves_visible (metadata : ReportMetadata)
  (hide show : EditPatch) (field : ReportField) (dry_run : bool) :
  p_operation hide = HIDE →
  p_operation show = SHOW →
  p_target_field_id show = p_target_field_id hide →
  _find_field_by_id metadata (p_target_field_id hide) = Some field →
  ∃ field',
    _find_field_by_id (_apply_patches_to_metadata metadata [hide; show] dry_run)
      (p_target_field_id hide) = Some field'
    ∧ field' = set_visible true (ReportField_validate field)
    ∧ f_visible field' = true
    ∧ (f_visible field' = f_visible field ↔ f_visible field = true).
Proof.
  intros Hhide Hshow Htarget Hfound.
  exists (set_visible true (ReportField_validate field)).
  split; [| split; [done | split; [done |]]].
  - unfold _apply_patches_to_metadata. simpl.
    pose proof (_find_field_by_id_patched
                  (apply_patch_to_metadata (ReportMetadata_rebuild metadata) hide)
                  show) as Hlast.
    rewrite Htarget in Hlast. rewrite Hlast.
    rewrite _find_field_by_id_patched, _find_field_by_id_rebuild, Hfound.
    simpl. unfold _apply_patch_to_field. by rewrite Hshow, Hhide.
  - simpl. split; congruence.
Qed.

Lemma hide_then_show_leaves_visible_witness :
  ∃ field',
    _find_field_by_id
      (_apply_patches_to_metadata (sales false)
         [patch_of "p1" HIDE "f1"; patch_of "p2" SHOW "f1"] true) "f1"
    = Some field'
    ∧ field' = set_visible true (ReportField_validate (amount false))
    ∧ f_visible field' = true
    ∧ (f_visible field' = f_visible (amount false)
       ↔ f_visible (amount false) = true).
Proof.
  exact (hide_then_show_leaves_visible (sales false)
           (patch_of "p1" HIDE "f1") (patch_of "p2" SHOW "f1")
           (amount false) true eq_refl eq_refl eq_refl eq_refl).
Defined.

(** C2, as the claim words it, fails on a hidden field: before the two
    patches the field is hidden, after them it is visible. *)
Lemma hide_then_show_is_no_round_trip :
  f_visible <$> _find_field_by_id (sales false) "f1" = Some false
  ∧ f_visible <$>
      _find_field_by_id
        (_apply_patches_to_metadata (sales false)
           [patch_of "p1" HIDE "f1"; patch_of "p2" SHOW "f1"] true) "f1"
    = Some true.
Proof. split; reflexivity. Qed.

(** *** Validation *)

Lemma patch_errors_collected (metadata : ReportMetadata)
  (patches : list EditPatch) (patch : EditPatch) (e : string) :
  patch ∈ patches →
  e ∈ patch_errors metadata patch →
  e ∈ _validate_patches metadata patches.
Proof.
  induction patches as [|q rest IH]; intros Hin He; [by apply elem_of_nil in Hin |].
  simpl. apply elem_of_app.
  apply elem_of_cons in Hin as [-> | Hin]; [by left | right; by apply IH].
Qed.

Lemma patch_errors_missing (metadata : ReportMetadata) (patch : EditPatch) :
  _find_field_by_id metadata (p_target_field_id patch) = None →
  patch_errors metadata patch
  = ["Field " +:+ p_target_field_id patch +:+ " not found"].
Proof. intros H. unfold patch_errors. by rewrite H. Qed.

(** With a violation on the list, [apply_edits] answers from its outer
    handler and [preview_edits] raises: nothing else has run. *)
Lemma apply_edits_invalid (E : env) (w : world) (metadata : ReportMetadata)
  (patches : list EditPatch) (file_path : Path) (user_id : option string)
  (dry_run create_backup : bool) :
  _validate_patches metadata patches ≠ [] →
  apply_edits E w metadata patches file_path user_id dry_run create_backup
  = (w, {| r_success := false; r_applied_patches := [];
           r_failed_patches :=
             [("all", validation_message (_validate_patches metadata patches))];
           r_backup_path := None; r_change_log_entries := [] |}).
Proof.
  intros H. unfold apply_edits.
  by destruct (_validate_patches metadata patches).
Qed.

Lemma preview_edits_invalid (metadata : ReportMetadata) (patches : list EditPatch) :
  _validate_patches metadata patches ≠ [] →
  preview_edits metadata patches
  = inl (validation_message (_validate_patches metadata patches)).
Proof.
  intros H. unfold preview_edits.
  by destruct (_validate_patches metadata patches).
Qed.

(** C5. When some patch of the list targets an id found neither among the
    section fields nor the parameters nor the formulas, preview raises and
    apply reports one validation failure whose text names that id; apply
    returns no applied patch, no backup path and no change-log entry, and
    leaves the files and the SDK untouched. The text lists the violations of
    every patch of the list, not only the first. *)
Theorem missing_target_rejects_whole_list (E : env) (w : world)
  (metadata : ReportMetadata) (patches : list EditPatch) (file_path : Path)
  (user_id : option string) (dry_run create_backup : bool) (patch : EditPatch) :
  patch ∈ patches →
  _find_field_by_id metadata (p_target_field_id patch) = None →
  substring_of ("Field " +:+ p_target_field_id patch +:+ " not found")
    (validation_message (_validate_patches metadata patches))
  ∧ preview_edits metadata patches
    = inl (validation_message (_validate_patches metadata patches))
  ∧ apply_edits E w metadata patches file_path user_id dry_run create_backup
    = (w, {| r_success := false; r_applied_patches := [];
             r_failed_patches :=
               [("all", validation_message (_validate_patches metadata patches))];
             r_backup_path := None; r_change_log_entries := [] |})
  ∧ (∀ other e, other ∈ patches → e ∈ patch_errors metadata other →
       e ∈ _validate_patches metadata patches
       ∧ substring_of e (validation_message (_validate_patches metadata patches))).
Proof.
  intros Hin Hmissing.
  assert (∀ other e, other ∈ patches → e ∈ patch_errors metadata other →
            e ∈ _validate_patches metadata patches
            ∧ substring_of e
                (validation_message (_validate_patches metadata patches)))
    as Hall.
  { intros other e Ho He.
    pose proof (patch_errors_collected metadata patches other e Ho He) as Hc.
    split; [done |]. by apply substring_of_prefixed, substring_of_join. }
  assert ("Field " +:+ p_target_field_id patch +:+ " not found"
          ∈ patch_errors metadata patch) as Hmine.
  { rewrite patch_errors_missing by done. by apply list_elem_of_singleton. }
  destruct (Hall patch _ Hin Hmine) as [Hlisted Hnamed].
  assert (_validate_patches metadata patches ≠ []) as Hne.
  { intros Heq. rewrite Heq in Hlisted. by apply elem_of_nil in Hlisted. }
  split; [done |]. split; [by apply preview_edits_invalid |].
  split; [by apply apply_edits_invalid | done].
Qed.

Lemma missing_target_rejects_whole_list_witness :
  substring_of "Field ghost not found"
    (validation_message (_validate_patches (sales true) three_patches))
  ∧ preview_edits (sales true) three_patches
    = inl "Patch validation failed: Field ghost not found"
  ∧ apply_edits quiet disk (sales true) three_patches report_file None false true
    = (disk, {| r_success := false; r_applied_patches := [];
                r_failed_patches :=
                  [("all", "Patch validation failed: Field ghost not found")];
                r_backup_path := None; r_change_log_entries := [] |}).
Proof.
  destruct (missing_target_rejects_whole_list quiet disk (sales true)
              three_patches report_file None false true
              (patch_of "p2" SHOW "ghost")) as (Hnamed & Hpreview & Happly & _).
  - unfold three_patches. set_solver.
  - reflexivity.
  - split; [exact Hnamed |]. split; [exact Hpreview | exact Happly].
Defined.

(** *** The loop of [apply_edits] *)

(** What the loop leaves in its accumulators and in the world, read off the
    outcomes of its iterations. *)
Lemma apply_loop_outcomes (E : env) (metadata : ReportMetadata)
  (file_path : Path) (user_id : option string) (dry_run : bool)
  (patches : list EditPatch) :
  ∀ (i : nat) (w : world) (acc : progress),
    let res := apply_loop E metadata file_path user_id dry_run i patches w acc in
    let outs := outcomes E dry_run i patches in
    applied_patches res.2 = applied_patches acc ++ omap applied_id outs
    ∧ failed_patches res.2 = failed_patches acc ++ omap failed_pair outs
    ∧ change_log_entries res.2
      = change_log_entries acc ++ map (logged metadata user_id) outs
    ∧ files res.1 = files w
    ∧ sdk_calls res.1
      = sdk_calls w ++ (if dry_run then [] else map p_id patches).
Proof.
  induction patches as [|patch rest IH]; intros i w acc.
  - simpl. rewrite !app_nil_r. destruct dry_run; by rewrite app_nil_r.
  - simpl. unfold raised at 1 2 3.
    destruct dry_run.
    + specialize (IH (S i) w (on_success metadata user_id patch acc)).
      simpl in IH. destruct IH as (Ha & Hf & Hc & Hfiles & Hcalls).
      rewrite Ha, Hf, Hc, Hfiles, Hcalls. simpl.
      unfold applied_id, failed_pair, logged. simpl.
      by rewrite <- !app_assoc.
    + unfold _apply_single_patch.
      destruct (sdk_outcome E i patch) as [err|] eqn:Hout.
      * match goal with |- context [apply_loop _ _ _ _ _ _ _ ?w1 ?a1] =>
          specialize (IH (S i) w1 a1) end.
        simpl in IH. destruct IH as (Ha & Hf & Hc & Hfiles & Hcalls).
        rewrite Ha, Hf, Hc, Hfiles, Hcalls. simpl.
        unfold applied_id, failed_pair, logged. simpl.
        by rewrite <- !app_assoc.
      * match goal with |- context [apply_loop _ _ _ _ _ _ _ ?w1 ?a1] =>
          specialize (IH (S i) w1 a1) end.
        simpl in IH. destruct IH as (Ha & Hf & Hc & Hfiles & Hcalls).
        rewrite Ha, Hf, Hc, Hfiles, Hcalls. simpl.
        unfold applied_id, failed_pair, logged. simpl.
        by rewrite <- !app_assoc.
Qed.




(** *** [apply_edits] on a valid list *)

(** Past validation, and with a backup copy that does not fail when one is
    taken, [apply_edits] is its loop: run from the world the backup step
    leaves, which differs from the one given by at most the backup file. *)
Lemma apply_edits_valid (E : env) (w : world) (metadata : ReportMetadata)
  (patches : list EditPatch) (file_path : Path) (user_id : option string)
  (dry_run create_backup : bool) :
  _validate_patches metadata patches = [] →
  (create_backup = true → dry_run = false → exists_ w file_path = true →
   copy_outcome E = None) →
  ∃ (w1 : world) (backup_path : option Path),
    sdk_calls w1 = sdk_calls w
    ∧ (dry_run = true → w1 = w ∧ backup_path = None)
    ∧ apply_edits E w metadata patches file_path user_id dry_run create_backup
      = ((apply_loop E metadata file_path user_id dry_run 0 patches w1
            no_progress).1,
         {| r_success :=
              bool_decide
                (length (failed_patches
                   (apply_loop E metadata file_path user_id dry_run 0 patches w1
                      no_progress).2) = 0%nat);
            r_applied_patches :=
              applied_patches
                (apply_loop E metadata file_path user_id dry_run 0 patches w1
                   no_progress).2;
            r_failed_patches :=
              failed_patches
                (apply_loop E metadata file_path user_id dry_run 0 patches w1
                   no_progress).2;
            r_backup_path := path_str <$> backup_path;
            r_change_log_entries :=
              change_log_entries
                (apply_loop E metadata file_path user_id dry_run 0 patches w1
                   no_progress).2 |}).
Proof.
  intros Hvalid Hcopy. unfold apply_edits. rewrite Hvalid.
  destruct (create_backup && negb dry_run && exists_ w file_path) eqn:Hb.
  - apply andb_prop in Hb as [Hb Hex]. apply andb_prop in Hb as [Hcb Hdry].
    apply negb_true_iff in Hdry. specialize (Hcopy Hcb Hdry Hex).
    unfold exists_ in Hex. apply bool_decide_eq_true in Hex as [content Hc].
    unfold _create_backup. rewrite Hcopy, Hc.
    exists {| files := <[ path_str (backup_path_of E file_path) := content ]> (files w);
              sdk_calls := sdk_calls w |}, (Some (backup_path_of E file_path)).
    split; [done |]. split; [by intros -> |].
    by destruct (apply_loop _ _ _ _ _ _ _ _ _).
  - exists w, None. split; [done |]. split; [done |].
    by destruct (apply_loop _ _ _ _ _ _ _ _ _).
Qed.





(** When no iteration raises, the outcomes are the patches themselves. *)
Lemma outcomes_none_raised (E : env) (dry_run : bool) (patches : list EditPatch) :
  (∀ i patch, raised E dry_run i patch = None) →
  ∀ i, outcomes E dry_run i patches = map (λ patch, (patch, None)) patches.
Proof.
  intros Hnone. induction patches as [|p rest IH]; intros i; simpl; [done |].
  by rewrite Hnone, IH.
Qed.

Lemma all_applied (metadata : ReportMetadata) (user_id : option string)
  (patches : list EditPatch) :
  omap applied_id (map (λ patch, (patch, None)) patches) = map p_id patches
  ∧ omap failed_pair (map (λ patch, (patch, None)) patches) = []
  ∧ map (logged metadata user_id) (map (λ patch, (patch, None)) patches)
    = map (λ patch, _create_change_log_entry metadata patch user_id true None)
        patches.
Proof.
  induction patches as [|p rest (IH1 & IH2 & IH3)]; [done |].
  simpl. unfold omap in *. rewrite IH1, IH2, IH3. done.
Qed.

(** C9. A dry run over a valid list leaves the world as it was (no backup
    file is written, no mutation call is made) and returns no backup path,
    yet it succeeds, lists every patch id as applied and carries one
    change-log entry per patch, in the order of the patches: the i-th names
    the i-th patch, its operation and its target, has the success flag set
    and no error message. These are the very lists a run that is not dry
    returns when none of its calls fails. *)
Theorem dry_run_touches_nothing (E : env) (w : world) (metadata : ReportMetadata)
  (patches : list EditPatch) (file_path : Path) (user_id : option string)
  (create_backup : bool) (w' : world) (r : ApplyEditsResponse) :
  _validate_patches metadata patches = [] →
  apply_edits E w metadata patches file_path user_id true create_backup = (w', r) →
  w' = w
  ∧ r_backup_path r = None
  ∧ r_success r = true
  ∧ r_failed_patches r = []
  ∧ r_applied_patches r = map p_id patches
  ∧ r_change_log_entries r
    = map (λ patch, _create_change_log_entry metadata patch user_id true None)
        patches
  ∧ length (r_change_log_entries r) = length patches
  ∧ (∀ i patch,
       patches !! i = Some patch →
       ∃ entry,
         r_change_log_entries r !! i = Some entry
         ∧ c_patch_id entry = p_id patch
         ∧ c_operation entry = p_operation patch
         ∧ c_field_id entry = p_target_field_id patch
         ∧ c_report_id entry = m_id metadata
         ∧ c_user_id entry = user_id
         ∧ c_success entry = true
         ∧ c_error_message entry = None)
  ∧ (∀ (E2 : env) (w2 : world) (create_backup2 : bool),
       copy_outcome E2 = None →
       (∀ i patch, sdk_outcome E2 i patch = None) →
       r_success (apply_edits E2 w2 metadata patches file_path user_id false
                    create_backup2).2 = true
       ∧ r_applied_patches (apply_edits E2 w2 metadata patches file_path user_id
                              false create_backup2).2 = r_applied_patches r
       ∧ r_change_log_entries (apply_edits E2 w2 metadata patches file_path
                                 user_id false create_backup2).2
         = r_change_log_entries r).
Proof.
  intros Hvalid Hrun.
  assert (apply_edits E w metadata patches file_path user_id true create_backup
          = (w, {| r_success := true; r_applied_patches := map p_id patches;
                   r_failed_patches := []; r_backup_path := None;
                   r_change_log_entries :=
                     map (λ patch,
                            _create_change_log_entry metadata patch user_id true None)
                       patches |})) as Hdry.
  { unfold apply_edits. rewrite Hvalid.
    replace (create_backup && negb true && exists_ w file_path) with false
      by (by destruct create_backup).
    destruct (apply_loop_outcomes E metadata file_path user_id true patches
                0%nat w no_progress) as (Ha & Hf & Hc & Hfiles & Hcalls).
    rewrite (outcomes_none_raised E true patches (λ _ _, eq_refl)) in Ha, Hf, Hc.
    destruct (all_applied metadata user_id patches) as (Hx & Hy & Hz).
    rewrite Hx in Ha. rewrite Hy in Hf. rewrite Hz in Hc.
    simpl in Ha, Hf, Hc, Hfiles, Hcalls. rewrite app_nil_r in Hcalls.
    destruct (apply_loop E metadata file_path user_id true 0 patches w no_progress)
      as [w2 acc]. simpl in *.
    rewrite Ha, Hf, Hc. f_equal. destruct w2, w; simpl in *; congruence. }
  rewrite Hdry in Hrun. injection Hrun as <- <-. simpl.
  do 6 (split; [done |]).
  split; [by rewrite length_map |]. split.
  { intros i patch Hi.
    exists (_create_change_log_entry metadata patch user_id true None).
    split; [by rewrite list_lookup_fmap, Hi |]. done. }
  intros E2 w2 cb2 Hcopy Hquiet.
  destruct (apply_edits_valid E2 w2 metadata patches file_path user_id false cb2
              Hvalid (λ _ _ _, Hcopy)) as (w1 & bp & _ & _ & ->). simpl.
  destruct (apply_loop_outcomes E2 metadata file_path user_id false patches
              0%nat w1 no_progress) as (Ha & Hf & Hc & _ & _).
  rewrite (outcomes_none_raised E2 false patches Hquiet) in Ha, Hf, Hc.
  destruct (all_applied metadata user_id patches) as (Hx & Hy & Hz).
  rewrite Hx in Ha. rewrite Hy in Hf. rewrite Hz in Hc.
  simpl in Ha, Hf, Hc. rewrite Ha, Hf, Hc. done.
Qed.

Lemma dry_run_touches_nothing_witness :
  (apply_edits second_fails disk (sales true) valid_patches report_file None
     true true).1 = disk
  ∧ r_backup_path (apply_edits second_fails disk (sales true) valid_patches
                     report_file None true true).2 = None
  ∧ r_applied_patches (apply_edits second_fails disk (sales true) valid_patches
                         report_file None true true).2 = ["p1"; "p2"; "p3"]
  ∧ map (λ entry, (c_patch_id entry, c_success entry, c_error_message entry))
      (r_change_log_entries
         (apply_edits second_fails disk (sales true) valid_patches report_file
            None true true).2)
    = [("p1", true, None); ("p2", true, None); ("p3", true, None)].
Proof.
  destruct (dry_run_touches_nothing second_fails disk (sales true) valid_patches
              report_file None true _ _ eq_refl (surjective_pairing _))
    as (Hw & Hb & _ & _ & Ha & Hentries & _).
  split; [exact Hw |]. split; [exact Hb |]. split; [exact Ha |].
  by rewrite Hentries.
Defined.

End EditServiceFacts.

(** ** Unique file names *)
Module FileUtilsFacts.
Import FileUtils PyFacts.

Local Open Scope nat_scope.








End FileUtilsFacts.

(** ** Query suggestions *)
Module QueryFacts.
Import Py Model Query Samples.

Local Open Scope nat_scope.

(** *** Deduplication *)

Lemma add_unique_prefix (names : list string) (name : string) :
  names `prefix_of` add_unique names name.
Proof.
  unfold add_unique. case_bool_decide; [done |]. by apply prefix_app_r.
Qed.

Lemma fold_add_unique_prefix (xs acc : list string) :
  acc `prefix_of` fold_left add_unique xs acc.
Proof.
  revert acc. induction xs as [|x xs IH]; intros acc; simpl; [done |].
  etrans; [apply add_unique_prefix | apply IH].
Qed.

Lemma add_unique_NoDup (names : list string) (name : string) :
  NoDup names → NoDup (add_unique names name).
Proof.
  intros Hnd. unfold add_unique. case_bool_decide; [done |].
  apply NoDup_app. split; [done |]. split; [| apply NoDup_singleton].
  intros y Hy Hy'. apply list_elem_of_singleton in Hy'. by subst.
Qed.

Lemma fold_add_unique_NoDup (xs acc : list string) :
  NoDup acc → NoDup (fold_left add_unique xs acc).
Proof.
  revert acc. induction xs as [|x xs IH]; intros acc Hnd; simpl; [done |].
  by apply IH, add_unique_NoDup.
Qed.

Lemma add_unique_length (names : list string) (name : string) :
  length (add_unique names name) ≤ S (length names).
Proof.
  unfold add_unique. case_bool_decide; [lia |]. rewrite length_app. simpl. lia.
Qed.

Lemma fold_add_unique_length (xs acc : list string) :
  length (fold_left add_unique xs acc) ≤ length acc + length xs.
Proof.
  revert acc. induction xs as [|x xs IH]; intros acc; simpl; [lia |].
  specialize (IH (add_unique acc x)).
  pose proof (add_unique_length acc x). lia.
Qed.

(** Once added, a name is found at an index no larger than the length the
    list had. *)
Lemma add_unique_lookup (names : list string) (name : string) :
  ∃ i, i ≤ length names ∧ add_unique names name !! i = Some name.
Proof.
  unfold add_unique. case_bool_decide as Hin.
  - apply list_elem_of_lookup in Hin as [i Hi]. exists i. split; [| done].
    apply lookup_lt_Some in Hi. lia.
  - exists (length names). split; [done |].
    rewrite lookup_app_r by done. by rewrite Nat.sub_diag.
Qed.

(** An element sitting behind [pre] in the input is kept among the first
    [length pre + 1] keys. *)
Lemma dict_fromkeys_keeps (pre post : list string) (x : string) :
  ∃ i, i ≤ length pre ∧ dict_fromkeys (pre ++ x :: post) !! i = Some x.
Proof.
  unfold dict_fromkeys. rewrite fold_left_app. simpl.
  destruct (add_unique_lookup (fold_left add_unique pre []) x) as (i & Hi & Hx).
  exists i. split.
  - pose proof (fold_add_unique_length pre []). simpl in *. lia.
  - eapply prefix_lookup_Some; [exact Hx | apply fold_add_unique_prefix].
Qed.

Lemma kept_in_first_15 (pre post : list string) (x : string) :
  length pre < 15 →
  x ∈ take 15 (dict_fromkeys (pre ++ x :: post)).
Proof.
  intros Hlen. destruct (dict_fromkeys_keeps pre post x) as (i & Hi & Hx).
  apply elem_of_take. exists i. split; [done | lia].
Qed.

(** *** The scan *)

Lemma add_unique_elem (names : list string) (name x : string) :
  x ∈ add_unique names name ↔ x ∈ names ∨ x = name.
Proof.
  unfold add_unique. case_bool_decide as Hin.
  - split; [by left | intros [? | ->]; done].
  - rewrite elem_of_app, list_elem_of_singleton. done.
Qed.

Lemma scan_field_keeps (acc : scan) (field : ReportField) (x : string) :
  (x ∈ formula_fields acc → x ∈ formula_fields (scan_field acc field))
  ∧ (x ∈ currency_fields acc → x ∈ currency_fields (scan_field acc field)).
Proof.
  unfold scan_field. simpl.
  split; intros H; case_bool_decide; try done; apply add_unique_elem; by left.
Qed.

Lemma scan_fields_keeps (fields : list ReportField) (acc : scan) (x : string) :
  (x ∈ formula_fields acc → x ∈ formula_fields (fold_left scan_field fields acc))
  ∧ (x ∈ currency_fields acc → x ∈ currency_fields (fold_left scan_field fields acc)).
Proof.
  revert acc. induction fields as [|f rest IH]; intros acc; simpl; [done |].
  destruct (IH (scan_field acc f)) as [IHf IHc].
  destruct (scan_field_keeps acc f x) as [Hf Hc]. split; auto.
Qed.

Lemma scan_fields_records (fields : list ReportField) (acc : scan)
  (field : ReportField) :
  field ∈ fields →
  (f_field_type field = FORMULA →
   f_name field ∈ formula_fields (fold_left scan_field fields acc))
  ∧ (f_field_type field = CURRENCY →
     f_name field ∈ currency_fields (fold_left scan_field fields acc)).
Proof.
  revert acc. induction fields as [|f rest IH]; intros acc Hin;
    [by apply elem_of_nil in Hin |].
  simpl. apply elem_of_cons in Hin as [-> | Hin]; [| by apply IH].
  destruct (scan_fields_keeps rest (scan_field acc f) (f_name f)) as [Kf Kc].
  split; intros Ht; [apply Kf | apply Kc]; unfold scan_field; simpl;
    rewrite Ht; rewrite bool_decide_eq_true_2 by done;
    apply add_unique_elem; by right.
Qed.

Lemma scan_from_keeps (sections : list ReportSection) (acc : scan) (x : string) :
  (x ∈ formula_fields acc → x ∈ formula_fields (scan_from acc sections))
  ∧ (x ∈ currency_fields acc → x ∈ currency_fields (scan_from acc sections)).
Proof.
  revert acc. induction sections as [|s rest IH]; intros acc; simpl; [done |].
  destruct (IH (fold_left scan_field (s_fields s) acc)) as [IHf IHc].
  destruct (scan_fields_keeps (s_fields s) acc x) as [Hf Hc]. split; auto.
Qed.

(** A formula (currency) field of some section has its name on the formula
    (currency) list of the scan. *)
Lemma scan_sections_records (sections : list ReportSection)
  (section : ReportSection) (field : ReportField) :
  section ∈ sections → field ∈ s_fields section →
  (f_field_type field = FORMULA →
   f_name field ∈ formula_fields (scan_sections sections))
  ∧ (f_field_type field = CURRENCY →
     f_name field ∈ currency_fields (scan_sections sections)).
Proof.
  unfold scan_sections.
  generalize {| field_names := []; formula_fields := []; currency_fields := [] |}.
  induction sections as [|s rest IH]; intros acc Hs Hf;
    [by apply elem_of_nil in Hs |].
  simpl. apply elem_of_cons in Hs as [<- | Hs]; [| by apply IH].
  destruct (scan_fields_records (s_fields section) acc field Hf) as [Rf Rc].
  destruct (scan_from_keeps rest (fold_left scan_field (s_fields section) acc)
              (f_name field)) as [Kf Kc].
  split; intros Ht; [apply Kf, Rf | apply Kc, Rc]; done.
Qed.

(** *** The suggestions of a report with every kind of content *)

Lemma field_questions_length (names : list string) :
  length (concat (map field_questions (take 3 names)))
  = 2 * length (take 3 names).
Proof.
  induction (take 3 names) as [|n rest IH]; simpl; [done |]. rewrite IH. lia.
Qed.

Lemma formula_questions_length (names : list string) :
  length (formula_questions names) ≤ 2.
Proof.
  unfold formula_questions. destruct names; simpl; [lia |].
  case_match; simpl; lia.
Qed.

Lemma currency_questions_length (names : list string) :
  length (currency_questions names) ≤ 2.
Proof.
  unfold currency_questions. destruct names; simpl; [lia |].
  case_match; simpl; lia.
Qed.

Lemma formula_questions_head (names : list string) :
  names ≠ [] →
  ∃ more, formula_questions names = "Which fields use formulas?" :: more.
Proof. intros H. unfold formula_questions. destruct names; [done | eauto]. Qed.

Lemma currency_questions_head (names : list string) :
  names ≠ [] →
  ∃ more, currency_questions names = "Show me all currency fields" :: more.
Proof. intros H. unfold currency_questions. destruct names; [done | eauto]. Qed.

(** With two tables, the database questions end on the tables question and
    the relationships question, after at most one connections question. *)
Lemma database_questions_tables (metadata : ReportMetadata) :
  2 ≤ length (m_tables metadata) →
  ∃ conn,
    database_questions metadata
    = conn ++ ["What tables are used in this report?";
               "How are the tables related?"]
    ∧ length conn ≤ 1
    ∧ (m_database_connections metadata = [] → conn = []).
Proof.
  intros Htables. unfold database_questions.
  destruct (m_tables metadata) as [|t1 rest] eqn:Ht; [simpl in Htables; lia |].
  rewrite bool_decide_eq_true_2 by lia.
  destruct (m_database_connections metadata); eexists; (split; [done |]);
    simpl; (split; [lia | done]).
Qed.

(** C7, as the code has it. For a report with a currency field, a formula
    field, a parameter and two tables, the suggestions hold the three generic
    questions, the formulas question and the currency question, have at most
    15 entries and no entry twice. The relationships question is among them
    when the report has no database connection, or fewer than three distinct
    field names. *)
Theorem suggestions_of_rich_report (metadata : ReportMetadata) :
  rich metadata →
  (∀ q, q ∈ generic_questions → q ∈ _generate_query_suggestions metadata)
  ∧ "Which fields use formulas?" ∈ _generate_query_suggestions metadata
  ∧ "Show me all currency fields" ∈ _generate_query_suggestions metadata
  ∧ length (_generate_query_suggestions metadata) ≤ 15
  ∧ NoDup (_generate_query_suggestions metadata)
  ∧ (m_database_connections metadata = []
     ∨ length (field_names (scan_sections (m_sections metadata))) < 3 →
     "How are the tables related?" ∈ _generate_query_suggestions metadata).
Proof.
  intros ((sc & fc & Hsc & Hfc & Htc) & (sf & ff & Hsf & Hff & Htf) & Hparams
          & Htables).
  unfold _generate_query_suggestions, all_suggestions.
  set (s := scan_sections (m_sections metadata)).
  set (FQ := concat (map field_questions (take 3 (field_names s)))).
  set (rest := parameter_questions metadata ++ section_questions metadata).
  assert (formula_fields s ≠ []) as Hformula.
  { pose proof (proj1 (scan_sections_records _ _ _ Hsf Hff) Htf) as Hin.
    fold s in Hin. intros Heq. rewrite Heq in Hin. by apply elem_of_nil in Hin. }
  assert (currency_fields s ≠ []) as Hcurrency.
  { pose proof (proj2 (scan_sections_records _ _ _ Hsc Hfc) Htc) as Hin.
    fold s in Hin. intros Heq. rewrite Heq in Hin. by apply elem_of_nil in Hin. }
  destruct (formula_questions_head _ Hformula) as [fmore Hfq].
  destruct (currency_questions_head _ Hcurrency) as [cmore Hcq].
  destruct (database_questions_tables metadata Htables)
    as (conn & Hdb & Hconn & Hnoconn).
  pose proof (field_questions_length (field_names s)) as HFQ. fold FQ in HFQ.
  pose proof (length_take (field_names s) 3) as Htake.
  pose proof (formula_questions_length (formula_fields s)) as Hfl.
  pose proof (currency_questions_length (currency_fields s)) as Hcl.
  split; [| split; [| split; [| split; [| split]]]].
  - intros q Hq. unfold generic_questions in Hq |- *.
    apply elem_of_cons in Hq as [-> | Hq]; [apply (kept_in_first_15 []); simpl; lia |].
    apply elem_of_cons in Hq as [-> | Hq];
      [apply (kept_in_first_15 [_]); simpl; lia |].
    apply elem_of_cons in Hq as [-> | Hq];
      [apply (kept_in_first_15 [_; _]); simpl; lia |].
    by apply elem_of_nil in Hq.
  - rewrite Hfq.
    replace (generic_questions ++ FQ ++ ("Which fields use formulas?" :: fmore)
             ++ currency_questions (currency_fields s)
             ++ database_questions metadata ++ rest)
      with ((generic_questions ++ FQ) ++ "Which fields use formulas?"
            :: (fmore ++ currency_questions (currency_fields s)
                ++ database_questions metadata ++ rest))
      by (by rewrite <- !app_assoc).
    apply kept_in_first_15. rewrite length_app. simpl. lia.
  - rewrite Hcq.
    replace (generic_questions ++ FQ ++ formula_questions (formula_fields s)
             ++ ("Show me all currency fields" :: cmore)
             ++ database_questions metadata ++ rest)
      with ((generic_questions ++ FQ ++ formula_questions (formula_fields s))
            ++ "Show me all currency fields"
            :: (cmore ++ database_questions metadata ++ rest))
      by (by rewrite <- !app_assoc).
    apply kept_in_first_15. rewrite !length_app. simpl. lia.
  - rewrite length_take. lia.
  - eapply sublist_NoDup; [| apply sublist_take].
    apply fold_add_unique_NoDup, NoDup_nil_2.
  - intros Hroom. rewrite Hdb.
    replace (generic_questions ++ FQ ++ formula_questions (formula_fields s)
             ++ currency_questions (currency_fields s)
             ++ (conn ++ ["What tables are used in this report?";
                          "How are the tables related?"]) ++ rest)
      with ((generic_questions ++ FQ ++ formula_questions (formula_fields s)
             ++ currency_questions (currency_fields s) ++ conn
             ++ ["What tables are used in this report?"])
            ++ "How are the tables related?" :: rest)
      by (by rewrite <- !app_assoc).
    apply kept_in_first_15. rewrite !length_app. simpl.
    destruct Hroom as [Hnone | Hfew].
    + rewrite (Hnoconn Hnone). simpl. lia.
    + lia.
Qed.

Lemma report_with_rich (connections : list DatabaseConnection) :
  rich (report_with three_fields connections).
Proof.
  split; [| split; [| split; [done | simpl; lia]]].
  - exists (details_of three_fields), (field_of "f3" "Amount" CURRENCY).
    split; [apply list_elem_of_singleton; done |].
    split; [unfold three_fields; set_solver | done].
  - exists (details_of three_fields), (field_of "f2" "Total" FORMULA).
    split; [apply list_elem_of_singleton; done |].
    split; [unfold three_fields; set_solver | done].
Qed.

Lemma suggestions_of_rich_report_witness :
  "Which fields use formulas?" ∈ _generate_query_suggestions offline
  ∧ "Show me all currency fields" ∈ _generate_query_suggestions offline
  ∧ length (_generate_query_suggestions offline) ≤ 15
  ∧ "How are the tables related?" ∈ _generate_query_suggestions offline.
Proof.
  destruct (suggestions_of_rich_report offline (report_with_rich []))
    as (_ & Hf & Hc & Hlen & _ & Hrel).
  split; [exact Hf |]. split; [exact Hc |]. split; [exact Hlen |].
  apply Hrel. by left.
Defined.

(** C7, as the claim words it, fails on a report with three field names and
    a database connection: its fifteen suggestions end on the tables
    question, and the relationships question, sixteenth in line, is cut. *)
Lemma relationships_question_cut :
  rich busy
  ∧ _generate_query_suggestions busy
    = [ "What sections does this report have?";
        "How many fields are in this report?";
        "What database tables are used?";
        "Where does Customer come from?";
        "Show me details about the Customer field";
        "Where does Total come from?";
        "Show me details about the Total field";
        "Where does Amount come from?";
        "Show me details about the Amount field";
        "Which fields use formulas?";
        "What is the formula for Total?";
        "Show me all currency fields";
        "How is Amount calculated?";
        "What database connections are configured?";
        "What tables are used in this report?" ]
  ∧ "How are the tables related?" ∉ _generate_query_suggestions busy.
Proof.
  split; [apply report_with_rich |].
  assert (_generate_query_suggestions busy
          = [ "What sections does this report have?";
              "How many fields are in this report?";
              "What database tables are used?";
              "Where does Customer come from?";
              "Show me details about the Customer field";
              "Where does Total come from?";
              "Show me details about the Total field";
              "Where does Amount come from?";
              "Show me details about the Amount field";
              "Which fields use formulas?";
              "What is the formula for Total?";
              "Show me all currency fields";
              "How is Amount calculated?";
              "What database connections are configured?";
              "What tables are used in this report?" ]) as Heq
    by (by vm_compute).
  split; [exact Heq |]. rewrite Heq.
  apply (bool_decide_eq_false_1 _). by vm_compute.
Qed.

End QueryFacts.

(** ** Upload and the background task *)
Module UploadFacts.
Import Py Model Storage Upload Samples.

(** *** What a task can do to the table *)

(** Every state a run of the task commits satisfies [P], for any [P] on the
    table that holds at the start and is kept by the three writes the task
    can make on its report: store the metadata, mark it ready right after,
    mark it failed. *)
Lemma task_states (P : gmap string report_row → Prop) (E : task_env)
  (path report_id name : string) (w : state) :
  P (reports w) →
  (∀ t metadata, P t → P (alter (with_metadata metadata) report_id t)) →
  (∀ t e, P t → P (alter (with_status ERROR (Some e)) report_id t)) →
  (∀ t metadata,
     P t →
     P (alter (with_status READY None) report_id
          (alter (with_metadata metadata) report_id t))) →
  ∀ w', w' ∈ (process_report_background E path report_id name w).1.1 →
        P (reports w').
Proof.
  intros H0 Hstore Herror Hready w' Hin.
  unfold process_report_background, try_except, parse, write, stat_size,
    store_metadata, update_report_status, mbind, M_bind, bind, mret, M_ret, ret,
    raise in Hin.
  destruct E as [[e | metadata] [sf |] [rf |] [ef |] se]; simpl in Hin;
    try destruct (fs w !! path); simpl in Hin;
    repeat (apply elem_of_cons in Hin as [-> | Hin]; simpl; [by auto |]);
    by apply elem_of_nil in Hin.
Qed.

(** The same for the states [run_next] goes through. *)
Lemma run_next_states (P : gmap string report_row → Prop) (E : task_env)
  (w : state) :
  P (reports w) →
  (∀ t id metadata, P t → P (alter (with_metadata metadata) id t)) →
  (∀ t id e, P t → P (alter (with_status ERROR (Some e)) id t)) →
  (∀ t id metadata,
     P t →
     P (alter (with_status READY None) id (alter (with_metadata metadata) id t))) →
  ∀ w', w' ∈ run_next E w → P (reports w').
Proof.
  intros H0 Hstore Herror Hready w' Hin. unfold run_next in Hin.
  destruct (background_tasks w) as [|t rest]; [by apply elem_of_nil in Hin |].
  apply elem_of_cons in Hin as [-> | Hin]; [done |].
  eapply (task_states P); [| | | | exact Hin]; simpl; eauto.
Qed.

(** An upload leaves the table as it was or adds one row, in status
    'uploading' and without metadata, under an id that was free. *)
Lemma upload_report_table (suffix_lower : string → string)
  (megabytes : Z → string)
  (in_dir : string → string → string)
  (settings : Settings) (E : upload_env) (w : state)
  (file_name : option string) (content : list Byte.byte) :
  reports (upload_report suffix_lower megabytes in_dir settings E w file_name content).1
  = reports w
  ∨ ∃ row,
      reports w !! uuid4 E = None
      ∧ status row = UPLOADING ∧ metadata_json row = None
      ∧ reports (upload_report suffix_lower megabytes in_dir settings E w file_name content).1
        = <[ uuid4 E := row ]> (reports w).
Proof.
  unfold upload_report, create_report_record.
  repeat (case_match; simpl; try (by left)). simplify_eq.
  right. eexists. split; [done |]. split; [| split]; [| | reflexivity]; done.
Qed.

(** *** Invariants of the reachable states *)

(** A deletion leaves the table as it was or removes one row. *)
Lemma delete_report_table (db_fault unlink_fault : option string) (w : state)
  (report_id : string) :
  reports (delete_report db_fault unlink_fault w report_id).1 = reports w
  ∨ reports (delete_report db_fault unlink_fault w report_id).1
    = delete report_id (reports w).
Proof.
  unfold delete_report. repeat (case_match; simpl; try (by left)); by right.
Qed.

(** An invariant of the table is one of every reachable state as soon as it
    holds of the empty table and is kept by the insertion of a fresh row, by
    the removal of a row and by the writes of the task. *)
Lemma reachable_invariant (P : gmap string report_row → Prop)
  (suffix_lower : string → string) (megabytes : Z → string)
  (in_dir : string → string → string) (settings : Settings) :
  P ∅ →
  (∀ t id row, P t → t !! id = None → status row = UPLOADING →
     metadata_json row = None → P (<[ id := row ]> t)) →
  (∀ t id, P t → P (delete id t)) →
  (∀ t id metadata, P t → P (alter (with_metadata metadata) id t)) →
  (∀ t id e, P t → P (alter (with_status ERROR (Some e)) id t)) →
  (∀ t id metadata,
     P t →
     P (alter (with_status READY None) id (alter (with_metadata metadata) id t))) →
  ∀ w, reachable suffix_lower megabytes in_dir settings w → P (reports w).
Proof.
  intros Hempty Hinsert Hdelete Hstore Herror Hready w Hreach.
  induction Hreach as [| w E file_name content Hreach IH
                       | w db_fault unlink_fault report_id Hreach IH
                       | w E w' Hreach IH Hin].
  - done.
  - destruct (upload_report_table suffix_lower megabytes in_dir settings E w file_name content)
      as [-> | (row & Hfree & Hst & Hmd & ->)]; [done | by apply Hinsert].
  - destruct (delete_report_table db_fault unlink_fault w report_id)
      as [-> | ->]; [done | by apply Hdelete].
  - by apply (run_next_states P E w).
Qed.

(** *** One upload, followed step by step *)

Lemma after_upload_reachable :
  reachable sample_suffix_lower sample_megabytes sample_in_dir small after_upload.
Proof. apply reach_upload, reach_initial. Qed.

Lemma after_store_reachable :
  reachable sample_suffix_lower sample_megabytes sample_in_dir small after_store.
Proof.
  apply (reach_task _ _ _ _ after_upload parse_ok); [apply after_upload_reachable |].
  apply (list_elem_of_lookup_2 _ 1%nat). by vm_compute.
Qed.

Lemma after_ready_reachable :
  reachable sample_suffix_lower sample_megabytes sample_in_dir small after_ready.
Proof.
  apply (reach_task _ _ _ _ after_upload parse_ok); [apply after_upload_reachable |].
  apply (list_elem_of_lookup_2 _ 2%nat). by vm_compute.
Qed.

(** The response of the upload says 'parsing'; the status stored for the
    report is 'uploading' from its creation until the task marks it ready. *)
Example lifecycle_of_one_upload :
  u_status <$>
    (match (upload_report sample_suffix_lower sample_megabytes sample_in_dir small first_upload
              initial (Some "sales.rpt") one_byte).2 with
     | Ok response => Some response
     | HTTPException _ _ => None
     end) = Some PARSING
  ∧ map (λ w : state, status <$> (reports w !! "id-1"))
      (initial :: after_upload :: task_trace)
    = [None; Some UPLOADING; Some UPLOADING; Some UPLOADING; Some READY].
Proof. split; by vm_compute. Qed.

(** C1, what the code does instead. In every state the server can reach,
    the status stored for a report is 'uploading', 'ready' or 'error':
    nothing ever stores 'parsing', although the upload response announces
    it. *)
Theorem stored_status_is_never_parsing (suffix_lower : string → string)
  (megabytes : Z → string)
  (in_dir : string → string → string)
  (settings : Settings) (w : state) (id : string)
  (row : report_row) :
  reachable suffix_lower megabytes in_dir settings w →
  reports w !! id = Some row →
  status row = UPLOADING ∨ status row = READY ∨ status row = ERROR.
Proof.
  intros Hreach. revert id row. change (three_statuses (reports w)).
  revert w Hreach.
  apply reachable_invariant.
  - intros id row Hl. by rewrite lookup_empty in Hl.
  - intros t id row Ht Hfree Hst _ id' row' Hl.
    apply lookup_insert_Some in Hl as [[_ <-] | [_ Hl]]; [by left | by eapply Ht].
  - intros t id Ht id' row' Hl.
    apply lookup_delete_Some in Hl as [_ Hl]. by eapply Ht.
  - intros t id metadata Ht id' row' Hl.
    apply lookup_alter_Some in Hl as [(_ & r & Hr & ->) | [_ Hl]];
      [exact (Ht _ _ Hr) | by eapply Ht].
  - intros t id e Ht id' row' Hl.
    apply lookup_alter_Some in Hl as [(_ & r & Hr & ->) | [_ Hl]];
      [by right; right | by eapply Ht].
  - intros t id metadata Ht id' row' Hl.
    apply lookup_alter_Some in Hl as [(_ & r & Hr & ->) | [_ Hl]];
      [by right; left |].
    apply lookup_alter_Some in Hl as [(_ & r & Hr & ->) | [_ Hl]];
      [exact (Ht _ _ Hr) | by eapply Ht].
Qed.

Lemma stored_status_is_never_parsing_witness :
  reports after_store !! "id-1" = Some (row_of UPLOADING (Some parsed))
  ∧ (status (row_of UPLOADING (Some parsed)) = UPLOADING
     ∨ status (row_of UPLOADING (Some parsed)) = READY
     ∨ status (row_of UPLOADING (Some parsed)) = ERROR).
Proof.
  assert (reports after_store !! "id-1" = Some (row_of UPLOADING (Some parsed)))
    as Hrow by (by vm_compute).
  split; [exact Hrow |].
  exact (stored_status_is_never_parsing sample_suffix_lower sample_megabytes sample_in_dir small
           after_store "id-1" _ after_store_reachable Hrow).
Defined.

(** C8, as the code has it. In every state the server can reach, a report
    marked ready has its metadata stored; said the other way round, a report
    without metadata is not marked ready. *)
Theorem ready_report_has_metadata (suffix_lower : string → string)
  (megabytes : Z → string)
  (in_dir : string → string → string)
  (settings : Settings) (w : state) (id : string)
  (row : report_row) :
  reachable suffix_lower megabytes in_dir settings w →
  reports w !! id = Some row →
  (status row = READY → is_Some (metadata_json row))
  ∧ (metadata_json row = None → status row ≠ READY).
Proof.
  intros Hreach Hrow.
  assert (ready_has_metadata (reports w)) as Hinv.
  { clear id row Hrow. revert w Hreach.
    apply reachable_invariant.
    - intros id row Hl. by rewrite lookup_empty in Hl.
    - intros t id row Ht Hfree Hst _ id' row' Hl Hready.
      apply lookup_insert_Some in Hl as [[_ <-] | [_ Hl]];
        [congruence | by eapply Ht].
    - intros t id Ht id' row' Hl Hready.
      apply lookup_delete_Some in Hl as [_ Hl]. by eapply Ht.
    - intros t id metadata Ht id' row' Hl Hready.
      apply lookup_alter_Some in Hl as [(_ & r & Hr & ->) | [_ Hl]];
        [by eexists | by eapply Ht].
    - intros t id e Ht id' row' Hl Hready.
      apply lookup_alter_Some in Hl as [(_ & r & Hr & ->) | [_ Hl]];
        [done | by eapply Ht].
    - intros t id metadata Ht id' row' Hl Hready.
      apply lookup_alter_Some in Hl as [(<- & r & Hr & ->) | [Hne Hl]].
      + rewrite lookup_alter_eq in Hr.
        destruct (t !! id) as [r0|]; simplify_eq/=. by eexists.
      + rewrite lookup_alter_ne in Hl by done. by eapply Ht. }
  split; [exact (Hinv id row Hrow) |]. intros Hnone Hready.
  destruct (Hinv id row Hrow Hready) as [m Hm]. congruence.
Qed.

Lemma ready_report_has_metadata_witness :
  reports after_ready !! "id-1" = Some (row_of READY (Some parsed))
  ∧ is_Some (metadata_json (row_of READY (Some parsed))).
Proof.
  assert (reports after_ready !! "id-1" = Some (row_of READY (Some parsed)))
    as Hrow by (by vm_compute).
  split; [exact Hrow |].
  exact (proj1 (ready_report_has_metadata sample_suffix_lower sample_megabytes
                  sample_in_dir small after_ready "id-1" _ after_ready_reachable Hrow)
           eq_refl).
Defined.

(** C8, as the claim words it, fails between the two writes of the task:
    the state after [store_metadata] and before the status update is
    reachable, and in it the report has its metadata while its status is
    'uploading', neither 'ready' nor 'parsing'. *)
Lemma metadata_stored_before_ready :
  reachable sample_suffix_lower sample_megabytes sample_in_dir small after_store
  ∧ reports after_store !! "id-1" = Some (row_of UPLOADING (Some parsed))
  ∧ is_Some (metadata_json (row_of UPLOADING (Some parsed)))
  ∧ status (row_of UPLOADING (Some parsed)) = UPLOADING.
Proof.
  split; [apply after_store_reachable |].
  split; [by vm_compute |]. split; [by eexists | done].
Qed.

(** *** The checks of the upload handler *)

(** C3. (1) A file whose extension is not allowed is refused with status
    400 and the server is left as it was: no record, no file. (2) Empty
    content is refused with the server left as it was, so before any file is
    written; under an allowed extension the answer is 400, 'Empty file
    uploaded'. (3) Content of exactly [MAX_FILE_SIZE] bytes (the ceiling being
    positive) under an allowed extension is taken: when neither the file
    write nor the insertion fails, the answer is 200, the file is written
    and the record created. (4) One byte more is refused with status 413,
    the server left as it was. *)
Theorem upload_report_checks (suffix_lower : string → string)
  (megabytes : Z → string)
  (in_dir : string → string → string)
  (settings : Settings) (E : upload_env) (w : state)
  (name : string) (content : list Byte.byte) :
  name ≠ "" →
  (suffix_lower name ∉ ALLOWED_EXTENSIONS settings →
   upload_report suffix_lower megabytes in_dir settings E w (Some name) content
   = (w, HTTPException 400
           ("Unsupported file type. Allowed: "
            +:+ join ", " (ALLOWED_EXTENSIONS settings))))
  ∧ (content = [] →
     (∃ code detail,
        upload_report suffix_lower megabytes in_dir settings E w (Some name) content
        = (w, HTTPException code detail))
     ∧ (suffix_lower name ∈ ALLOWED_EXTENSIONS settings → 0 ≤ MAX_FILE_SIZE settings →
        upload_report suffix_lower megabytes in_dir settings E w (Some name) content
        = (w, HTTPException 400 "Empty file uploaded")))
  ∧ (suffix_lower name ∈ ALLOWED_EXTENSIONS settings →
     0 < MAX_FILE_SIZE settings →
     Z.of_nat (length content) = MAX_FILE_SIZE settings →
     write_fault E = None → insert_fault E = None →
     reports w !! uuid4 E = None →
     ∃ w' response,
       upload_report suffix_lower megabytes in_dir settings E w (Some name) content
       = (w', Ok response)
       ∧ u_report_id response = uuid4 E
       ∧ u_file_size response = MAX_FILE_SIZE settings
       ∧ fs w' !! in_dir (UPLOAD_DIR settings) (uuid4 E +:+ "_" +:+ name) = Some content
       ∧ (status <$> reports w' !! uuid4 E) = Some UPLOADING)
  ∧ (suffix_lower name ∈ ALLOWED_EXTENSIONS settings →
     Z.of_nat (length content) = MAX_FILE_SIZE settings + 1 →
     upload_report suffix_lower megabytes in_dir settings E w (Some name) content
     = (w, HTTPException 413
             ("File too large. Maximum size: "
              +:+ megabytes (MAX_FILE_SIZE settings) +:+ "MB"))).
Proof.
  intros Hname.
  assert (negb (truthy_str (Some name)) = false) as Hfile.
  { simpl. by rewrite bool_decide_eq_false_2. }
  unfold upload_report. rewrite Hfile. simpl.
  split; [| split; [| split]].
  - intros Hext. by rewrite bool_decide_eq_false_2 by done.
  - intros ->. split; [by repeat (case_match; eauto) |].
    intros Hext Hmax. rewrite bool_decide_eq_true_2 by done. simpl.
    by rewrite bool_decide_eq_false_2 by lia.
  - intros Hext Hpos Hsize Hwrite Hinsert Hfree.
    rewrite bool_decide_eq_true_2 by done. simpl.
    rewrite bool_decide_eq_false_2 by lia.
    rewrite bool_decide_eq_false_2 by lia.
    rewrite Hwrite. unfold create_report_record. rewrite Hinsert. simpl.
    rewrite Hfree. eexists _, _. split; [done |]. simpl.
    split; [done |]. split; [done |].
    split; [by rewrite lookup_insert_eq | by rewrite lookup_insert_eq].
  - intros Hext Hsize. rewrite bool_decide_eq_true_2 by done. simpl.
    by rewrite bool_decide_eq_true_2 by lia.
Qed.

(** Under a ceiling of 4 bytes: notes.txt is refused with 400, an empty
    sales.rpt is refused, sales.rpt of 4 bytes is taken, and sales.rpt of
    5 bytes is refused with 413. *)
Lemma upload_report_checks_witness :
  upload_report sample_suffix_lower sample_megabytes sample_in_dir small first_upload initial
    (Some "notes.txt") four_bytes
  = (initial, HTTPException 400 "Unsupported file type. Allowed: .rpt")
  ∧ upload_report sample_suffix_lower sample_megabytes sample_in_dir small first_upload
      initial (Some "sales.rpt") []
    = (initial, HTTPException 400 "Empty file uploaded")
  ∧ (∃ w' response,
       upload_report sample_suffix_lower sample_megabytes sample_in_dir small first_upload
         initial (Some "sales.rpt") four_bytes = (w', Ok response)
       ∧ u_report_id response = "id-1"
       ∧ u_file_size response = 4
       ∧ fs w' !! "uploads/id-1_sales.rpt" = Some four_bytes
       ∧ (status <$> reports w' !! "id-1") = Some UPLOADING)
  ∧ upload_report sample_suffix_lower sample_megabytes sample_in_dir small first_upload
      initial (Some "sales.rpt") (Byte.x00 :: four_bytes)
    = (initial, HTTPException 413 "File too large. Maximum size: 0.0MB").
Proof.
  split; [| split; [| split]].
  - apply (upload_report_checks sample_suffix_lower sample_megabytes sample_in_dir small
             first_upload initial "notes.txt" four_bytes); [done |].
    apply (bool_decide_eq_false_1 _). by vm_compute.
  - apply (upload_report_checks sample_suffix_lower sample_megabytes sample_in_dir small
             first_upload initial "sales.rpt" []); try done.
    apply (bool_decide_eq_true_1 _). by vm_compute.
  - apply (upload_report_checks sample_suffix_lower sample_megabytes sample_in_dir small
             first_upload initial "sales.rpt" four_bytes); try done.
    apply (bool_decide_eq_true_1 _). by vm_compute.
  - apply (upload_report_checks sample_suffix_lower sample_megabytes sample_in_dir small
             first_upload initial "sales.rpt" (Byte.x00 :: four_bytes));
      try done.
    apply (bool_decide_eq_true_1 _). by vm_compute.
Defined.

(** The upload of a text file under the default settings, as the test suite
    of the repository has it: 400, 'Unsupported file type'. *)
Example upload_of_text_file_refused :
  upload_report sample_suffix_lower sample_megabytes sample_in_dir default_settings
    first_upload initial (Some "test.txt") four_bytes
  = (initial, HTTPException 400 "Unsupported file type. Allowed: .rpt").
Proof. by vm_compute. Qed.

End UploadFacts.

(** * Properties of the file names, the endpoints and the edit API *)

(** ** Safe file names *)
Module SafeNameFacts.
Import FileUtils SafeName PyFacts.

Local Open Scope nat_scope.

Lemma all_chars_append (p : ascii → bool) (a b : string) :
  all_chars p (a +:+ b) = all_chars p a && all_chars p b.
Proof.
  induction a as [|c a IH]; [reflexivity |]. rewrite append_cons. simpl.
  by rewrite IH, andb_assoc.
Qed.

Lemma replace_unsafe_safe (filename : string) :
  all_chars is_safe (replace_unsafe filename) = true.
Proof.
  induction filename as [|c rest IH]; [done |].
  cbn [replace_unsafe all_chars]. rewrite IH, andb_true_r. unfold is_safe.
  destruct (char_in c safe_chars) eqn:Hc; [exact Hc | by vm_compute].
Qed.

Lemma replace_unsafe_length (filename : string) :
  String.length (replace_unsafe filename) = String.length filename.
Proof. induction filename as [|c rest IH]; simpl; [done | by rewrite IH]. Qed.

(** A name made of safe characters is left as it is. *)
Lemma replace_unsafe_fixed (name : string) :
  all_chars is_safe name = true → replace_unsafe name = name.
Proof.
  induction name as [|c rest IH]; [done |]. cbn [replace_unsafe all_chars].
  intros [Hc Hrest]%andb_prop. unfold is_safe in Hc. rewrite Hc.
  by rewrite IH.
Qed.

Lemma no_leading_dot_safe (name : string) :
  all_chars is_safe name = true → all_chars is_safe (no_leading_dot name) = true.
Proof.
  destruct name as [|c rest]; [done |]. simpl.
  intros [Hc Hrest]%andb_prop. case_bool_decide; simpl; [done |].
  by rewrite Hc.
Qed.

Lemma no_leading_dot_length (name : string) :
  String.length (no_leading_dot name) = String.length name.
Proof. destruct name as [|c rest]; [done |]. simpl. by case_bool_decide. Qed.

Lemma no_leading_dot_starts (name : string) :
  starts_with_dot (no_leading_dot name) = false.
Proof.
  destruct name as [|c rest]; [done |]. simpl.
  case_bool_decide as Hc; simpl; [done | by rewrite bool_decide_eq_false_2].
Qed.

Lemma no_leading_dot_fixed (name : string) :
  starts_with_dot name = false → no_leading_dot name = name.
Proof. destruct name as [|c rest]; [done |]. simpl. by intros ->. Qed.

Lemma str_take_safe (p : ascii → bool) (n : nat) (s : string) :
  all_chars p s = true → all_chars p (str_take n s) = true.
Proof.
  revert s. induction n as [|n IH]; intros [|c rest]; simpl; try done.
  intros [Hc Hrest]%andb_prop. by rewrite Hc, IH.
Qed.

Lemma str_take_length (n : nat) (s : string) :
  String.length (str_take n s) = n `min` String.length s.
Proof.
  revert s. induction n as [|n IH]; intros [|c rest]; simpl; try done.
  by rewrite IH.
Qed.

Lemma slice_to_safe (p : ascii → bool) (s : string) (k : Z) :
  all_chars p s = true → all_chars p (slice_to s k) = true.
Proof. intros H. unfold slice_to. case_bool_decide; by apply str_take_safe. Qed.

(** What [rsplit_dot] returns are the two halves of its argument. *)
Lemma rsplit_dot_join (s root ext : string) :
  rsplit_dot s = Some (root, ext) → root +:+ ext = s.
Proof.
  revert root ext. induction s as [|c rest IH]; intros root ext; simpl; [done |].
  destruct (rsplit_dot rest) as [[a b]|] eqn:Hrest.
  - intros [= <- <-]. rewrite append_cons. f_equal. by apply IH.
  - case_bool_decide; [| done]. by intros [= <- <-].
Qed.

(** [name + ext] is the path [splitext] was given. *)
Lemma posix_splitext_join (p : string) :
  (posix_splitext p).1 +:+ (posix_splitext p).2 = p.
Proof.
  unfold posix_splitext.
  destruct (rsplit_dot p) as [[root ext]|] eqn:Hsplit;
    [| by simpl; rewrite append_nil_r].
  repeat case_match; simpl; try (by rewrite append_nil_r).
  by apply rsplit_dot_join.
Qed.

Lemma posix_splitext_safe (p : string) :
  all_chars is_safe p = true →
  all_chars is_safe (posix_splitext p).1 = true
  ∧ all_chars is_safe (posix_splitext p).2 = true.
Proof.
  intros H. rewrite <- (posix_splitext_join p), all_chars_append in H.
  by apply andb_prop in H.
Qed.

(** Below the limit the third step does nothing. *)
Lemma safe_filename_below_limit (filename : string) :
  String.length filename ≤ 255 →
  safe_filename filename = no_leading_dot (replace_unsafe filename).
Proof.
  intros Hlen. unfold safe_filename, limit_length.
  rewrite bool_decide_eq_false_2; [done |].
  rewrite no_leading_dot_length, replace_unsafe_length. lia.
Qed.

(** X1. Whatever the file name, every character of the sanitised name is a
    letter, a digit, a dash, an underscore or a dot. *)
Theorem safe_filename_alphabet (filename : string) :
  all_chars is_safe (safe_filename filename) = true.
Proof.
  unfold safe_filename, limit_length.
  pose proof (no_leading_dot_safe _ (replace_unsafe_safe filename)) as Hsafe.
  case_bool_decide; [| done].
  destruct (posix_splitext_safe _ Hsafe) as [Hname Hext].
  destruct (posix_splitext (no_leading_dot (replace_unsafe filename)))
    as [name ext]. simpl in *.
  by rewrite all_chars_append, (slice_to_safe _ _ _ Hname), Hext.
Qed.

(** X2. A file name of at most 255 characters keeps its length, each unsafe
    character and a leading dot being replaced by an underscore in place; the
    result does not start with a dot. *)
Theorem safe_filename_short (filename : string) :
  String.length filename ≤ 255 →
  safe_filename filename = no_leading_dot (replace_unsafe filename)
  ∧ String.length (safe_filename filename) = String.length filename
  ∧ starts_with_dot (safe_filename filename) = false.
Proof.
  intros Hlen. rewrite (safe_filename_below_limit filename Hlen).
  split; [done |]. split.
  - by rewrite no_leading_dot_length, replace_unsafe_length.
  - apply no_leading_dot_starts.
Qed.

Lemma safe_filename_short_witness :
  safe_filename ".my report?.RPT" = "_my_report_.RPT"
  ∧ String.length (safe_filename ".my report?.RPT") = 15
  ∧ starts_with_dot (safe_filename ".my report?.RPT") = false.
Proof.
  destruct (safe_filename_short ".my report?.RPT") as (Heq & Hlen & Hdot).
  - vm_compute. lia.
  - split; [by rewrite Heq | by split].
Defined.

(** X3. The sanitised name always ends with the extension of the cleaned
    name (the text from its last dot on), and has at most 255 characters as
    long as that extension has: the cut is made in front of the extension,
    never inside it. *)
Theorem safe_filename_keeps_extension (filename : string) :
  (∃ stem,
     safe_filename filename
     = stem +:+ (posix_splitext (no_leading_dot (replace_unsafe filename))).2)
  ∧ (String.length (posix_splitext (no_leading_dot (replace_unsafe filename))).2
     ≤ 255 →
     String.length (safe_filename filename) ≤ 255).
Proof.
  unfold safe_filename, limit_length.
  pose proof (posix_splitext_join (no_leading_dot (replace_unsafe filename)))
    as Hjoin.
  destruct (posix_splitext (no_leading_dot (replace_unsafe filename)))
    as [name ext]. simpl in *.
  case_bool_decide as Hlong.
  - split; [by eexists |]. intros Hext.
    rewrite length_append. unfold slice_to.
    rewrite bool_decide_eq_true_2 by lia. rewrite str_take_length. lia.
  - split; [by exists name |]. intros _. lia.
Qed.

(** X4. Sanitising is idempotent on file names of at most 255 characters:
    a sanitised name is left as it is by a second pass. *)
Theorem safe_filename_idempotent (filename : string) :
  String.length filename ≤ 255 →
  safe_filename (safe_filename filename) = safe_filename filename.
Proof.
  intros Hlen. rewrite (safe_filename_below_limit filename Hlen).
  set (once := no_leading_dot (replace_unsafe filename)).
  assert (String.length once ≤ 255) as Honce
    by (unfold once; rewrite no_leading_dot_length, replace_unsafe_length; lia).
  rewrite (safe_filename_below_limit once Honce).
  rewrite (replace_unsafe_fixed once)
    by apply no_leading_dot_safe, replace_unsafe_safe.
  apply no_leading_dot_fixed, no_leading_dot_starts.
Qed.

Lemma safe_filename_idempotent_witness :
  safe_filename (safe_filename ".my report?.RPT")
  = safe_filename ".my report?.RPT".
Proof.
  apply (safe_filename_idempotent ".my report?.RPT"). vm_compute. lia.
Defined.

End SafeNameFacts.

(** ** More on the upload handler, the task and the table *)
Module UploadMoreFacts.
Import Py Model Storage Upload Endpoints Requests Samples MoreSamples.

(** *** The upload handler *)

(** X5. The handler answers 200 exactly when the request is acceptable (a
    file name, an allowed extension, between 1 and [MAX_FILE_SIZE] bytes),
    the id drawn is not in the table and neither the file write nor the
    insertion fails. An acceptable request that is not served gets 500; one
    that is not acceptable gets 400 or 413 and leaves the server as it was. *)
Theorem upload_report_answers (suffix_lower : string → string)
  (megabytes : Z → string)
  (in_dir : string → string → string)
  (settings : Settings) (E : upload_env) (w : state)
  (file_name : option string) (content : list Byte.byte) :
  ((∃ w' response,
      upload_report suffix_lower megabytes in_dir settings E w file_name content
      = (w', Ok response))
   ↔ acceptable suffix_lower settings file_name content
     ∧ write_fault E = None ∧ insert_fault E = None
     ∧ reports w !! uuid4 E = None)
  ∧ (acceptable suffix_lower settings file_name content →
     (∃ w' response,
        upload_report suffix_lower megabytes in_dir settings E w file_name content
        = (w', Ok response))
     ∨ ∃ w' detail,
         upload_report suffix_lower megabytes in_dir settings E w file_name content
         = (w', HTTPException 500 detail))
  ∧ (¬ acceptable suffix_lower settings file_name content →
     ∃ code detail,
       upload_report suffix_lower megabytes in_dir settings E w file_name content
       = (w, HTTPException code detail)
       ∧ (code = 400 ∨ code = 413)).
Proof.
  unfold acceptable, upload_report, create_report_record.
  destruct (truthy_str file_name) eqn:Hname; simpl.
  2: { split; [split; [by intros (? & ? & ?) | by intros ((? & _) & _)] |].
       split; [by intros (? & _) | intros _; eauto 10]. }
  case_bool_decide as Hext; simpl.
  2: { split; [split; [by intros (? & ? & ?) | by intros ((_ & ? & _) & _)] |].
       split; [by intros (_ & ? & _) | intros _; eauto 10]. }
  case_bool_decide as Hbig.
  { split; [split; [by intros (? & ? & ?) | intros ((_ & _ & ?) & _); lia] |].
    split; [intros (_ & _ & ?); lia | intros _; eauto 10]. }
  case_bool_decide as Hzero.
  { split; [split; [by intros (? & ? & ?) | intros ((_ & _ & ?) & _); lia] |].
    split; [intros (_ & _ & ?); lia | intros _; eauto 10]. }
  assert (0 < Z.of_nat (length content) ≤ MAX_FILE_SIZE settings) by lia.
  destruct (write_fault E) as [e|]; simpl.
  { split; [split; [by intros (? & ? & ?) | by intros (_ & ? & _)] |].
    split; [intros _; right; eauto | intros Hno; exfalso; by apply Hno]. }
  destruct (insert_fault E) as [e|]; simpl.
  { split; [split; [by intros (? & ? & ?) | by intros (_ & _ & ? & _)] |].
    split; [intros _; right; eauto | intros Hno; exfalso; by apply Hno]. }
  destruct (reports w !! uuid4 E) as [row|]; simpl.
  { split; [split; [by intros (? & ? & ?) | by intros (_ & _ & _ & ?)] |].
    split; [intros _; right; eauto | intros Hno; exfalso; by apply Hno]. }
  split; [split; [done | intros _; eauto] |].
  split; [intros _; left; eauto | intros Hno; exfalso; by apply Hno].
Qed.

(** X6. An upload that is refused or fails adds no record and schedules no
    task; it leaves every file but the one at its own path as it was, and
    after a 500 there is no file at that path: what was written is removed. *)
Theorem upload_report_failure_leaves_nothing (suffix_lower : string → string)
  (megabytes : Z → string)
  (in_dir : string → string → string)
  (settings : Settings) (E : upload_env) (w w' : state)
  (file_name : option string) (content : list Byte.byte) (code : Z)
  (detail : string) :
  upload_report suffix_lower megabytes in_dir settings E w file_name content
  = (w', HTTPException code detail) →
  reports w' = reports w
  ∧ background_tasks w' = background_tasks w
  ∧ (∀ path, path ≠ upload_path in_dir settings E file_name →
       fs w' !! path = fs w !! path)
  ∧ (code = 500 → fs w' !! upload_path in_dir settings E file_name = None)
  ∧ (code = 400 ∨ code = 413 → w' = w).
Proof.
  unfold upload_report, create_report_record, upload_path.
  intros Hrun.
  repeat (case_match; simplify_eq/=);
    repeat split; try done; try (intros [? | ?]; done);
    try (intros path Hpath);
    try (intros _);
    rewrite ?lookup_delete_eq, ?lookup_delete_ne, ?lookup_insert_ne by done;
    done.
Qed.

Lemma upload_report_failure_leaves_nothing_witness :
  reports
    (upload_report sample_suffix_lower sample_megabytes sample_in_dir small insert_fails
       initial (Some "sales.rpt") four_bytes).1 = ∅
  ∧ fs (upload_report sample_suffix_lower sample_megabytes sample_in_dir small insert_fails
          initial (Some "sales.rpt") four_bytes).1
    !! "uploads/id-1_sales.rpt" = None.
Proof.
  destruct (upload_report_failure_leaves_nothing sample_suffix_lower
              sample_megabytes sample_in_dir small insert_fails initial
              (upload_report sample_suffix_lower sample_megabytes sample_in_dir small
                 insert_fails initial (Some "sales.rpt") four_bytes).1
              (Some "sales.rpt") four_bytes 500 "Upload failed: disk I/O error")
    as (Hreports & _ & _ & Hgone & _).
  - by vm_compute.
  - split; [exact Hreports | by apply Hgone].
Defined.

(** X7. An upload answered 200 adds exactly one record, one file and one
    task, all three for the same path: the record is in status 'uploading'
    with no metadata and the size of the content, the file holds the
    content, the task is last in line; nothing else changes. *)
Theorem upload_report_success_adds_one (suffix_lower : string → string)
  (megabytes : Z → string)
  (in_dir : string → string → string)
  (settings : Settings) (E : upload_env) (w w' : state)
  (file_name : option string) (content : list Byte.byte)
  (response : UploadResponse) :
  upload_report suffix_lower megabytes in_dir settings E w file_name content
  = (w', Ok response) →
  reports w !! uuid4 E = None
  ∧ reports w'
    = <[ uuid4 E :=
           {| filename := default "" file_name;
              file_path := upload_path in_dir settings E file_name;
              file_size := Z.of_nat (length content);
              status := UPLOADING; error_message := None;
              metadata_json := None |} ]> (reports w)
  ∧ fs w' = <[ upload_path in_dir settings E file_name := content ]> (fs w)
  ∧ background_tasks w'
    = background_tasks w
      ++ [{| t_file_path := upload_path in_dir settings E file_name;
             t_report_id := uuid4 E; t_filename := default "" file_name |}]
  ∧ u_report_id response = uuid4 E
  ∧ u_file_size response = Z.of_nat (length content).
Proof.
  unfold upload_report, create_report_record, upload_path.
  intros Hrun. repeat (case_match; simplify_eq/=). done.
Qed.

Lemma upload_report_success_adds_one_witness :
  reports after_upload = {[ "id-1" := row_of UPLOADING None ]}
  ∧ fs after_upload = {[ "uploads/id-1_sales.rpt" := one_byte ]}
  ∧ background_tasks after_upload
    = [{| t_file_path := "uploads/id-1_sales.rpt"; t_report_id := "id-1";
          t_filename := "sales.rpt" |}].
Proof.
  destruct (upload_report_success_adds_one sample_suffix_lower sample_megabytes
              sample_in_dir small first_upload initial after_upload (Some "sales.rpt") one_byte
              {| u_report_id := "id-1"; u_filename := "sales.rpt";
                 u_file_size := 1; u_status := PARSING;
                 u_message :=
                   "File uploaded successfully. Processing in background." |})
    as (_ & Hreports & Hfs & Htasks & _).
  - by vm_compute.
  - split; [exact Hreports |]. split; [exact Hfs | exact Htasks].
Defined.

End UploadMoreFacts.

(** ** The background task, run by run *)
Module TaskFacts.
Import Py Model Storage Upload Endpoints Requests Samples MoreSamples.

Ltac run_task :=
  unfold process_report_background, try_except, parse, write, stat_size,
    store_metadata, update_report_status, mbind, M_bind, bind, mret, M_ret, ret,
    raise, set_reports in *.

(** X8. The task of a report in status 'uploading' ends with the report
    'ready' when nothing raised before the status was written and the file
    is there (or the handler's own write fails), 'error' when something
    raised and the handler could write, and still 'uploading' when the
    parser or a write raised and the handler's write raised as well. It
    touches neither the files nor the scheduled tasks. *)
Theorem task_final_status (E : task_env) (path report_id name : string)
  (w : state) (row : report_row) :
  reports w !! report_id = Some row →
  status row = UPLOADING →
  ∃ row',
    reports (process_report_background E path report_id name w).1.2 !! report_id
    = Some row'
    ∧ (status row' = READY
       ↔ ¬ fails_before_ready E
         ∧ (is_Some (fs w !! path) ∨ is_Some (error_fault E)))
    ∧ (status row' = ERROR
       ↔ error_fault E = None
         ∧ (fails_before_ready E ∨ fs w !! path = None))
    ∧ (status row' = UPLOADING
       ↔ is_Some (error_fault E) ∧ fails_before_ready E)
    ∧ fs (process_report_background E path report_id name w).1.2 = fs w
    ∧ background_tasks (process_report_background E path report_id name w).1.2
      = background_tasks w.
Proof.
  intros Hrow Hst. unfold fails_before_ready. run_task.
  destruct E as [[e | metadata] [sf |] [rf |] [ef |] se]; simpl;
    try destruct (fs w !! path) as [content |]; simpl;
    rewrite ?lookup_alter_eq, ?Hrow; simpl;
    (eexists; split; [reflexivity |]); simpl; rewrite ?Hst;
    unfold is_Some; repeat split; try done;
    try (firstorder (eauto; congruence)).
Qed.

Lemma task_final_status_witness :
  ∃ row',
    reports (process_report_background parse_ok "uploads/id-1_sales.rpt" "id-1"
               "sales.rpt" after_upload).1.2 !! "id-1" = Some row'
    ∧ status row' = READY.
Proof.
  destruct (task_final_status parse_ok "uploads/id-1_sales.rpt" "id-1"
              "sales.rpt" after_upload (row_of UPLOADING None))
    as (row' & Hrow & Hready & _); [by vm_compute | done |].
  exists row'. split; [exact Hrow |]. apply Hready. split.
  - intros [[e He] | [[x Hx] | [x Hx]]]; discriminate.
  - left. eexists. by vm_compute.
Defined.

(** X9. Every state the task commits differs from the one it started in by
    the row of its own report at most: the files, the scheduled tasks and
    every other row are as they were, and the row keeps its file name, path
    and size. When the report has no row (it was deleted in between), the
    table is left as it was: every write of the task is an update, none
    inserts. The task ends in the last state it committed. *)
Theorem task_touches_only_its_report (E : task_env)
  (path report_id name : string) (w w' : state) :
  w' ∈ (process_report_background E path report_id name w).1.1 →
  fs w' = fs w
  ∧ background_tasks w' = background_tasks w
  ∧ (∀ id, id ≠ report_id → reports w' !! id = reports w !! id)
  ∧ (filename <$> reports w' !! report_id) = (filename <$> reports w !! report_id)
  ∧ (file_path <$> reports w' !! report_id)
    = (file_path <$> reports w !! report_id)
  ∧ (file_size <$> reports w' !! report_id)
    = (file_size <$> reports w !! report_id)
  ∧ (reports w !! report_id = None → reports w' = reports w)
  ∧ (process_report_background E path report_id name w).1.2
    = default w (last (process_report_background E path report_id name w).1.1).
Proof.
  intros Hin. run_task.
  assert (∀ f : report_row → report_row,
            reports w !! report_id = None →
            alter f report_id (reports w) = reports w) as Hnone.
  { intros f Hfree. apply map_eq. intros id.
    destruct (decide (id = report_id)) as [-> | Hne];
      [by rewrite lookup_alter_eq, Hfree | by rewrite lookup_alter_ne]. }
  destruct E as [[e | metadata] [sf |] [rf |] [ef |] se]; simpl in *;
    try destruct (fs w !! path) as [content |]; simpl in *;
    repeat (apply elem_of_cons in Hin as [-> | Hin];
            [simpl;
             repeat split; try done;
             try (intros id Hne; by rewrite ?lookup_alter_ne by done);
             try (rewrite ?lookup_alter_eq;
                  by destruct (reports w !! report_id));
             try (intros Hfree; by rewrite ?Hnone by (by rewrite ?Hnone)) |]);
    by apply elem_of_nil in Hin.
Qed.

Lemma task_touches_only_its_report_witness :
  fs after_ready = fs after_upload
  ∧ (file_path <$> reports after_ready !! "id-1")
    = Some "uploads/id-1_sales.rpt".
Proof.
  destruct (task_touches_only_its_report parse_ok "uploads/id-1_sales.rpt"
              "id-1" "sales.rpt"
              {| fs := fs after_upload; reports := reports after_upload;
                 background_tasks := [] |} after_ready)
    as (Hfs & _ & _ & _ & Hpath & _).
  - apply (list_elem_of_lookup_2 _ 1%nat). by vm_compute.
  - split; [exact Hfs | exact Hpath].
Defined.

End TaskFacts.

(** ** Storage and deletion *)
Module StorageFacts.
Import Py Model Storage EditService Upload Endpoints Requests Samples MoreSamples.
Import EditServiceFacts.

Lemma ReportField_validate_twice (field : ReportField) :
  ReportField_validate (ReportField_validate field) = ReportField_validate field.
Proof.
  unfold ReportField_validate, set_display_name. simpl.
  destruct (truthy_str (f_display_name field)) eqn:Hshown; simpl.
  - by rewrite Hshown.
  - by destruct (negb (bool_decide (f_name field = ""))).
Qed.

Lemma ReportMetadata_rebuild_twice (metadata : ReportMetadata) :
  ReportMetadata_rebuild (ReportMetadata_rebuild metadata)
  = ReportMetadata_rebuild metadata.
Proof.
  assert (∀ fields : list ReportField,
            map ReportField_validate (map ReportField_validate fields)
            = map ReportField_validate fields) as Hfields.
  { intros fields. rewrite map_map. apply map_ext. intros field.
    apply ReportField_validate_twice. }
  unfold ReportMetadata_rebuild. simpl. rewrite !Hfields. f_equal.
  rewrite map_map. apply map_ext. intros section.
  unfold ReportSection_validate. simpl. by rewrite Hfields.
Qed.

(** X10. What [get_metadata] returns after [store_metadata] is not the
    object that was stored but the one rebuilt from its JSON text: every
    field has gone through its validator, so that a field found under an id
    comes back with its display name set (to its name, if it had none).
    Storing what was read and reading again changes nothing more. When the
    read raises, [None] is returned. For an id without a row the write
    succeeds and changes nothing, so there is still nothing to read. The
    other rows and every status are as before, and no later
    [update_report_status] changes what [get_metadata] returns. *)
Theorem store_then_get_metadata (fault : option string)
  (t t' : gmap string report_row) (report_id : string)
  (metadata : ReportMetadata) :
  store_metadata fault t report_id metadata = inr t' →
  (is_Some (t !! report_id) →
   get_metadata false t' report_id = Some (ReportMetadata_rebuild metadata))
  ∧ (∀ field_id,
       _find_field_by_id (ReportMetadata_rebuild metadata) field_id
       = (λ field,
            {| f_id := f_id field; f_name := f_name field;
               f_display_name :=
                 if truthy_str (f_display_name field)
                 then f_display_name field else Some (f_name field);
               f_field_type := f_field_type field; f_section := f_section field;
               f_x := f_x field; f_y := f_y field; f_width := f_width field;
               f_height := f_height field; f_visible := f_visible field;
               f_formula := f_formula field; f_format := f_format field;
               f_database_field := f_database_field field |})
           <$> _find_field_by_id metadata field_id)
  ∧ (∀ t2,
       store_metadata None t' report_id (ReportMetadata_rebuild metadata)
       = inr t2 →
       get_metadata false t2 report_id = get_metadata false t' report_id)
  ∧ get_metadata true t' report_id = None
  ∧ (t !! report_id = None → t' = t ∧ get_metadata false t' report_id = None)
  ∧ (∀ id, id ≠ report_id → t' !! id = t !! id)
  ∧ (∀ id, (status <$> t' !! id) = (status <$> t !! id))
  ∧ (∀ fault' t'' id s e,
       update_report_status fault' t' id s e = inr t'' →
       ∀ read_fault id',
         get_metadata read_fault t'' id' = get_metadata read_fault t' id').
Proof.
  unfold store_metadata, update_report_status, get_metadata.
  destruct fault as [e |]; [done |]. intros [= <-].
  split_and!.
  - intros [row Hrow]. by rewrite lookup_alter_eq, Hrow.
  - intros field_id. by rewrite _find_field_by_id_rebuild.
  - intros t2 [= <-]. rewrite !lookup_alter_eq.
    destruct (t !! report_id); [| done]. simpl.
    by rewrite ReportMetadata_rebuild_twice.
  - done.
  - intros Hfree. split; [| by rewrite lookup_alter_eq, Hfree].
    apply map_eq. intros id.
    destruct (decide (id = report_id)) as [-> | Hne];
      [by rewrite lookup_alter_eq, Hfree | by rewrite lookup_alter_ne].
  - intros id Hne. by rewrite lookup_alter_ne.
  - intros id. destruct (decide (id = report_id)) as [-> | Hne];
      [| by rewrite lookup_alter_ne].
    rewrite lookup_alter_eq. by destruct (t !! report_id).
  - intros [e |] t'' id s e'; [done |]. intros [= <-] [|] id'; [done |].
    destruct (decide (id' = id)) as [-> | Hne];
      [| by rewrite lookup_alter_ne].
    rewrite lookup_alter_eq.
    by destruct (alter (with_metadata metadata) report_id t !! id).
Qed.

(** The field Qty, stored without a display name, is read back with the
    display name Qty. *)
Lemma store_then_get_metadata_witness :
  get_metadata false (alter (with_metadata stock) "id-1" (reports after_upload))
    "id-1"
  = Some (ReportMetadata_rebuild stock)
  ∧ (f_display_name <$> _find_field_by_id (ReportMetadata_rebuild stock) "f9")
    = Some (Some "Qty").
Proof.
  destruct (store_then_get_metadata None (reports after_upload) _ "id-1" stock
              eq_refl) as (Hread & Hfield & _).
  split.
  - apply Hread. eexists. by vm_compute.
  - by rewrite Hfield.
Defined.

(** X11. The DELETE endpoint answers 200 exactly when the statements run,
    the report has a row, and its file is absent or can be removed;
    otherwise 404, 'Report not found'. After a 200 the row and the file are
    gone. The 404 does not tell that nothing happened: when the removal of
    the file raises, the row is already deleted and stays so. Other rows,
    other files and the scheduled tasks, that of the deleted report among
    them, are never touched. *)
Theorem delete_endpoint_answers (db_fault unlink_fault : option string)
  (w : state) (report_id : string) :
  ((delete_endpoint db_fault unlink_fault w report_id).2
   = Ok "Report deleted successfully"
   ↔ db_fault = None
     ∧ ∃ row, reports w !! report_id = Some row
              ∧ (fs w !! file_path row = None ∨ unlink_fault = None))
  ∧ ((delete_endpoint db_fault unlink_fault w report_id).2
     = Ok "Report deleted successfully"
     ∨ (delete_endpoint db_fault unlink_fault w report_id).2
       = HTTPException 404 "Report not found")
  ∧ (∀ row,
       (delete_endpoint db_fault unlink_fault w report_id).2
       = Ok "Report deleted successfully" →
       reports w !! report_id = Some row →
       reports (delete_endpoint db_fault unlink_fault w report_id).1 !! report_id
       = None
       ∧ fs (delete_endpoint db_fault unlink_fault w report_id).1 !! file_path row
         = None)
  ∧ (∀ row content,
       db_fault = None → is_Some unlink_fault →
       reports w !! report_id = Some row →
       fs w !! file_path row = Some content →
       delete_endpoint db_fault unlink_fault w report_id
       = (set_reports (delete report_id (reports w)) w,
          HTTPException 404 "Report not found"))
  ∧ (∀ id, id ≠ report_id →
       reports (delete_endpoint db_fault unlink_fault w report_id).1 !! id
       = reports w !! id)
  ∧ (∀ path,
       (file_path <$> reports w !! report_id) ≠ Some path →
       fs (delete_endpoint db_fault unlink_fault w report_id).1 !! path
       = fs w !! path)
  ∧ background_tasks (delete_endpoint db_fault unlink_fault w report_id).1
    = background_tasks w.
Proof.
  unfold delete_endpoint, delete_report.
  destruct db_fault as [e |].
  { simpl. repeat split; try done; try (by right); try (by intros [? _]). }
  destruct (reports w !! report_id) as [row |] eqn:Hrow; simpl.
  2:{ rewrite Hrow. repeat split; try done; try (by right).
      by intros (_ & ? & ? & _). }
  destruct (fs w !! file_path row) as [content |] eqn:Hfile;
    destruct unlink_fault as [u |]; simpl; split_and!;
    first
      [ done | by left | by right
      | by (intros id Hne; rewrite lookup_delete_ne)
      | by (intros path Hne; rewrite lookup_delete_ne; [| congruence])
      | by (intros row' _ [= <-]; rewrite ?lookup_delete_eq)
      | by intros row' content' _ [? ?]
      | by (intros row' content' _ _ [= <-] ?; congruence)
      | by (split; [| done]; intros _; split; [done |]; exists row; auto)
      | split; [done |];
        intros (_ & row' & [= <-] & [Hf | Hu]); congruence ].
Qed.

End StorageFacts.

(** ** Looking a field up *)
Module LookupFacts.
Import Py Model EditService.

Lemma find_in_fields_Some (fields : list ReportField) (field_id : string)
  (field : ReportField) :
  find_in_fields fields field_id = Some field →
  field ∈ fields ∧ f_id field = field_id.
Proof.
  induction fields as [| f fields IH]; [done |]. simpl.
  case_bool_decide as Hid.
  - intros [= <-]. split; [by left | done].
  - intros Hfind. destruct (IH Hfind). split; [by right | done].
Qed.

Lemma find_in_fields_None (fields : list ReportField) (field_id : string) :
  find_in_fields fields field_id = None
  ↔ ∀ field, field ∈ fields → f_id field ≠ field_id.
Proof.
  induction fields as [| f fields IH]; simpl.
  - split; [| done]. intros _ field Hin. by apply elem_of_nil in Hin.
  - case_bool_decide as Hid.
    + split; [done |]. intros Hall. destruct (Hall f); [by left | done].
    + rewrite IH. split.
      * intros Hall field [-> | Hin]%elem_of_cons; [done | by apply Hall].
      * intros Hall field Hin. apply Hall. by right.
Qed.

Lemma find_in_sections_Some (sections : list ReportSection)
  (field_id : string) (field : ReportField) :
  find_in_sections sections field_id = Some field →
  f_id field = field_id
  ∧ ∃ section, section ∈ sections ∧ field ∈ s_fields section.
Proof.
  induction sections as [| s sections IH]; [done |]. simpl.
  destruct (find_in_fields (s_fields s) field_id) as [f |] eqn:Hfind.
  - intros [= <-]. apply find_in_fields_Some in Hfind as [Hin Hid].
    split; [done |]. exists s. split; [by left | done].
  - intros Hrest. destruct (IH Hrest) as (Hid & section & Hs & Hf).
    split; [done |]. exists section. split; [by right | done].
Qed.

(** What [_find_field_by_id] returns has the id asked for. *)
Lemma _find_field_by_id_Some (metadata : ReportMetadata) (field_id : string)
  (field : ReportField) :
  _find_field_by_id metadata field_id = Some field → f_id field = field_id.
Proof.
  unfold _find_field_by_id.
  destruct (find_in_sections (m_sections metadata) field_id) as [f |] eqn:Hs.
  - intros [= <-]. by apply find_in_sections_Some in Hs as [? _].
  - destruct (find_in_fields (m_parameters metadata) field_id) as [p |] eqn:Hp.
    + intros [= <-]. by apply find_in_fields_Some in Hp as [_ ?].
    + intros Hf. by apply find_in_fields_Some in Hf as [_ ?].
Qed.

End LookupFacts.

(** ** The read endpoints *)
Module EndpointsFacts.
Import Py Model Storage EditService Upload Endpoints Requests Samples MoreSamples.
Import UploadFacts LookupFacts.

(** Every row of a reachable state is [row_ok]. *)
Lemma reachable_rows_ok (suffix_lower : string → string)
  (megabytes : Z → string)
  (in_dir : string → string → string) (settings : Settings) (w : state) :
  reachable suffix_lower megabytes in_dir settings w →
  ∀ id row, reports w !! id = Some row → row_ok row.
Proof.
  revert w.
  apply (reachable_invariant (λ t, ∀ id row, t !! id = Some row → row_ok row)).
  - intros id row Hl. by rewrite lookup_empty in Hl.
  - intros t id row Ht Hfree Hst _ id' row' Hl.
    apply lookup_insert_Some in Hl as [[_ <-] | [_ Hl]]; [| by eapply Ht].
    unfold row_ok. by rewrite Hst.
  - intros t id Ht id' row' Hl.
    apply lookup_delete_Some in Hl as [_ Hl]. by eapply Ht.
  - intros t id metadata Ht id' row' Hl.
    apply lookup_alter_Some in Hl as [(_ & r & Hr & ->) | [_ Hl]];
      [| by eapply Ht].
    specialize (Ht _ _ Hr). unfold row_ok in *. simpl.
    destruct (status r); try done. split; [by eexists | by destruct Ht].
  - intros t id e Ht id' row' Hl.
    apply lookup_alter_Some in Hl as [(_ & r & Hr & ->) | [_ Hl]];
      [| by eapply Ht].
    unfold row_ok. simpl. by eexists.
  - intros t id metadata Ht id' row' Hl.
    apply lookup_alter_Some in Hl as [(<- & r & Hr & ->) | [Hne Hl]].
    + rewrite lookup_alter_eq in Hr.
      destruct (t !! id) as [r0 |]; simplify_eq/=.
      unfold row_ok. simpl. split; [by eexists | done].
    + rewrite lookup_alter_ne in Hl by done. by eapply Ht.
Qed.

(** X12. In a state the server can reach, [get_report_metadata] never
    answers 202, 'still being processed': no row is ever in status
    'parsing'. It returns the metadata whenever some is stored, whatever the
    status, as rebuilt from the stored text; else 404 'Report not found'
    without a row, 422 with the stored
    message for a failed report, and 404 'Report metadata not available'
    for a report still in status 'uploading'. *)
Theorem get_report_metadata_answers (suffix_lower : string → string)
  (megabytes : Z → string)
  (in_dir : string → string → string)
  (settings : Settings) (w : state) (E : read_env)
  (report_id : string) :
  reachable suffix_lower megabytes in_dir settings w →
  (∀ detail,
     get_report_metadata E (reports w) report_id ≠ HTTPException 202 detail)
  ∧ (metadata_fault E = false →
     ∀ row metadata,
       reports w !! report_id = Some row →
       metadata_json row = Some (model_dump_json metadata) →
       get_report_metadata E (reports w) report_id
       = Ok (ReportMetadata_rebuild metadata))
  ∧ (status_fault E = false →
     ∀ row,
       reports w !! report_id = Some row → metadata_json row = None →
       match status row with
       | ERROR =>
           ∃ e, error_message row = Some e
                ∧ get_report_metadata E (reports w) report_id
                  = HTTPException 422 ("Report processing failed: " +:+ e)
       | _ =>
           status row = UPLOADING
           ∧ get_report_metadata E (reports w) report_id
             = HTTPException 404 "Report metadata not available"
       end)
  ∧ (reports w !! report_id = None →
     get_report_metadata E (reports w) report_id
     = HTTPException 404 "Report not found").
Proof.
  intros Hreach.
  pose proof (reachable_rows_ok _ _ _ _ _ Hreach report_id) as Hok.
  unfold get_report_metadata, get_metadata, get_report_status, get_metadata.
  destruct (reports w !! report_id) as [row |] eqn:Hrow.
  2:{ split_and!; try done; by repeat case_match. }
  specialize (Hok row eq_refl). unfold row_ok in Hok.
  split_and!.
  - intros detail.
    destruct (metadata_fault E), (status_fault E), (metadata_json row);
      try done;
      (case_bool_decide as Hp; [by rewrite Hp in Hok |]);
      by case_bool_decide.
  - intros -> row' metadata [= <-] ->. done.
  - intros -> row' [= <-] Hnone. rewrite Hnone.
    destruct (status row) eqn:Hst; try done.
    + split; [done |]. by destruct (metadata_fault E).
    + destruct Hok as [[m Hm] _]. congruence.
    + destruct Hok as [e He]. exists e. split; [done |].
      rewrite He. by destruct (metadata_fault E).
  - done.
Qed.

Lemma get_report_metadata_answers_witness :
  get_report_metadata no_faults (reports after_upload) "id-1"
  = HTTPException 404 "Report metadata not available"
  ∧ get_report_metadata no_faults (reports after_ready) "id-1" = Ok parsed.
Proof.
  split.
  - destruct (get_report_metadata_answers sample_suffix_lower sample_megabytes
                sample_in_dir small after_upload no_faults "id-1" after_upload_reachable)
      as (_ & _ & Hnone & _).
    exact (proj2 (Hnone eq_refl (row_of UPLOADING None) eq_refl eq_refl)).
  - destruct (get_report_metadata_answers sample_suffix_lower sample_megabytes
                sample_in_dir small after_ready no_faults "id-1" after_ready_reachable)
      as (_ & Hsome & _).
    exact (Hsome eq_refl (row_of READY (Some parsed)) parsed eq_refl eq_refl).
Defined.

(** *** The field list *)

Lemma filter_fields_elem (section_type field_type : option string)
  (fields : list field_data) (f : field_data) :
  f ∈ filter_fields section_type field_type fields
  ↔ f ∈ fields
    ∧ (truthy_str section_type = true →
       fd_section_type f = default "" section_type)
    ∧ (truthy_str field_type = true →
       FieldType_value (f_field_type (fd_field f)) = default "" field_type).
Proof.
  unfold filter_fields.
  destruct (truthy_str section_type), (truthy_str field_type);
    rewrite ?list_elem_of_filter; intuition congruence.
Qed.

Lemma filter_fields_sublist (section_type field_type : option string)
  (fields : list field_data) :
  sublist (filter_fields section_type field_type fields) fields.
Proof.
  unfold filter_fields.
  destruct (truthy_str section_type), (truthy_str field_type);
    try done; try apply sublist_filter.
  etrans; apply sublist_filter.
Qed.

(** X13. [get_report_fields] answers 404 exactly when no metadata can be
    read. Otherwise [total_fields] is the length of the list returned, the
    list is the full field list with the entries failing a filter left out
    and the order kept, and a filter given as the empty string filters
    nothing. *)
Theorem get_report_fields_filters (E : read_env)
  (table : gmap string report_row) (report_id : string)
  (section_type field_type : option string) :
  (get_metadata (metadata_fault E) table report_id = None
   ↔ get_report_fields E table report_id section_type field_type
     = HTTPException 404 "Report not found or not processed")
  ∧ (∀ metadata,
       get_metadata (metadata_fault E) table report_id = Some metadata →
       ∃ fields,
         get_report_fields E table report_id section_type field_type
         = Ok (length fields, fields)
         ∧ sublist fields (all_fields metadata)
         ∧ (∀ f, f ∈ fields
                 ↔ f ∈ all_fields metadata
                   ∧ (truthy_str section_type = true →
                      fd_section_type f = default "" section_type)
                   ∧ (truthy_str field_type = true →
                      FieldType_value (f_field_type (fd_field f))
                      = default "" field_type)))
  ∧ get_report_fields E table report_id (Some "") field_type
    = get_report_fields E table report_id None field_type
  ∧ get_report_fields E table report_id section_type (Some "")
    = get_report_fields E table report_id section_type None.
Proof.
  unfold get_report_fields.
  destruct (get_metadata (metadata_fault E) table report_id) as [metadata |].
  - split_and!; try done.
    intros ? [= <-]. eexists. split; [done |].
    split; [apply filter_fields_sublist | apply filter_fields_elem].
  - split_and!; done.
Qed.

Lemma filter_section_fields (v : string) (section : ReportSection) :
  filter (λ f, fd_section_type f = v) (section_fields section)
  = if bool_decide (SectionType_value (s_section_type section) = v)
    then section_fields section else [].
Proof.
  unfold section_fields.
  induction (s_fields section) as [| field fields IH]; simpl.
  - by case_bool_decide.
  - rewrite filter_cons. simpl. rewrite IH. by repeat case_decide; case_bool_decide.
Qed.

Lemma filter_sections (v : string) (sections : list ReportSection) :
  filter (λ f, fd_section_type f = v) (concat (map section_fields sections))
  = concat (map section_fields
              (filter (λ s, SectionType_value (s_section_type s) = v) sections)).
Proof.
  induction sections as [| section sections IH]; [done |].
  simpl. rewrite filter_app, IH, filter_section_fields, filter_cons.
  case_bool_decide; case_decide; done.
Qed.

Lemma filter_constant (v tag name : string) (fields : list ReportField) :
  filter (λ f, fd_section_type f = v)
    (map (λ field, {| fd_field := field; fd_section_name := name;
                      fd_section_type := tag |}) fields)
  = if bool_decide (tag = v)
    then map (λ field, {| fd_field := field; fd_section_name := name;
                          fd_section_type := tag |}) fields
    else [].
Proof.
  induction fields as [| field fields IH]; simpl.
  - by case_bool_decide.
  - rewrite filter_cons. simpl. rewrite IH. by case_decide; case_bool_decide.
Qed.

(** X14. The section filter of the field list, alone: the value of a section
    type selects the fields of the sections of that type; 'parameter'
    selects exactly the parameters and 'formula' exactly the formulas, no
    section type having either value; any other text selects nothing. *)
Theorem fields_of_section_type (metadata : ReportMetadata) (v : string) :
  v ≠ "" →
  filter_fields (Some v) None (all_fields metadata)
  = concat (map section_fields
              (filter (λ s, SectionType_value (s_section_type s) = v)
                 (m_sections metadata)))
    ++ (if bool_decide (v = "parameter")
        then map (λ param, {| fd_field := param; fd_section_name := "Parameters";
                              fd_section_type := "parameter" |})
               (m_parameters metadata)
        else [])
    ++ (if bool_decide (v = "formula")
        then map (λ formula, {| fd_field := formula; fd_section_name := "Formulas";
                                fd_section_type := "formula" |})
               (m_formulas metadata)
        else [])
  ∧ (v = "parameter" ∨ v = "formula" →
     filter (λ s, SectionType_value (s_section_type s) = v) (m_sections metadata)
     = [])
  ∧ ((∀ t, SectionType_value t ≠ v) → v ≠ "parameter" → v ≠ "formula" →
     filter_fields (Some v) None (all_fields metadata) = []).
Proof.
  intros Hv.
  assert (filter_fields (Some v) None (all_fields metadata)
          = concat (map section_fields
                      (filter (λ s, SectionType_value (s_section_type s) = v)
                         (m_sections metadata)))
            ++ (if bool_decide (v = "parameter")
                then map (λ param, {| fd_field := param;
                                      fd_section_name := "Parameters";
                                      fd_section_type := "parameter" |})
                       (m_parameters metadata)
                else [])
            ++ (if bool_decide (v = "formula")
                then map (λ formula, {| fd_field := formula;
                                        fd_section_name := "Formulas";
                                        fd_section_type := "formula" |})
                       (m_formulas metadata)
                else [])) as Heq.
  { unfold filter_fields, all_fields. simpl.
    rewrite bool_decide_eq_false_2 by done. simpl.
    rewrite !filter_app, filter_sections, !filter_constant.
    by repeat case_bool_decide. }
  assert (∀ sections : list ReportSection,
            (∀ t, SectionType_value t ≠ v) →
            filter (λ s, SectionType_value (s_section_type s) = v) sections = [])
    as Hnone.
  { clear Heq. intros sections Hne.
    induction sections as [| s sections IH]; [done |].
    rewrite filter_cons, IH. case_decide as Hd; [by destruct (Hne _ Hd) | done]. }
  split; [exact Heq |]. split.
  - intros [-> | ->]; apply Hnone; by intros [].
  - intros Hne Hp Hf. rewrite Heq, Hnone by done.
    by rewrite !bool_decide_eq_false_2 by done.
Qed.

Lemma fields_of_section_type_witness :
  filter_fields (Some "parameter") None (all_fields busy)
  = [{| fd_field := start_date; fd_section_name := "Parameters";
        fd_section_type := "parameter" |}].
Proof.
  destruct (fields_of_section_type busy "parameter") as (Heq & Hnone & _);
    [done |].
  rewrite Heq, Hnone by (by left). reflexivity.
Defined.

(** *** The lookup of [explain_field] *)

Lemma target_in_sections_find (sections : list ReportSection)
  (field_id : string) :
  (fst <$> target_in_sections sections field_id)
  = find_in_sections sections field_id.
Proof.
  induction sections as [| s sections IH]; [done |]. simpl.
  by destruct (find_in_fields (s_fields s) field_id).
Qed.

Lemma target_in_sections_Some (sections : list ReportSection)
  (field_id : string) (field : ReportField) (section : ReportSection) :
  target_in_sections sections field_id = Some (field, section) →
  section ∈ sections ∧ field ∈ s_fields section ∧ f_id field = field_id
  ∧ _find_section_for_field_in sections field_id = s_name section.
Proof.
  induction sections as [| s sections IH]; [done |]. simpl.
  destruct (find_in_fields (s_fields s) field_id) as [f |] eqn:Hfind.
  - intros [= <- <-]. apply find_in_fields_Some in Hfind as [Hin Hid].
    split; [by left | done].
  - intros Hrest. destruct (IH Hrest) as (Hs & Hf & Hid & Hname).
    split; [by right | done].
Qed.

Lemma target_in_sections_None (sections : list ReportSection)
  (field_id : string) :
  target_in_sections sections field_id = None
  ↔ ∀ section field,
      section ∈ sections → field ∈ s_fields section → f_id field ≠ field_id.
Proof.
  induction sections as [| s sections IH]; simpl.
  - split; [| done]. intros _ section field Hin. by apply elem_of_nil in Hin.
  - destruct (find_in_fields (s_fields s) field_id) as [f |] eqn:Hfind.
    + split; [done |]. intros Hall.
      apply find_in_fields_Some in Hfind as [Hin Hid].
      destruct (Hall s f); [by left | done | done].
    + rewrite IH. pose proof (proj1 (find_in_fields_None _ _) Hfind) as Hs.
      split.
      * intros Hall section field [-> | Hin]%elem_of_cons;
          [apply Hs | by apply Hall].
      * intros Hall section field Hin. apply Hall. by right.
Qed.

Lemma _find_section_for_field_in_Other (sections : list ReportSection)
  (field_id : string) :
  target_in_sections sections field_id = None →
  _find_section_for_field_in sections field_id = "Other".
Proof.
  induction sections as [| s sections IH]; [done |]. simpl.
  by destruct (find_in_fields (s_fields s) field_id).
Qed.

Lemma elem_of_concat {A : Type} (x : A) (ls : list (list A)) :
  x ∈ concat ls ↔ ∃ l, x ∈ l ∧ l ∈ ls.
Proof.
  induction ls as [| l ls IH]; simpl.
  - split; [by intros Hin%elem_of_nil |].
    by intros (l & _ & Hin%elem_of_nil).
  - rewrite elem_of_app, IH. split.
    + intros [Hin | (l' & Hin & Hl)];
        [exists l; split; [done | by left] | exists l'; split; [done | by right]].
    + intros (l' & Hin & [-> | Hl]%elem_of_cons); [by left |].
      right. by exists l'.
Qed.

Lemma elem_of_all_fields (metadata : ReportMetadata) (field : ReportField) :
  (∃ entry, entry ∈ all_fields metadata ∧ fd_field entry = field)
  ↔ (∃ section, section ∈ m_sections metadata ∧ field ∈ s_fields section)
    ∨ field ∈ m_parameters metadata ∨ field ∈ m_formulas metadata.
Proof.
  unfold all_fields. split.
  - intros (entry & Hin & <-).
    apply elem_of_app in Hin as [Hin | Hin];
      [| apply elem_of_app in Hin as [Hin | Hin]].
    + left. apply elem_of_concat in Hin as (l & Hin & Hl).
      apply list_elem_of_fmap in Hl as (section & -> & Hs).
      apply list_elem_of_fmap in Hin as (f & -> & Hf). by exists section.
    + right. left. by apply list_elem_of_fmap in Hin as (f & -> & Hf).
    + right. right. by apply list_elem_of_fmap in Hin as (f & -> & Hf).
  - intros [(section & Hs & Hf) | [Hp | Hf]].
    + eexists {| fd_field := field |}. split; [| done].
      apply elem_of_app. left. apply elem_of_concat.
      exists (section_fields section). split.
      * apply list_elem_of_fmap. by exists field.
      * apply list_elem_of_fmap. by exists section.
    + eexists {| fd_field := field |}. split; [| done].
      apply elem_of_app. right. apply elem_of_app. left.
      apply list_elem_of_fmap. by exists field.
    + eexists {| fd_field := field |}. split; [| done].
      apply elem_of_app. right. apply elem_of_app. right.
      apply list_elem_of_fmap. by exists field.
Qed.

(** X15. The lookup of [explain_field] finds the field [_find_field_by_id]
    finds: the first one with the id, sections before parameters before
    formulas. With it comes the first section holding such a field, the
    one [_find_section_for_field] names; for a parameter or a formula there
    is none ('N/A' here, 'Other' there). Nothing is found exactly when the
    field list of the report has no entry with the id. *)
Theorem explain_target_agrees (metadata : ReportMetadata) (field_id : string) :
  (fst <$> explain_target metadata field_id)
  = _find_field_by_id metadata field_id
  ∧ (∀ field section,
       explain_target metadata field_id = Some (field, Some section) →
       section ∈ m_sections metadata ∧ field ∈ s_fields section
       ∧ f_id field = field_id
       ∧ _find_section_for_field metadata field_id = s_name section)
  ∧ (∀ field,
       explain_target metadata field_id = Some (field, None) →
       f_id field = field_id
       ∧ (field ∈ m_parameters metadata ∨ field ∈ m_formulas metadata)
       ∧ _find_section_for_field metadata field_id = "Other")
  ∧ (explain_target metadata field_id = None
     ↔ ∀ entry, entry ∈ all_fields metadata →
                f_id (fd_field entry) ≠ field_id).
Proof.
  unfold explain_target, _find_field_by_id, _find_section_for_field.
  pose proof (target_in_sections_find (m_sections metadata) field_id) as Hfst.
  destruct (target_in_sections (m_sections metadata) field_id)
    as [[f s] |] eqn:Hsec; simpl in Hfst; rewrite <- Hfst.
  - split_and!; try done.
    + intros field section [= <- <-]. by apply target_in_sections_Some.
    + split; [done |]. intros Hall.
      apply target_in_sections_Some in Hsec as (Hs & Hf & Hid & _).
      destruct (proj2 (elem_of_all_fields metadata f)) as (entry & Hin & Hentry);
        [left; by exists s |].
      destruct (Hall entry Hin). by rewrite Hentry.
  - destruct (find_in_fields (m_parameters metadata) field_id) as [p |] eqn:Hp.
    + split_and!; try done.
      * intros field [= <-]. apply find_in_fields_Some in Hp as [Hin Hid].
        split_and!; [done | by left |].
        by apply _find_section_for_field_in_Other.
      * split; [done |]. intros Hall.
        apply find_in_fields_Some in Hp as [Hin Hid].
        destruct (proj2 (elem_of_all_fields metadata p)) as (entry & He & Hentry);
          [right; by left |].
        destruct (Hall entry He). by rewrite Hentry.
    + destruct (find_in_fields (m_formulas metadata) field_id) as [fm |] eqn:Hf;
        simpl.
      * split_and!; try done.
        -- intros field [= <-]. apply find_in_fields_Some in Hf as [Hin Hid].
           split_and!; [done | by right |].
           by apply _find_section_for_field_in_Other.
        -- split; [done |]. intros Hall.
           apply find_in_fields_Some in Hf as [Hin Hid].
           destruct (proj2 (elem_of_all_fields metadata fm))
             as (entry & He & Hentry); [right; by right |].
           destruct (Hall entry He). by rewrite Hentry.
      * split_and!; try done.
        split; [| done]. intros _ entry Hin Hid.
        destruct (proj1 (elem_of_all_fields metadata (fd_field entry)))
          as [(section & Hs & Hfield) | [Hin' | Hin']]; [by exists entry | | |].
        -- by apply (proj1 (target_in_sections_None _ _) Hsec section
                       (fd_field entry)).
        -- by apply (proj1 (find_in_fields_None _ _) Hp (fd_field entry)).
        -- by apply (proj1 (find_in_fields_None _ _) Hf (fd_field entry)).
Qed.

End EndpointsFacts.

(** ** More on the edit service *)
Module EditServiceMoreFacts.
Import Py Model EditService PyFacts Samples MoreSamples.
Import ModelFacts EditServiceFacts LookupFacts.

(** *** The preview copy, field by field *)

Lemma find_in_fields_patch_other (fields : list ReportField)
  (patch : EditPatch) (field_id : string) :
  p_target_field_id patch ≠ field_id →
  find_in_fields (patch_first fields patch) field_id
  = find_in_fields fields field_id.
Proof.
  intros Hne. induction fields as [| field rest IH]; [done |]. simpl.
  case_bool_decide as Htarget; simpl.
  - rewrite _apply_patch_to_field_id.
    rewrite !bool_decide_eq_false_2 by congruence. done.
  - by rewrite IH.
Qed.

Lemma _find_field_by_id_other (m : ReportMetadata) (patch : EditPatch)
  (field_id : string) :
  p_target_field_id patch ≠ field_id →
  _find_field_by_id (apply_patch_to_metadata m patch) field_id
  = _find_field_by_id m field_id.
Proof.
  intros Hne. unfold _find_field_by_id, apply_patch_to_metadata. simpl.
  rewrite !find_in_fields_patch_other by done.
  assert (find_in_sections (map (patch_section patch) (m_sections m)) field_id
          = find_in_sections (m_sections m) field_id) as ->; [| done].
  induction (m_sections m) as [| section rest IH]; [done |]. simpl.
  by rewrite find_in_fields_patch_other, IH.
Qed.

Lemma _find_field_by_id_fold (patches : list EditPatch) (field_id : string) :
  ∀ m,
    _find_field_by_id (fold_left apply_patch_to_metadata patches m) field_id
    = (λ f, fold_left _apply_patch_to_field
              (filter (λ p, p_target_field_id p = field_id) patches) f)
        <$> _find_field_by_id m field_id.
Proof.
  induction patches as [| patch rest IH]; intros m; simpl.
  - by destruct (_find_field_by_id m field_id).
  - rewrite IH, filter_cons. case_decide as Htarget.
    + subst field_id. rewrite _find_field_by_id_patched.
      by destruct (_find_field_by_id m (p_target_field_id patch)).
    + by rewrite _find_field_by_id_other.
Qed.

(** X16. On the preview copy, the field found under an id is the original
    one, re-validated, with the patches that target this id applied to it
    in the order of the list; the patches targeting other ids do not touch
    it. A field no patch targets is the re-validated original. *)
Theorem preview_copy_lookup (metadata : ReportMetadata)
  (patches : list EditPatch) (dry_run : bool) (field_id : string) :
  _find_field_by_id (_apply_patches_to_metadata metadata patches dry_run) field_id
  = (λ f, fold_left _apply_patch_to_field
            (filter (λ p, p_target_field_id p = field_id) patches)
            (ReportField_validate f))
      <$> _find_field_by_id metadata field_id
  ∧ ((∀ p, p ∈ patches → p_target_field_id p ≠ field_id) →
     _find_field_by_id (_apply_patches_to_metadata metadata patches dry_run)
       field_id
     = ReportField_validate <$> _find_field_by_id metadata field_id).
Proof.
  assert (_find_field_by_id (_apply_patches_to_metadata metadata patches dry_run)
            field_id
          = (λ f, fold_left _apply_patch_to_field
                    (filter (λ p, p_target_field_id p = field_id) patches)
                    (ReportField_validate f))
              <$> _find_field_by_id metadata field_id) as Heq.
  { unfold _apply_patches_to_metadata.
    rewrite _find_field_by_id_fold, _find_field_by_id_rebuild.
    by destruct (_find_field_by_id metadata field_id). }
  split; [exact Heq |]. intros Hnone. rewrite Heq.
  assert (filter (λ p, p_target_field_id p = field_id) patches = []) as ->; [| done].
  clear Heq. induction patches as [| p rest IH]; [done |].
  rewrite filter_cons. case_decide as Htarget.
  - destruct (Hnone p); [by left | done].
  - apply IH. intros q Hq. apply Hnone. by right.
Qed.

(** *** Warnings *)

Lemma constructed_position (raw patch : EditPatch) (d : gmap string Z) :
  EditPatch_new raw = inr patch →
  p_new_position patch = Some d →
  ∀ key, key ∈ required_keys → ∃ n, d !! key = Some n ∧ 0 ≤ n.
Proof.
  unfold EditPatch_new, validate_position.
  destruct (p_new_position raw) as [d' |] eqn:Hpos; [| by intros [= <-]].
  destruct (forallb (has_key d') required_keys); [| done]. cbn [negb].
  destruct (forallb (nonneg_at d') required_keys) eqn:Hvals; [| done].
  cbn [negb]. intros [= <-]. simpl. intros [= <-] key Hkey.
  by apply nonneg_at_spec, (proj1 (forallb_required _) Hvals).
Qed.

Lemma constructed_move_warning (raw patch : EditPatch) :
  EditPatch_new raw = inr patch → move_warning patch = [].
Proof.
  intros Hnew. unfold move_warning.
  destruct (p_new_position patch) as [d |] eqn:Hpos;
    [| by destruct (p_operation patch)].
  pose proof (constructed_position raw patch d Hnew Hpos) as Hkeys.
  destruct (Hkeys "x") as (x & Hx & Hx0); [set_solver |].
  destruct (Hkeys "y") as (y & Hy & Hy0); [set_solver |].
  unfold dict_get. rewrite Hx, Hy.
  rewrite !bool_decide_eq_false_2 by (simpl; lia).
  rewrite andb_false_r. by destruct (p_operation patch).
Qed.

(** X17. For patches built by the [EditPatch] constructor, the warning about
    negative coordinates never comes: the validator has refused such a
    position before. The warnings are then one per hide patch on a currency
    or formula field, followed by the one about renames when more than five
    patches rename; their number is at most the number of patches plus
    one. *)
Theorem warnings_of_constructed_patches (metadata : ReportMetadata)
  (patches : list EditPatch) :
  Forall (λ patch, ∃ raw, EditPatch_new raw = inr patch) patches →
  _generate_warnings metadata patches
  = concat (map (hide_warning metadata) patches)
    ++ (if bool_decide (5 < length (filter (λ p, is_rename p = true) patches))%nat
        then ["Renaming "
              +:+ pretty (length (filter (λ p, is_rename p = true) patches))
              +:+ " fields at once may cause confusion"]
        else [])
  ∧ (length (_generate_warnings metadata patches) ≤ length patches + 1)%nat.
Proof.
  intros Hnew.
  assert (concat (map move_warning patches) = []) as Hmove.
  { induction Hnew as [| patch rest [raw Hraw] _ IH]; [done |].
    simpl. by rewrite (constructed_move_warning raw patch Hraw), IH. }
  unfold _generate_warnings. rewrite Hmove, !app_nil_r. split; [done |].
  rewrite length_app.
  assert (length (concat (map (hide_warning metadata) patches))
          ≤ length patches)%nat as Hhide.
  { clear. induction patches as [| patch rest IH]; [done |].
    simpl. rewrite length_app.
    assert (length (hide_warning metadata patch) ≤ 1)%nat; [| lia].
    unfold hide_warning. repeat case_match; simpl; lia. }
  case_bool_decide; simpl; lia.
Qed.

Lemma warnings_of_constructed_patches_witness :
  _generate_warnings (sales true) [patch_of "p1" HIDE "f1"]
  = ["Hiding currency field 'Amount' may affect report calculations"].
Proof.
  destruct (warnings_of_constructed_patches (sales true) [patch_of "p1" HIDE "f1"])
    as [Heq _]; [| by rewrite Heq].
  apply Forall_cons. split; [by exists (patch_of "p1" HIDE "f1") | done].
Defined.

(** *** Files *)


Lemma apply_loop_files (E : env) (metadata : ReportMetadata) (file_path : Path)
  (user_id : option string) (dry_run : bool) (patches : list EditPatch)
  (w : world) :
  files (apply_loop E metadata file_path user_id dry_run 0 patches w
           no_progress).1 = files w
  ∧ (dry_run = true →
     (apply_loop E metadata file_path user_id dry_run 0 patches w
        no_progress).1 = w).
Proof.
  destruct (apply_loop_outcomes E metadata file_path user_id dry_run patches
              0%nat w no_progress) as (_ & _ & _ & Hfiles & Hcalls).
  simpl in Hfiles, Hcalls. split; [done |]. intros ->.
  rewrite app_nil_r in Hcalls.
  destruct (apply_loop E metadata file_path user_id true 0 patches w no_progress)
    as [[f c] acc].
  destruct w. simpl in *. congruence.
Qed.


(** *** The preview *)

Lemma patch_errors_found (metadata : ReportMetadata) (patch : EditPatch) :
  patch_errors metadata patch = [] →
  is_Some (_find_field_by_id metadata (p_target_field_id patch)).
Proof.
  unfold patch_errors.
  destruct (_find_field_by_id metadata (p_target_field_id patch)); [eauto | done].
Qed.

Lemma _validate_patches_nil (metadata : ReportMetadata)
  (patches : list EditPatch) :
  _validate_patches metadata patches = []
  ↔ ∀ patch, patch ∈ patches → patch_errors metadata patch = [].
Proof.
  induction patches as [| p rest IH]; simpl.
  - split; [| done]. intros _ patch Hin. by apply elem_of_nil in Hin.
  - split.
    + intros [Hp Hrest]%app_eq_nil patch [-> | Hin]%elem_of_cons; [done |].
      by apply IH.
    + intros Hall. rewrite (Hall p) by (by left). simpl.
      apply IH. intros patch Hin. apply Hall. by right.
Qed.

(** X19. A preview that is answered lists the patches as given and, as
    affected fields, one field per patch and in the order of the patches:
    the field the patch targets as it is in the metadata passed in, not as
    the preview copy has it; a field targeted twice is listed twice. A
    preview is answered exactly when the validation finds no error, the
    empty list included. *)
Theorem preview_edits_affected (metadata : ReportMetadata)
  (patches : list EditPatch) :
  (∀ response,
     preview_edits metadata patches = inr response →
     v_patches response = patches
     ∧ length (v_affected_fields response) = length patches
     ∧ (∀ i patch,
          patches !! i = Some patch →
          ∃ field, v_affected_fields response !! i = Some field
                   ∧ f_id field = p_target_field_id patch
                   ∧ _find_field_by_id metadata (p_target_field_id patch)
                     = Some field))
  ∧ ((∃ response, preview_edits metadata patches = inr response)
     ↔ _validate_patches metadata patches = [])
  ∧ (∀ message,
       preview_edits metadata patches = inl message →
       message = validation_message (_validate_patches metadata patches))
  ∧ preview_edits metadata []
    = inr {| v_patches := []; v_affected_fields := []; v_warnings := [];
             v_estimated_impact := "Medium impact - 0 field changes" |}.
Proof.
  unfold preview_edits.
  destruct (_validate_patches metadata patches) as [| e errors] eqn:Hvalid.
  2:{ split_and!; try done; [| by intros message [= <-]].
      split; [by intros [? ?] | done]. }
  split_and!; try done; [| split; [done | by eexists]].
  intros response [= <-]. simpl.
  pose proof (proj1 (_validate_patches_nil metadata patches) Hvalid) as Hall.
  clear Hvalid. unfold affected_fields.
  induction patches as [| p rest IH].
  - split_and!; try done.
  - destruct (patch_errors_found metadata p) as [field Hfield];
      [apply Hall; by left |].
    destruct IH as (_ & Hlen & Hith); [intros q Hq; apply Hall; by right |].
    split_and!; [done | |].
    + simpl. rewrite Hfield. simpl. by rewrite <- Hlen.
    + intros [| i] patch Hi; simpl in *.
      * injection Hi as <-. rewrite Hfield. simpl. exists field.
        split_and!; try done.
        by apply _find_field_by_id_Some in Hfield.
      * rewrite Hfield. simpl. by apply Hith.
Qed.

End EditServiceMoreFacts.

(** ** Suggestions for any report *)
Module QueryMoreFacts.
Import Py Model Query Samples MoreSamples.
Import QueryFacts.
Local Open Scope nat_scope.

Lemma fold_add_unique_elem (xs acc : list string) (x : string) :
  x ∈ fold_left add_unique xs acc ↔ x ∈ acc ∨ x ∈ xs.
Proof.
  revert acc. induction xs as [| y xs IH]; intros acc; simpl.
  - split; [by left | intros [? | Hin]; [done | by apply elem_of_nil in Hin]].
  - rewrite IH, add_unique_elem, elem_of_cons. tauto.
Qed.

(** X20. For every report, the suggestions begin with the three generic
    questions, in their order; there are between 3 and 15 of them, none
    twice, and each is one of the questions the report gives rise to. When
    those are at most 15 without their repetitions, none is lost. A report
    with no section, parameter, table or connection gets the three generic
    questions and nothing else. *)
Theorem suggestions_of_any_report (metadata : ReportMetadata) :
  take 3 (_generate_query_suggestions metadata) = generic_questions
  ∧ 3 ≤ length (_generate_query_suggestions metadata) ≤ 15
  ∧ NoDup (_generate_query_suggestions metadata)
  ∧ (∀ q, q ∈ _generate_query_suggestions metadata →
          q ∈ all_suggestions metadata)
  ∧ (length (dict_fromkeys (all_suggestions metadata)) ≤ 15 →
     ∀ q, q ∈ all_suggestions metadata →
          q ∈ _generate_query_suggestions metadata)
  ∧ (m_sections metadata = [] → m_parameters metadata = [] →
     m_tables metadata = [] → m_database_connections metadata = [] →
     _generate_query_suggestions metadata = generic_questions).
Proof.
  unfold _generate_query_suggestions.
  assert (generic_questions `prefix_of` dict_fromkeys (all_suggestions metadata))
    as [rest Hrest].
  { unfold dict_fromkeys, all_suggestions. rewrite fold_left_app.
    change (fold_left add_unique generic_questions []) with generic_questions.
    apply fold_add_unique_prefix. }
  split_and!.
  - rewrite Hrest. reflexivity.
  - rewrite length_take, Hrest, length_app. simpl. lia.
  - rewrite length_take. lia.
  - eapply sublist_NoDup; [| apply sublist_take].
    apply fold_add_unique_NoDup, NoDup_nil_2.
  - intros q (i & Hq%list_elem_of_lookup_2 & _)%elem_of_take.
    apply fold_add_unique_elem in Hq as [Hq | Hq];
      [by apply elem_of_nil in Hq | done].
  - intros Hlen q Hq. rewrite take_ge by done.
    apply fold_add_unique_elem. by right.
  - intros Hs Hp Ht Hc. unfold dict_fromkeys, all_suggestions, scan_sections,
      database_questions, parameter_questions, section_questions,
      has_section_type.
    rewrite Hs, Hp, Ht, Hc. reflexivity.
Qed.

End QueryMoreFacts.

(** ** The edit endpoints *)
Module EditApiFacts.
Import Py Model Storage EditService Upload Endpoints Samples MoreSamples EditApi.
Import ModelFacts EditServiceFacts LookupFacts EditServiceMoreFacts.

Lemma store_entries_log (fault : nat → option string)
  (entries : list ChangeLogEntry) :
  ∀ i log,
    log `prefix_of` (store_entries fault i entries log).1
    ∧ ((store_entries fault i entries log).2 = None →
       (store_entries fault i entries log).1 = log ++ entries).
Proof.
  induction entries as [| entry rest IH]; intros i log; simpl.
  - split; [done | by rewrite app_nil_r].
  - destruct (fault i) as [e |]; simpl; [done |].
    destruct (IH (S i) (log ++ [entry])) as [Hpre Hall]. split.
    + etrans; [by apply prefix_app_r | exact Hpre].
    + intros Hnone. by rewrite (Hall Hnone), <- app_assoc.
Qed.

Lemma apply_edits_dry_world (E : env) (w : world) (metadata : ReportMetadata)
  (patches : list EditPatch) (file_path : Path) (user_id : option string)
  (create_backup : bool) :
  (EditService.apply_edits E w metadata patches file_path user_id true
     create_backup).1 = w.
Proof.
  unfold EditService.apply_edits.
  destruct (_validate_patches metadata patches); [| done].
  replace (create_backup && negb true && exists_ w file_path) with false
    by (by destruct create_backup).
  pose proof (proj2 (apply_loop_files E metadata file_path user_id true patches w)
                eq_refl) as Hw.
  by destruct (apply_loop E metadata file_path user_id true 0 patches w no_progress).
Qed.

(** X21. The apply endpoint never writes to the [reports] table: the stored
    metadata is the same after any number of applied patches. It only adds
    to the change log, and when it answers 200 it has added the entries of
    the response, all of them, on a dry run as on a real one. A dry run
    leaves the files and the SDK alone. Its errors are 404, with nothing
    changed, or 500; a list of patches that fails validation is no error:
    the answer is 200 with the success flag unset, and nothing changed. *)
Theorem apply_endpoint_effects (to_path : string → Path) (E : api_env)
  (srv : server) (report_id : string) (request : ApplyEditsRequest) :
  table (EditApi.apply_edits to_path E srv report_id request).1 = table srv
  ∧ change_log srv
    `prefix_of` change_log (EditApi.apply_edits to_path E srv report_id request).1
  ∧ (∀ response,
       (EditApi.apply_edits to_path E srv report_id request).2 = Ok response →
       change_log (EditApi.apply_edits to_path E srv report_id request).1
       = change_log srv ++ r_change_log_entries response)
  ∧ (q_dry_run request = true →
     disk (EditApi.apply_edits to_path E srv report_id request).1 = disk srv)
  ∧ (∀ code detail,
       (EditApi.apply_edits to_path E srv report_id request).2
       = HTTPException code detail →
       code = 404
       ∧ (EditApi.apply_edits to_path E srv report_id request).1 = srv
       ∨ code = 500)
  ∧ (∀ metadata row,
       get_metadata (metadata_fault (reads E)) (table srv) report_id
       = Some metadata →
       get_report_status (status_fault (reads E)) (table srv) report_id
       = Some row →
       _validate_patches metadata (q_patches request) ≠ [] →
       EditApi.apply_edits to_path E srv report_id request
       = (srv,
          Ok (failed_all no_progress None
                (validation_message
                   (_validate_patches metadata (q_patches request)))))).
Proof.
  unfold EditApi.apply_edits.
  destruct (get_metadata (metadata_fault (reads E)) (table srv) report_id)
    as [metadata |]; [| split_and!; try done; intros ?? [= <- <-]; by left].
  destruct (get_report_status (status_fault (reads E)) (table srv) report_id)
    as [row |]; [| split_and!; try done; intros ?? [= <- <-]; by left].
  assert (q_dry_run request = true →
          (EditService.apply_edits (service E) (disk srv) metadata
             (q_patches request) (to_path (file_path row)) None
             (q_dry_run request) (q_create_backup request)).1 = disk srv) as Hdry.
  { intros ->. apply apply_edits_dry_world. }
  assert (_validate_patches metadata (q_patches request) ≠ [] →
          EditService.apply_edits (service E) (disk srv) metadata
            (q_patches request) (to_path (file_path row)) None
            (q_dry_run request) (q_create_backup request)
          = (disk srv,
             failed_all no_progress None
               (validation_message
                  (_validate_patches metadata (q_patches request))))) as Hinvalid.
  { intros Hne. unfold EditService.apply_edits.
    by destruct (_validate_patches metadata (q_patches request)). }
  destruct (EditService.apply_edits (service E) (disk srv) metadata
              (q_patches request) (to_path (file_path row)) None
              (q_dry_run request) (q_create_backup request))
    as [disk' response].
  pose proof (store_entries_log (log_fault E) (r_change_log_entries response)
                0%nat (change_log srv)) as [Hpre Hall].
  destruct (store_entries (log_fault E) 0 (r_change_log_entries response)
              (change_log srv)) as [log [e |]] eqn:Hstore; simpl in *.
  - split_and!; try done.
    + intros code detail [= <- <-]. by right.
    + intros ? ? [= <-] [= <-] Hne.
      specialize (Hinvalid Hne). injection Hinvalid as Hd Hr.
      subst disk' response. done.
  - split_and!; try done.
    + intros ? [= <-]. by apply Hall.
    + intros ? ? [= <-] [= <-] Hne.
      specialize (Hinvalid Hne). injection Hinvalid as Hd Hr.
      subst disk' response. simpl in Hall. rewrite (Hall eq_refl), app_nil_r. by destruct srv.
Qed.

(** *** The quick actions *)

Lemma apply_endpoint_table (to_path : string → Path) (E : api_env)
  (srv : server) (report_id : string) (request : ApplyEditsRequest) :
  table (EditApi.apply_edits to_path E srv report_id request).1 = table srv.
Proof.
  unfold EditApi.apply_edits.
  destruct (get_metadata _ _ _) as [metadata |]; [| done].
  destruct (get_report_status _ _ _) as [row |]; [| done].
  destruct (EditService.apply_edits _ _ _ _ _ _ _ _) as [disk' response].
  by destruct (store_entries _ _ _ _) as [log [e |]].
Qed.

Lemma apply_endpoint_invalid (to_path : string → Path) (E : api_env)
  (srv : server) (report_id : string) (request : ApplyEditsRequest)
  (metadata : ReportMetadata) (row : report_row) :
  get_metadata (metadata_fault (reads E)) (table srv) report_id = Some metadata →
  get_report_status (status_fault (reads E)) (table srv) report_id = Some row →
  _validate_patches metadata (q_patches request) ≠ [] →
  ∃ response,
    EditApi.apply_edits to_path E srv report_id request = (srv, Ok response)
    ∧ r_success response = false.
Proof.
  intros Hread Hstatus Hinvalid. unfold EditApi.apply_edits.
  rewrite Hread, Hstatus. unfold EditService.apply_edits.
  destruct (_validate_patches metadata (q_patches request)); [done |].
  simpl. eexists. split; [by destruct srv | done].
Qed.

Lemma apply_endpoint_unread (to_path : string → Path) (E : api_env)
  (srv : server) (report_id : string) (request : ApplyEditsRequest) :
  get_metadata (metadata_fault (reads E)) (table srv) report_id = None →
  EditApi.apply_edits to_path E srv report_id request
  = (srv, HTTPException 404 "Report not found or not processed").
Proof. intros Hread. unfold EditApi.apply_edits. by rewrite Hread. Qed.

(** X22. [hide_field] never answers 404: whatever the endpoint it calls
    raises, a missing report included, comes back as a 500. When it answers
    200 the message says the field was hidden, successfully, also when the
    success flag beside it is unset; for an id no field of the report has,
    that is the answer, and nothing has changed. The stored metadata is the
    same before and after. *)
Theorem hide_field_answers (to_path : string → Path)
  (str_http : Z → string → string) (E : api_env) (srv : server)
  (report_id field_id : string) (description : option string) :
  (∀ code detail,
     (hide_field to_path str_http E srv report_id field_id description).2
     = HTTPException code detail → code = 500)
  ∧ (∀ answer,
       (hide_field to_path str_http E srv report_id field_id description).2
       = Ok answer →
       a_message answer = "Field " +:+ field_id +:+ " hidden successfully"
       ∧ a_patch_id answer = new_patch_id E)
  ∧ (get_metadata (metadata_fault (reads E)) (table srv) report_id = None →
     hide_field to_path str_http E srv report_id field_id description
     = (srv,
        HTTPException 500
          ("Failed to hide field: "
           +:+ str_http 404 "Report not found or not processed")))
  ∧ (∀ metadata row,
       get_metadata (metadata_fault (reads E)) (table srv) report_id
       = Some metadata →
       get_report_status (status_fault (reads E)) (table srv) report_id
       = Some row →
       _find_field_by_id metadata field_id = None →
       hide_field to_path str_http E srv report_id field_id description
       = (srv,
          Ok {| a_message := "Field " +:+ field_id +:+ " hidden successfully";
                a_patch_id := new_patch_id E; a_success := false |}))
  ∧ table (hide_field to_path str_http E srv report_id field_id description).1
    = table srv.
Proof.
  unfold hide_field.
  set (patch := quick_patch E HIDE field_id None None
                  (or_else description ("Hide field " +:+ field_id))).
  split_and!.
  - intros code detail.
    destruct (EditApi.apply_edits to_path E srv report_id (quick_request patch))
      as [srv' [response | code' detail']]; [done | by intros [= <- _]].
  - intros answer.
    destruct (EditApi.apply_edits to_path E srv report_id (quick_request patch))
      as [srv' [response | code' detail']]; [by intros [= <-] | done].
  - intros Hread. by rewrite (apply_endpoint_unread _ _ _ _ _ Hread).
  - intros metadata row Hread Hstatus Hnone.
    destruct (apply_endpoint_invalid to_path E srv report_id
                (quick_request patch) metadata row Hread Hstatus)
      as (response & -> & Hsuccess).
    + simpl. unfold patch_errors. simpl. by rewrite Hnone.
    + by rewrite Hsuccess.
  - pose proof (apply_endpoint_table to_path E srv report_id
                  (quick_request patch)) as Htable.
    by destruct (EditApi.apply_edits to_path E srv report_id (quick_request patch))
      as [srv' [response | code' detail']].
Qed.

(** X23. [rename_field] with an empty new name, on a field the report has:
    the answer is 200, the message says the field was renamed to ''
    successfully, the success flag is unset, and nothing has changed, the
    change log included. Like [hide_field] it turns every error of the
    endpoint it calls into a 500 and leaves the stored metadata alone. *)
Theorem rename_field_answers (to_path : string → Path)
  (str_http : Z → string → string) (E : api_env) (srv : server)
  (report_id field_id new_name : string) (description : option string) :
  (∀ code detail,
     (rename_field to_path str_http E srv report_id field_id new_name
        description).2 = HTTPException code detail → code = 500)
  ∧ (∀ answer,
       (rename_field to_path str_http E srv report_id field_id new_name
          description).2 = Ok answer →
       a_message answer
       = "Field " +:+ field_id +:+ " renamed to '" +:+ new_name
         +:+ "' successfully"
       ∧ a_patch_id answer = new_patch_id E)
  ∧ (∀ metadata row,
       get_metadata (metadata_fault (reads E)) (table srv) report_id
       = Some metadata →
       get_report_status (status_fault (reads E)) (table srv) report_id
       = Some row →
       new_name = "" ∨ _find_field_by_id metadata field_id = None →
       rename_field to_path str_http E srv report_id field_id new_name
         description
       = (srv,
          Ok {| a_message := "Field " +:+ field_id +:+ " renamed to '"
                             +:+ new_name +:+ "' successfully";
                a_patch_id := new_patch_id E; a_success := false |}))
  ∧ table (rename_field to_path str_http E srv report_id field_id new_name
             description).1 = table srv.
Proof.
  unfold rename_field.
  set (patch := quick_patch E RENAME field_id (Some new_name) None
                  (or_else description
                     ("Rename field " +:+ field_id +:+ " to " +:+ new_name))).
  split_and!.
  - intros code detail.
    destruct (EditApi.apply_edits to_path E srv report_id (quick_request patch))
      as [srv' [response | code' detail']]; [done | by intros [= <- _]].
  - intros answer.
    destruct (EditApi.apply_edits to_path E srv report_id (quick_request patch))
      as [srv' [response | code' detail']]; [by intros [= <-] | done].
  - intros metadata row Hread Hstatus Hbad.
    destruct (apply_endpoint_invalid to_path E srv report_id
                (quick_request patch) metadata row Hread Hstatus)
      as (response & -> & Hsuccess).
    + simpl. unfold patch_errors. simpl.
      destruct (_find_field_by_id metadata field_id); [| done].
      destruct Hbad as [-> | Hnone]; done.
    + by rewrite Hsuccess.
  - pose proof (apply_endpoint_table to_path E srv report_id
                  (quick_request patch)) as Htable.
    by destruct (EditApi.apply_edits to_path E srv report_id (quick_request patch))
      as [srv' [response | code' detail']].
Qed.

(** The position [move_field] builds, through the validator. *)
Lemma validate_new_position (x y w h : Z) :
  validate_position
    (Some {[ "x" := x; "y" := y; "width" := w; "height" := h ]})
  = if bool_decide (0 ≤ x ∧ 0 ≤ y ∧ 0 ≤ w ∧ 0 ≤ h)
    then inr (Some {[ "x" := x; "y" := y; "width" := w; "height" := h ]})
    else inl PositionValuesInvalid.
Proof.
  unfold validate_position.
  assert (forallb
            (has_key {[ "x" := x; "y" := y; "width" := w; "height" := h ]})
            required_keys = true) as ->.
  { apply forallb_required. intros key Hkey. apply has_key_spec.
    unfold required_keys in Hkey.
    repeat (apply elem_of_cons in Hkey as [-> | Hkey]; [by eexists |]).
    by apply elem_of_nil in Hkey. }
  cbn [negb].
  destruct (forallb
              (nonneg_at {[ "x" := x; "y" := y; "width" := w; "height" := h ]})
              required_keys) eqn:Hvals; cbn [negb].
  - pose proof (proj1 (forallb_required _) Hvals) as Hall.
    rewrite bool_decide_eq_true_2; [done |].
    split_and!.
    + destruct (proj1 (nonneg_at_spec _ _) (Hall "x" ltac:(set_solver)))
        as (n & [= <-] & Hn). done.
    + destruct (proj1 (nonneg_at_spec _ _) (Hall "y" ltac:(set_solver)))
        as (n & [= <-] & Hn). done.
    + destruct (proj1 (nonneg_at_spec _ _) (Hall "width" ltac:(set_solver)))
        as (n & [= <-] & Hn). done.
    + destruct (proj1 (nonneg_at_spec _ _) (Hall "height" ltac:(set_solver)))
        as (n & [= <-] & Hn). done.
  - rewrite bool_decide_eq_false_2; [done |].
    intros (Hx & Hy & Hw & Hh).
    assert (forallb
              (nonneg_at {[ "x" := x; "y" := y; "width" := w; "height" := h ]})
              required_keys = true) as Htrue; [| congruence].
    apply forallb_required. intros key Hkey. apply nonneg_at_spec.
    unfold required_keys in Hkey.
    repeat (apply elem_of_cons in Hkey as [-> | Hkey]; [by eexists |]).
    by apply elem_of_nil in Hkey.
Qed.

Lemma find_in_sections_found (metadata : ReportMetadata) (field_id : string)
  (field : ReportField) :
  find_in_sections (m_sections metadata) field_id = Some field →
  _find_field_by_id metadata field_id = Some field.
Proof. intros Hfind. unfold _find_field_by_id. by rewrite Hfind. Qed.

(** X24. [move_field] looks the field up in the sections only: for a
    parameter or a formula it answers 404, 'Field not found'. A negative x
    or y, or a negative width or height, given or taken from the field,
    is refused by the constructor of the patch, and that comes back as a
    500 with nothing changed. Otherwise the patch carries x and y as given
    and, for a width or height left out, the one the field has; when the
    backup, the SDK call and the insertion into the change log go through,
    the answer is 200 with the success flag set, and the change log has one
    more entry, from the position of the field to the new one. *)
Theorem move_field_answers (to_path : string → Path)
  (str_validation : ValueError → string) (E : api_env) (srv : server)
  (report_id field_id : string) (x y : Z) (width height : option Z)
  (description : option string) :
  (get_metadata (metadata_fault (reads E)) (table srv) report_id = None →
   move_field to_path str_validation E srv report_id field_id x y width height
     description
   = (srv, HTTPException 404 "Report not found"))
  ∧ (∀ metadata,
       get_metadata (metadata_fault (reads E)) (table srv) report_id
       = Some metadata →
       find_in_sections (m_sections metadata) field_id = None →
       move_field to_path str_validation E srv report_id field_id x y width
         height description
       = (srv, HTTPException 404 "Field not found"))
  ∧ (∀ metadata current,
       get_metadata (metadata_fault (reads E)) (table srv) report_id
       = Some metadata →
       find_in_sections (m_sections metadata) field_id = Some current →
       x < 0 ∨ y < 0 ∨ default (f_width current) width < 0
       ∨ default (f_height current) height < 0 →
       move_field to_path str_validation E srv report_id field_id x y width
         height description
       = (srv,
          HTTPException 500
            ("Failed to move field: " +:+ str_validation PositionValuesInvalid)))
  ∧ (∀ metadata current row,
       get_metadata (metadata_fault (reads E)) (table srv) report_id
       = Some metadata →
       find_in_sections (m_sections metadata) field_id = Some current →
       get_report_status (status_fault (reads E)) (table srv) report_id
       = Some row →
       0 ≤ x → 0 ≤ y → 0 ≤ default (f_width current) width →
       0 ≤ default (f_height current) height →
       copy_outcome (service E) = None →
       (∀ patch, sdk_outcome (service E) 0 patch = None) →
       log_fault E 0%nat = None →
       ∃ srv' entry,
         move_field to_path str_validation E srv report_id field_id x y width
           height description
         = (srv',
            Ok {| a_message := "Field " +:+ field_id +:+ " moved to ("
                               +:+ pretty x +:+ ", " +:+ pretty y
                               +:+ ") successfully";
                  a_patch_id := new_patch_id E; a_success := true |})
         ∧ table srv' = table srv
         ∧ change_log srv' = change_log srv ++ [entry]
         ∧ c_field_id entry = field_id
         ∧ c_operation entry = MOVE
         ∧ c_before_value entry = Some (position_snapshot current)
         ∧ c_after_value entry
           = Some (as_any {[ "x" := x; "y" := y;
                             "width" := default (f_width current) width;
                             "height" := default (f_height current) height ]})).
Proof.
  unfold move_field. split_and!.
  - by intros ->.
  - by intros metadata -> ->.
  - intros metadata current -> -> Hneg. unfold EditPatch_new.
    cbn [quick_patch p_new_position]. rewrite validate_new_position.
    rewrite bool_decide_eq_false_2 by lia. done.
  - intros metadata current row Hread Hfind Hstatus Hx Hy Hw Hh Hcopy Hsdk Hlog.
    rewrite Hread, Hfind. unfold EditPatch_new.
    cbn [quick_patch p_new_position]. rewrite validate_new_position.
    rewrite bool_decide_eq_true_2 by done.
    cbn [p_id p_operation p_target_field_id p_target_section_id p_new_name
         p_new_format p_visible p_description p_created_at p_applied_at].
    set (position := ({[ "x" := x; "y" := y;
                         "width" := default (f_width current) width;
                         "height" := default (f_height current) height ]}
                      : gmap string Z)).
    match goal with
    | |- context [EditApi.apply_edits to_path E srv report_id (quick_request ?p)] =>
        set (patch := p)
    end.
    pose proof (find_in_sections_found metadata field_id current Hfind) as Hfound.
    assert (_validate_patches metadata [patch] = []) as Hvalid.
    { simpl. unfold patch_errors. simpl. rewrite Hfound. simpl.
      rewrite bool_decide_eq_false_2; [done |]. apply insert_non_empty. }
    unfold EditApi.apply_edits. rewrite Hread, Hstatus. simpl.
    destruct (apply_edits_valid (service E) (disk srv) metadata [patch]
                (to_path (file_path row)) None false true Hvalid
                (λ _ _ _, Hcopy))
      as (w1 & backup & _ & _ & ->).
    simpl. rewrite Hsdk. simpl. rewrite Hlog. simpl.
    eexists _, _. split; [reflexivity |]. simpl.
    split_and!; try done.
    + unfold _create_change_log_entry. simpl. by rewrite Hfound.
    + unfold _create_change_log_entry. simpl. by rewrite Hfound.
Qed.

End EditApiFacts.

(** ** From upload to metadata *)
Module LifecycleFacts.
Import Py Model Storage EditService Upload Endpoints Requests Samples MoreSamples.
Import LookupFacts EndpointsFacts.

(** X25. From upload to metadata. After an upload answered 200 on a server
    with no task waiting, the status endpoint shows the record of the
    response, in status 'uploading' and under the path the file was written
    to; the next task run is that of the new report and leaves no task
    behind. If the parser and the two writes go through, the report is
    ready and [get_report_metadata] returns what the parser produced, as
    rebuilt from the stored text; if the parser raises and the handler can
    write, the report is in error and the endpoint answers 422 with the
    parser's message. *)
Theorem uploaded_report_lifecycle (suffix_lower : string → string)
  (megabytes : Z → string)
  (in_dir : string → string → string) (settings : Settings) (E : upload_env)
  (T : task_env) (R : read_env) (w w1 : state) (file_name : option string)
  (content : list Byte.byte) (response : UploadResponse) :
  upload_report suffix_lower megabytes in_dir settings E w file_name content
  = (w1, Ok response) →
  background_tasks w = [] →
  metadata_fault R = false →
  status_fault R = false →
  (∃ status_info,
     get_upload_status R (reports w1) (u_report_id response) = Ok status_info
     ∧ filename status_info = u_filename response
     ∧ file_path status_info = upload_path in_dir settings E file_name
     ∧ file_size status_info = u_file_size response
     ∧ status status_info = UPLOADING
     ∧ error_message status_info = None)
  ∧ ∃ w2,
    last (run_next T w1) = Some w2
    ∧ background_tasks w2 = []
    ∧ fs w2 = fs w1
    ∧ (∀ metadata,
         parse_report T = inr metadata →
         store_fault T = None → ready_fault T = None →
         (status <$> reports w2 !! u_report_id response) = Some READY
         ∧ get_report_metadata R (reports w2) (u_report_id response)
           = Ok (ReportMetadata_rebuild metadata))
    ∧ (∀ e,
         parse_report T = inl e → error_fault T = None →
         (status <$> reports w2 !! u_report_id response) = Some ERROR
         ∧ get_report_metadata R (reports w2) (u_report_id response)
           = HTTPException 422 ("Report processing failed: " +:+ e)).
Proof.
  intros Hupload Htasks HRm HRs.
  unfold upload_report, create_report_record in Hupload.
  repeat (case_match; simplify_eq/=).
  unfold run_next. simpl. rewrite Htasks. simpl.
  unfold get_upload_status, get_report_metadata, get_metadata,
    get_report_status, get_metadata.
  rewrite HRm, HRs.
  split; [rewrite lookup_insert_eq; by eexists |].
  unfold process_report_background, try_except, parse, write, stat_size,
    store_metadata, update_report_status, mbind, M_bind, bind, mret, M_ret, ret,
    raise, set_reports.
  destruct T as [[e | metadata] [sf |] [rf |] [ef |] se]; simpl;
    rewrite ?lookup_insert_eq; simpl;
    (eexists; split; [reflexivity |]); simpl;
    rewrite ?lookup_alter_eq, ?lookup_insert_eq; simpl;
    split_and!; try done;
    try (by intros ? [= <-] ?);
    try (by intros ? [= <-] ? ?);
    try (by intros ? [= <-]).
Qed.

Lemma uploaded_report_lifecycle_witness :
  ∃ w2,
    last (run_next parse_ok after_upload) = Some w2
    ∧ get_report_metadata no_faults (reports w2) "id-1" = Ok parsed.
Proof.
  destruct (uploaded_report_lifecycle sample_suffix_lower sample_megabytes sample_in_dir small
              first_upload parse_ok no_faults initial after_upload
              (Some "sales.rpt") one_byte
              {| u_report_id := "id-1"; u_filename := "sales.rpt";
                 u_file_size := 1; u_status := PARSING;
                 u_message :=
                   "File uploaded successfully. Processing in background." |})
    as (_ & w2 & Hlast & _ & _ & Hready & _); try done.
  exists w2. split; [exact Hlast |].
  by destruct (Hready parsed eq_refl eq_refl eq_refl) as [_ Hmeta].
Defined.

(** *** What [explain_field] asks about *)

(** X26. [explain_field], up to its call of the language model: it answers
    404 'Report not found or not processed' exactly when no metadata can be
    read and 404 'Field not found' exactly when the metadata has no field
    with the id. Otherwise the question is about the field
    [_find_field_by_id] finds, and the section named in the context is the
    one [_find_section_for_field] gives, or 'N/A' where that one says
    'Other'. *)
Theorem explain_field_target_answers (R : read_env)
  (table : gmap string report_row) (report_id field_id : string) :
  (explain_field_target R table report_id field_id
   = HTTPException 404 "Report not found or not processed"
   ↔ get_metadata (metadata_fault R) table report_id = None)
  ∧ (∀ metadata,
       get_metadata (metadata_fault R) table report_id = Some metadata →
       (explain_field_target R table report_id field_id
        = HTTPException 404 "Field not found"
        ↔ _find_field_by_id metadata field_id = None)
       ∧ (∀ field_name section_name,
            explain_field_target R table report_id field_id
            = Ok (field_name, section_name) →
            ∃ field,
              _find_field_by_id metadata field_id = Some field
              ∧ f_id field = field_id
              ∧ field_name = f_name field
              ∧ (section_name = _find_section_for_field metadata field_id
                 ∨ section_name = "N/A"
                   ∧ _find_section_for_field metadata field_id = "Other"))).
Proof.
  unfold explain_field_target.
  destruct (get_metadata (metadata_fault R) table report_id) as [metadata |];
    [| split_and!; done].
  split.
  { split; [| done]. by repeat case_match. }
  intros ? [= <-].
  pose proof (target_in_sections_find (m_sections metadata) field_id) as Hfst.
  unfold explain_target, _find_field_by_id, _find_section_for_field.
  destruct (target_in_sections (m_sections metadata) field_id)
    as [[f s] |] eqn:Hsec; simpl in Hfst; rewrite <- Hfst.
  - apply target_in_sections_Some in Hsec as (_ & _ & Hid & Hname).
    split; [done |]. intros ? ? [= <- <-]. exists f. split_and!; try done.
    by left.
  - pose proof (_find_section_for_field_in_Other _ _ Hsec) as Hother.
    destruct (find_in_fields (m_parameters metadata) field_id) as [p |] eqn:Hp.
    + apply find_in_fields_Some in Hp as [_ Hid].
      split; [done |]. intros ? ? [= <- <-]. exists p. split_and!; try done.
      by right.
    + destruct (find_in_fields (m_formulas metadata) field_id) as [fm |] eqn:Hf;
        simpl; [| done].
      apply find_in_fields_Some in Hf as [_ Hid].
      split; [done |]. intros ? ? [= <- <-]. exists fm. split_and!; try done.
      by right.
Qed.

End LifecycleFacts.
